(** * ERP backend: validation, normalisation and persistence pipeline

    A shallow embedding of the Express/Mongoose controllers of the ERP
    backend (employees, projects, tasks, users, materials and the
    application wiring of [index.js]) together with the properties stated
    about them.

    Conventions of the embedding:
    - a request body, a query string and a stored document are JavaScript
      objects: finite maps from property names to [JsValue]s;
    - [async] handlers run to completion one at a time, so a handler is a
      function from the database state to a response and a new state;
    - [try]/[catch] is an explicit result type: a thrown value is a
      [JsError], and every handler's [catch] block is a function from the
      error to the response;
    - numbers are whole numbers or [NaN]: fractions and infinities are
      outside the model, and so is binary64 rounding except where a handler
      does arithmetic on stored numbers ([roundToDouble]); strings are
      sequences of 8-bit code units of which only the ASCII ones are white
      space, digits or letters;
    - the conversions to a string, a number or a date are those of the
      values that convert to a primitive ([converts]);
    - what depends on Mongoose or MongoDB and on nothing in the sources is a
      parameter: the schemas that are not among the sources ([Model]), the
      cast of a string to an ObjectId, and the reads of the listing and
      statistics routes. *)

From Stdlib Require Import ZArith Lia Ascii String Sorted.
From stdpp Require Import base gmap strings list.

#[local] Set Warnings "-register-all".
#[local] Open Scope Z_scope.

(** ** JavaScript values *)

Inductive JsNum :=
| NaN
| Fin (z : Z).

Inductive JsValue :=
| JUndefined
| JNull
| JBool (b : bool)
| JNum (n : JsNum)
| JStr (s : string)
| JDate (t : option Z)            (* time value in ms; [None] is Invalid Date *)
| JArr (l : list JsValue)
| JObj (o : gmap string JsValue).

Abbreviation Obj := (gmap string JsValue).

(** Property read [o.k]: a missing property reads as [undefined]. *)
Definition get (o : Obj) (k : string) : JsValue := default JUndefined (o !! k).

(** Property write [o.k = v]. *)
Definition set (k : string) (v : JsValue) (o : Obj) : Obj := <[k := v]> o.

(** Object literal. *)
Definition obj (l : list (string * JsValue)) : Obj := list_to_map l.

(** ToBoolean. *)
Definition truthy (v : JsValue) : bool :=
  match v with
  | JUndefined | JNull => false
  | JBool b => b
  | JNum NaN => false
  | JNum (Fin z) => negb (z =? 0)
  | JStr s => negb (String.eqb s "")
  | JDate _ | JArr _ | JObj _ => true
  end.

(** [a || b]. *)
Definition jsOr (a b : JsValue) : JsValue := if truthy a then a else b.

(** ToPrimitive returns on [v]. A value parsed from JSON holds no function,
    so an own property [toString] of an object shadows
    [Object.prototype.toString] with a value that cannot be called, and
    neither [valueOf] (own, not callable, or inherited, returning the object)
    nor [toString] yields a primitive: the conversion throws a [TypeError].
    An array converts through [join], which converts its elements other than
    [null] and [undefined]. *)
Fixpoint converts (v : JsValue) : bool :=
  match v with
  | JObj o => bool_decide (o !! "toString" = None)
  | JArr l => forallb (fun x => match x with
                                | JUndefined | JNull => true
                                | _ => converts x
                                end) l
  | _ => true
  end.

(** Thrown values, as far as the [catch] blocks tell them apart:
    [error.name === 'ValidationError'] (with [error.errors]),
    [error.code === 11000] (with the first key of [error.keyPattern]),
    and everything else ([TypeError]s included). *)
Inductive JsError :=
| TypeError (msg : string)
| ValidationError (msg : string) (errors : list string)
| DuplicateKey (msg : string) (field : string)
| OtherError (msg : string).

Definition errMessage (e : JsError) : string :=
  match e with
  | TypeError m | ValidationError m _ | DuplicateKey m _ | OtherError m => m
  end.

Inductive Result (A : Type) :=
| Ok (a : A)
| Throw (e : JsError).
Arguments Ok {A} a.
Arguments Throw {A} e.

Definition rbind {A B} (m : Result A) (k : A -> Result B) : Result B :=
  match m with
  | Ok a => k a
  | Throw e => Throw e
  end.

(** ** Strings *)

Definition isWhite (c : ascii) : bool :=
  let n := nat_of_ascii c in
  (Nat.eqb n 32 || (Nat.leb 9 n && Nat.leb n 13))%bool.

Definition isDigit (c : ascii) : bool :=
  let n := nat_of_ascii c in (Nat.leb 48 n && Nat.leb n 57)%bool.

Definition digitVal (c : ascii) : Z := Z.of_nat (nat_of_ascii c) - 48.

Definition digitChar (d : Z) : ascii := ascii_of_nat (Z.to_nat (48 + d)).

Definition upperChar (c : ascii) : ascii :=
  let n := nat_of_ascii c in
  if (Nat.leb 97 n && Nat.leb n 122)%bool then ascii_of_nat (n - 32) else c.

(** [s.toUpperCase()]. *)
Fixpoint toUpperCase (s : string) : string :=
  match s with
  | EmptyString => EmptyString
  | String c s' => String (upperChar c) (toUpperCase s')
  end.

Fixpoint trimStart (s : string) : string :=
  match s with
  | EmptyString => EmptyString
  | String c s' => if isWhite c then trimStart s' else s
  end.

Fixpoint trimEnd (s : string) : string :=
  match s with
  | EmptyString => EmptyString
  | String c s' =>
      match trimEnd s' with
      | EmptyString => if isWhite c then EmptyString else String c EmptyString
      | t => String c t
      end
  end.

(** [s.trim()]. *)
Definition trim (s : string) : string := trimEnd (trimStart s).

(** [s.replace(/\s+/g, ' ')]: every maximal run of white space becomes one
    space. [inRun] tells that the previous character was white space. *)
Fixpoint collapseFrom (inRun : bool) (s : string) : string :=
  match s with
  | EmptyString => EmptyString
  | String c s' =>
      if isWhite c
      then (if inRun then collapseFrom true s'
            else String " " (collapseFrom true s'))
      else String c (collapseFrom false s')
  end.

Definition collapseSpaces (s : string) : string := collapseFrom false s.

(** [s.replace(/\D/g, '')]. *)
Fixpoint stripNonDigits (s : string) : string :=
  match s with
  | EmptyString => EmptyString
  | String c s' =>
      if isDigit c then String c (stripNonDigits s') else stripNonDigits s'
  end.

(** [list.join(', ')]. *)
Fixpoint join (sep : string) (l : list string) : string :=
  match l with
  | [] => ""
  | [x] => x
  | x :: rest => x +:+ sep +:+ join sep rest
  end.

(** [hay.includes(needle)] on strings. *)
Fixpoint isPrefix (p s : string) : bool :=
  match p, s with
  | EmptyString, _ => true
  | String a p', String b s' => (Ascii.eqb a b && isPrefix p' s')%bool
  | String _ _, EmptyString => false
  end.

Fixpoint contains (needle hay : string) : bool :=
  match hay with
  | EmptyString => isPrefix needle EmptyString
  | String _ h' => (isPrefix needle hay || contains needle h')%bool
  end.

(** [list.includes(v)] for a list of string literals: only a string can be
    a member. *)
Definition includes (l : list string) (v : JsValue) : bool :=
  match v with
  | JStr s => existsb (String.eqb s) l
  | _ => false
  end.

(** A method of [String.prototype] called on a value: calling it on
    anything but a string is [TypeError: x.m is not a function]. The callers
    only make the call on truthy values, so [undefined]/[null] receivers do
    not arise. *)
Definition strMethod (name : string) (f : string -> string) (v : JsValue)
  : Result string :=
  match v with
  | JStr s => Ok (f s)
  | _ => Throw (TypeError (name +:+ " is not a function"))
  end.

(** ** Numbers and their strings *)

Fixpoint readDigits (s : string) (a : Z) : Z :=
  match s with
  | EmptyString => a
  | String c s' => if isDigit c then readDigits s' (10 * a + digitVal c) else a
  end.

Definition startsWithDigit (s : string) : bool :=
  match s with
  | String c _ => isDigit c
  | EmptyString => false
  end.

(** [parseInt(s, 10)] on a string: leading white space is skipped, a sign is
    read, then the longest run of decimal digits; no digit gives [NaN]. *)
Definition parseIntStr (s : string) : JsNum :=
  let t := trimStart s in
  let '(neg, u) :=
    match t with
    | String "-" u => (true, u)
    | String "+" u => (false, u)
    | _ => (false, t)
    end in
  if startsWithDigit u
  then Fin (if neg then - readDigits u 0 else readDigits u 0)
  else NaN.

Definition hexVal (c : ascii) : option Z :=
  let n := nat_of_ascii c in
  if isDigit c then Some (Z.of_nat n - 48)
  else if (Nat.leb 97 n && Nat.leb n 102)%bool then Some (Z.of_nat n - 87)
  else if (Nat.leb 65 n && Nat.leb n 70)%bool then Some (Z.of_nat n - 55)
  else None.

Fixpoint readHex (s : string) (a : Z) : Z :=
  match s with
  | EmptyString => a
  | String c s' =>
      match hexVal c with
      | Some d => readHex s' (16 * a + d)
      | None => a
      end
  end.

(** [parseInt(s)] without a radix: as [parseIntStr], except that a [0x] or
    [0X] prefix selects base 16. *)
Definition parseIntAutoStr (s : string) : JsNum :=
  let t := trimStart s in
  let '(neg, u) :=
    match t with
    | String "-" u => (true, u)
    | String "+" u => (false, u)
    | _ => (false, t)
    end in
  let signed := fun z : Z => Fin (if neg then - z else z) in
  match u with
  | String "0" (String x h) =>
      if (Ascii.eqb x "x" || Ascii.eqb x "X")%bool
      then match h with
           | String c _ => if bool_decide (is_Some (hexVal c))
                           then signed (readHex h 0) else NaN
           | EmptyString => NaN
           end
      else signed (readDigits u 0)
  | _ => if startsWithDigit u then signed (readDigits u 0) else NaN
  end.

(** [/^[0-9]+$/.test(s)]. *)
Definition allDigits (s : string) : bool :=
  (negb (String.eqb s "") && String.eqb (stripNonDigits s) s)%bool.

Fixpoint digitsFrom (fuel : nat) (z : Z) (acc : string) : string :=
  match fuel with
  | O => acc
  | S f =>
      let acc' := String (digitChar (z mod 10)) acc in
      if z <? 10 then acc' else digitsFrom f (z / 10) acc'
  end.

(** Decimal digits of a non-negative integer. *)
Definition decimalDigits (z : Z) : string :=
  digitsFrom (S (Z.to_nat (Z.log2 z))) z "".

Fixpoint dropTrailingZeros (s : string) : string :=
  match s with
  | EmptyString => EmptyString
  | String c s' =>
      match dropTrailingZeros s' with
      | EmptyString => if Ascii.eqb c "0" then EmptyString else String c EmptyString
      | t => String c t
      end
  end.

(** Number::toString on a non-negative integer: plain digits below 10^21,
    exponent notation [d.ddde+NN] from there on. *)
Definition magnitudeToString (z : Z) : string :=
  let ds := decimalDigits z in
  if z <? 10 ^ 21 then ds
  else
    match ds with
    | String d rest =>
        let frac := dropTrailingZeros rest in
        String d (match frac with
                  | EmptyString => ""
                  | _ => "." +:+ frac
                  end)
        +:+ "e+" +:+ decimalDigits (Z.of_nat (String.length rest))
    | EmptyString => ds
    end.

Definition numberToString (n : JsNum) : string :=
  match n with
  | NaN => "NaN"
  | Fin z => if z <? 0 then "-" +:+ magnitudeToString (- z) else magnitudeToString z
  end.

(** TimeClip: time values beyond 8.64e15 ms are invalid. *)
Definition timeClip (t : option Z) : option Z :=
  match t with
  | Some z => if Z.abs z <=? 8640000000000000 then Some z else None
  | None => None
  end.

(** [a <= b] on two [Date] objects: both are converted to their time values,
    and a comparison with [NaN] is false. *)
Definition dateLe (a b : option Z) : bool :=
  match a, b with
  | Some x, Some y => x <=? y
  | _, _ => false
  end.


#[global] Instance result_ret : MRet Result := fun _ a => Ok a.
#[global] Instance result_bind : MBind Result := fun _ _ k m => rbind m k.

(** [errors.push(msg)] under a condition. *)
Definition pushIf (c : bool) (msg : string) (errors : list string) : list string :=
  if c then errors ++ [msg] else errors.

(** ** The database *)

Record Db := {
  companies : list Obj;
  users : list Obj;
  employees : list Obj;
  projects : list Obj;
  tasks : list Obj;
  materials : list Obj
}.

(** Equality of a stored value with the value of a query condition. *)
Definition queryEq (stored q : JsValue) : bool :=
  match stored, q with
  | JNum (Fin a), JNum (Fin b) => a =? b
  | JStr a, JStr b => String.eqb a b
  | JBool a, JBool b => Bool.eqb a b
  | _, _ => false
  end.

(** The conditions [{k: v}] and [{k: {$ne: v}}]. *)
Definition fieldEq (k : string) (v : JsValue) (doc : Obj) : bool :=
  queryEq (get doc k) v.
Definition fieldNe (k : string) (v : JsValue) (doc : Obj) : bool :=
  negb (queryEq (get doc k) v).

(** [Model.findOne(query)]: the first matching document, or [null]. *)
Definition findOne (query : Obj -> bool) (coll : list Obj) : option Obj :=
  List.find query coll.

(** A document or [null] as a value. *)
Definition docValue (d : option Obj) : JsValue :=
  match d with
  | Some o => JObj o
  | None => JNull
  end.

(** A Mongoose model whose schema file is not part of the sources: what its
    validators and unique indexes reject on [save]/[create] of a document
    into the collection, and what they reject in an update object
    ([runValidators]). The stored document is the document handed over:
    casting and schema defaults of these models are not modelled. *)
Record Model := {
  onInsert : list Obj -> Obj -> option JsError;
  onUpdate : list Obj -> Obj -> option JsError
}.

(** [findOneAndUpdate(query, update)]: the properties of [update] are set on
    the first matching document, in place. *)
Fixpoint updateFirst (query : Obj -> bool) (update : Obj) (coll : list Obj)
  : list Obj :=
  match coll with
  | [] => []
  | d :: rest =>
      if query d then (update ∪ d) :: rest
      else d :: updateFirst query update rest
  end.

(** [findOneAndDelete(query)]. *)
Fixpoint deleteFirst (query : Obj -> bool) (coll : list Obj) : list Obj :=
  match coll with
  | [] => []
  | d :: rest => if query d then rest else d :: deleteFirst query rest
  end.

(** An HTTP response: [res.status(s).json(body)]. *)
Record Response := { status : Z; body : JsValue }.

Definition respond (s : Z) (fields : list (string * JsValue)) : Response :=
  {| status := s; body := JObj (obj fields) |}.

(** The body carries a boolean [success] property. *)
Definition hasSuccessFlag (r : Response) : bool :=
  match body r with
  | JObj o => match o !! "success" with
              | Some (JBool _) => true
              | _ => false
              end
  | _ => false
  end.

Definition messageOf (r : Response) : JsValue :=
  match body r with
  | JObj o => get o "message"
  | _ => JUndefined
  end.

Definition dataOf (r : Response) : JsValue :=
  match body r with
  | JObj o => get o "data"
  | _ => JUndefined
  end.

Definition strArray (l : list string) : JsValue := JArr (map JStr l).

(** The order of MongoDB on the values of a sort key: first by type
    (missing and null, then numbers, strings, objects, arrays, booleans,
    dates), then within numbers, strings, booleans and dates. *)
Definition bsonRank (v : JsValue) : Z :=
  match v with
  | JUndefined | JNull => 1
  | JNum _ => 2
  | JStr _ => 3
  | JObj _ => 4
  | JArr _ => 5
  | JBool _ => 8
  | JDate _ => 9
  end.

Definition bsonCompare (a b : JsValue) : comparison :=
  match a, b with
  | JNum NaN, JNum NaN => Eq
  | JNum NaN, JNum (Fin _) => Lt
  | JNum (Fin _), JNum NaN => Gt
  | JNum (Fin x), JNum (Fin y) => x ?= y
  | JStr x, JStr y => String.compare x y
  | JBool x, JBool y => Z.b2z x ?= Z.b2z y
  | JDate (Some x), JDate (Some y) => x ?= y
  | JDate None, JDate (Some _) => Lt
  | JDate (Some _), JDate None => Gt
  | _, _ => bsonRank a ?= bsonRank b
  end.

(** [find().sort({k: -1})] then the first document: a document whose [k] is
    greatest. *)
Fixpoint greatestBy (k : string) (coll : list Obj) : option Obj :=
  match coll with
  | [] => None
  | d :: rest =>
      match greatestBy k rest with
      | None => Some d
      | Some m =>
          match bsonCompare (get d k) (get m k) with
          | Lt => Some m
          | _ => Some d
          end
      end
  end.

(** [sort({createdAt: -1, id: -1})]: descending on [createdAt], ties by
    descending [id]. *)
Definition taskBefore (a b : Obj) : bool :=
  match bsonCompare (get a "createdAt") (get b "createdAt") with
  | Gt => true
  | Lt => false
  | Eq => match bsonCompare (get a "id") (get b "id") with
          | Lt => false
          | _ => true
          end
  end.

Fixpoint insertSorted (before : Obj -> Obj -> bool) (d : Obj) (l : list Obj)
  : list Obj :=
  match l with
  | [] => [d]
  | x :: rest =>
      if before d x then d :: l else x :: insertSorted before d rest
  end.

Definition sortDocs (before : Obj -> Obj -> bool) (l : list Obj) : list Obj :=
  foldr (insertSorted before) [] l.

(** Object spread [{...v}]: the own enumerable properties of [v]. *)
Definition spread (v : JsValue) : Obj :=
  match v with
  | JObj o => o
  | JArr l => list_to_map (imap (fun i x => (decimalDigits (Z.of_nat i), x)) l)
  | JStr s =>
      list_to_map (imap (fun i c => (decimalDigits (Z.of_nat i), JStr (String c "")))
                     (list_ascii_of_string s))
  | _ => ∅
  end.

(** ** Reference instances of the platform

    The controllers rely on parts of the platform whose results are
    implementation-defined or lie outside the number model (date parsing and
    printing, the numeric value of a string, floating-point parsing) and on
    Mongoose models whose schema files are not among the sources. The
    embedding takes all of these as parameters; the instances below are the
    ones used to run it on examples. *)

Definition twoDigits (a b : ascii) : option Z :=
  if (isDigit a && isDigit b)%bool then Some (10 * digitVal a + digitVal b) else None.

(** Days between 1970-01-01 and the civil date [y]-[m]-[d]. *)
Definition daysFromCivil (y m d : Z) : Z :=
  let y' := if m <=? 2 then y - 1 else y in
  let era := y' / 400 in
  let yoe := y' - era * 400 in
  let doy := (153 * (if 2 <? m then m - 3 else m + 9) + 2) / 5 + d - 1 in
  let doe := yoe * 365 + yoe / 4 - yoe / 100 + doy in
  era * 146097 + doe - 719468.

(** [Date.parse] restricted to the date-only ISO format [YYYY-MM-DD]. *)
Definition isoDateParse (s : string) : option Z :=
  match s with
  | String y1 (String y2 (String y3 (String y4 (String "-"
      (String m1 (String m2 (String "-" (String d1 (String d2 EmptyString))))))))) =>
      match twoDigits y1 y2, twoDigits y3 y4, twoDigits m1 m2, twoDigits d1 d2 with
      | Some yh, Some yl, Some m, Some d =>
          if ((1 <=? m) && (m <=? 12) && (1 <=? d) && (d <=? 31))%bool
          then Some (daysFromCivil (100 * yh + yl) m d * 86400000)
          else None
      | _, _, _, _ => None
      end
  | _ => None
  end.

(** A printer of dates: like the platform's, its output opens with a
    letter. *)
Definition epochDateToString (t : option Z) : string :=
  match t with
  | Some z => "Date " +:+ numberToString (Fin z)
  | None => "Invalid Date"
  end.

(** The numeric value of a string, for strings that hold an optionally
    signed decimal integer between white space; the empty string is 0. *)
Definition integerStringToNumber (s : string) : JsNum :=
  let t := trim s in
  match t with
  | EmptyString => Fin 0
  | _ =>
      let u := match t with
               | String "-" u | String "+" u => u
               | _ => t
               end in
      if String.eqb (stripNonDigits u) u then parseIntStr t else NaN
  end.

(** [parseFloat] on strings whose numeric prefix is an integer. *)
Definition integerParseFloat (s : string) : JsNum := parseIntStr s.

(** A schema without validators or unique indexes. *)
Definition permissiveModel : Model :=
  {| onInsert := fun _ _ => None; onUpdate := fun _ _ => None |}.

(** The strings of 24 hexadecimal digits are ObjectIds. *)
Definition hexObjectId (s : string) : option JsError :=
  if (Nat.eqb (String.length s) 24
      && forallb (fun c => bool_decide (is_Some (hexVal c))) (list_ascii_of_string s))%bool
  then None
  else Some (OtherError ("Cast to ObjectId failed for value " +:+ s)).

(** A driver whose reads find nothing. *)
Definition findsNothing : string -> Obj -> Obj -> Db -> Result (list Obj) :=
  fun _ _ _ _ => Ok [].
Definition countsNothing : string -> Obj -> Db -> Result Z := fun _ _ _ => Ok 0.
Definition groupsNothing : string -> string -> list JsValue -> Db -> Result (list Obj) :=
  fun _ _ _ _ => Ok [].

(** ** Example data *)

Definition company (id : Z) (name : string) : Obj :=
  obj [("id", JNum (Fin id)); ("name", JStr name)].

(** A database that holds the company 1 and nothing else. *)
Definition acmeOnly : Db :=
  {| companies := [company 1 "Acme"]; users := []; employees := [];
     projects := []; tasks := []; materials := [] |}.

(** Company 1 with the employees 1 (code E1) and 2 (code E2). *)
Definition twoEmployees : Db :=
  {| companies := [company 1 "Acme"]; users := [];
     employees := [obj [("id", JNum (Fin 1)); ("employeeCode", JStr "E1")];
                   obj [("id", JNum (Fin 2)); ("employeeCode", JStr "E2")]];
     projects := []; tasks := []; materials := [] |}.

(** Company 1, project 7 and the tasks 4 and 9. *)
Definition siteDb : Db :=
  {| companies := [company 1 "Acme"]; users := []; employees := [];
     projects := [obj [("id", JNum (Fin 7)); ("name", JStr "Tower A")]];
     tasks := [obj [("id", JNum (Fin 4)); ("status", JStr "COMPLETED")];
               obj [("id", JNum (Fin 9)); ("status", JStr "PLANNED");
                    ("notes", JStr "north wing")]];
     materials := [] |}.

(** 1001 planned tasks, with the ids 1001 down to 1. *)
Definition manyPlannedTasks : Db :=
  {| companies := []; users := []; employees := []; projects := [];
     tasks := map (fun i => obj [("id", JNum (Fin (1001 - Z.of_nat i)));
                                 ("status", JStr "PLANNED")]) (seq 0 1001);
     materials := [] |}.

(** Company 1, project 7 and one task, whose id is 2^53. *)
Definition saturatedDb : Db :=
  {| companies := [company 1 "Acme"]; users := []; employees := [];
     projects := [obj [("id", JNum (Fin 7)); ("name", JStr "Tower A")]];
     tasks := [obj [("id", JNum (Fin 9007199254740992)); ("status", JStr "PLANNED")]];
     materials := [] |}.

(** Four tasks with their creation instants, stored in the order of their
    ids. *)
Definition datedTask (id : Z) (status : string) (createdAt : Z) : Obj :=
  obj [("id", JNum (Fin id)); ("status", JStr status);
       ("createdAt", JDate (Some createdAt))].

Definition datedDb : Db :=
  {| companies := []; users := []; employees := []; projects := [];
     tasks := [datedTask 1 "PLANNED" 100; datedTask 2 "PLANNED" 300;
               datedTask 3 "COMPLETED" 400; datedTask 4 "PLANNED" 300];
     materials := [] |}.

(** Employee payloads: one that names the missing company 99, the same with
    a numeric phone, one that reuses the code E1 under the missing company
    99, one that reuses it under company 1, and the one of the
    specification's scenario together with its normal form. *)
Definition unknownCompanyPayload : Obj :=
  obj [("id", JNum (Fin 5)); ("companyId", JNum (Fin 99));
       ("fullName", JStr "Jane"); ("employeeCode", JStr "E9")].

Definition numericPhonePayload : Obj :=
  obj [("id", JNum (Fin 5)); ("companyId", JNum (Fin 99));
       ("fullName", JStr "Jane"); ("employeeCode", JStr "E9");
       ("phone", JNum (Fin 5551234))].

Definition takenCodeUnknownCompanyPayload : Obj :=
  obj [("id", JNum (Fin 6)); ("companyId", JNum (Fin 99));
       ("fullName", JStr "Jo"); ("employeeCode", JStr "E1")].

Definition takenCodePayload : Obj :=
  obj [("id", JNum (Fin 6)); ("companyId", JNum (Fin 1));
       ("fullName", JStr "Jo"); ("employeeCode", JStr "E1")].

Definition janeDoePayload : Obj :=
  obj [("id", JNum (Fin 5)); ("companyId", JNum (Fin 1));
       ("fullName", JStr "  Jane   Doe "); ("employeeCode", JStr "emp-01")].

Definition janeDoeNormalised : Obj :=
  obj [("id", JNum (Fin 5)); ("companyId", JNum (Fin 1));
       ("fullName", JStr "Jane Doe"); ("employeeCode", JStr "emp-01")].

(** Project payloads: one without status and its normal form, the one of
    the specification's scenario with the end before the start, the same
    dates under a numeric name, and one that brings its own id. *)
Definition towerPayload : Obj :=
  obj [("name", JStr "Tower A"); ("companyId", JNum (Fin 1))].

Definition towerNormalised : Obj :=
  obj [("name", JStr "Tower A"); ("companyId", JNum (Fin 1));
       ("status", JStr "PLANNING"); ("budget", JNum (Fin 0))].

Definition towerDatesPayload : Obj :=
  obj [("name", JStr "Tower A"); ("companyId", JNum (Fin 1));
       ("startDate", JStr "2024-01-10"); ("endDate", JStr "2024-01-01")].

Definition numericNamePayload : Obj :=
  obj [("name", JNum (Fin 123)); ("companyId", JNum (Fin 1));
       ("startDate", JStr "2024-01-10"); ("endDate", JStr "2024-01-01")].

Definition ownIdPayload : Obj :=
  obj [("name", JStr "Tower A"); ("companyId", JNum (Fin 1)); ("id", JNum (Fin 77))].

Definition ownIdNormalised : Obj :=
  obj [("name", JStr "Tower A"); ("companyId", JNum (Fin 1)); ("id", JNum (Fin 77));
       ("status", JStr "PLANNING"); ("budget", JNum (Fin 0))].

(** Task payloads: a task of project 7, and one whose company id is the
    digits of 10^22, with the results of normalising it once and twice. *)
Definition pourPayload : Obj :=
  obj [("companyId", JNum (Fin 1)); ("projectId", JNum (Fin 7));
       ("taskName", JStr "Pour slab"); ("taskType", JStr "WORK")].

Definition hugeIdPayload : Obj :=
  obj [("companyId", JStr "10000000000000000000000"); ("projectId", JNum (Fin 7));
       ("taskName", JStr "Pour slab"); ("taskType", JStr "WORK")].

Definition hugeIdNormalised : Obj :=
  obj [("companyId", JNum (Fin (10 ^ 22))); ("projectId", JNum (Fin 7));
       ("taskName", JStr "Pour slab"); ("taskType", JStr "WORK");
       ("status", JStr "PLANNED"); ("additionalData", JObj ∅);
       ("createdAt", JDate (Some 0))].

Definition hugeIdNormalisedTwice : Obj :=
  obj [("companyId", JNum (Fin 1)); ("projectId", JNum (Fin 7));
       ("taskName", JStr "Pour slab"); ("taskType", JStr "WORK");
       ("status", JStr "PLANNED"); ("additionalData", JObj ∅);
       ("createdAt", JDate (Some 0))].

(** A project payload with a valid schedule of nine days. *)
Definition towerScheduled : Obj :=
  obj [("name", JStr "Tower A"); ("companyId", JNum (Fin 1));
       ("startDate", JStr "2024-01-01"); ("endDate", JStr "2024-01-10")].

(** Company 1, project 7 and three tasks, two of them of project 7. *)
Definition scheduleDb : Db :=
  {| companies := [company 1 "Acme"]; users := []; employees := [];
     projects := [obj [("id", JNum (Fin 7)); ("name", JStr "Tower A")]];
     tasks := [obj [("id", JNum (Fin 1)); ("companyId", JNum (Fin 1));
                    ("projectId", JNum (Fin 7)); ("status", JStr "PLANNED")];
               obj [("id", JNum (Fin 2)); ("companyId", JNum (Fin 1));
                    ("projectId", JNum (Fin 8)); ("status", JStr "PLANNED")];
               obj [("id", JNum (Fin 3)); ("companyId", JNum (Fin 2));
                    ("projectId", JNum (Fin 7)); ("status", JStr "COMPLETED")]];
     materials := [] |}.

(** The users 3, who is inactive, and 4. *)
Definition ann : Obj :=
  obj [("id", JNum (Fin 3)); ("email", JStr "ann@example.org"); ("name", JStr "Ann");
       ("isActive", JBool false); ("createdAt", JDate (Some 500))].

Definition twoUsers : Db :=
  {| companies := [];
     users := [ann;
               obj [("id", JNum (Fin 4)); ("email", JStr "bob@example.org");
                    ("name", JStr "Bob"); ("isActive", JBool true)]];
     employees := []; projects := []; tasks := []; materials := [] |}.

Definition annOnly : Db :=
  {| companies := []; users := [ann]; employees := []; projects := []; tasks := [];
     materials := [] |}.

(** A user payload. *)
Definition annPayload : Obj :=
  obj [("id", JNum (Fin 3)); ("email", JStr "Ann@Example.org"); ("name", JStr "Ann")].

(** The first and the second page of a listing, one task to the page. *)
Definition firstPage : Obj := obj [("page", JStr "1"); ("limit", JStr "1")].
Definition secondPage : Obj := obj [("page", JStr "2"); ("limit", JStr "1")].

(** The employee that the creation of Jane Doe under company 1 answers
    with, at time 1000. *)
Definition janeDoeCreated : Obj :=
  obj [("id", JNum (Fin 5)); ("companyId", JNum (Fin 1)); ("userId", JNull);
       ("employeeCode", JStr "emp-01"); ("fullName", JStr "Jane Doe");
       ("phone", JNull); ("jobTitle", JNull); ("status", JStr "ACTIVE");
       ("photoUrl", JNull); ("email", JNull); ("createdAt", JDate (Some 1000));
       ("updatedAt", JUndefined)].

(** * The backend *)

Section Backend.

(** [Date.parse] on a string. *)
Variable dateParse : string -> option Z.
(** [Date.prototype.toString]. *)
Variable dateToString : option Z -> string.
(** StringToNumber: the numeric value of a string. *)
Variable stringToNumber : string -> JsNum.
(** [parseFloat] on a string. *)
Variable parseFloatStr : string -> JsNum.
(** The models [Employee], [Task] and [Material]. *)
Variables EmployeeModel TaskModel MaterialModel : Model.

(** ** Conversions *)

(** ToString, as in a template literal, ToNumber and the functions built
    on them are given on the values that convert to a primitive
    ([converts]); on an object that does not, the conversion throws in
    JavaScript, and the properties that depend on it exclude such values. *)
Fixpoint toStringJs (v : JsValue) : string :=
  match v with
  | JUndefined => "undefined"
  | JNull => "null"
  | JBool b => if b then "true" else "false"
  | JNum n => numberToString n
  | JStr s => s
  | JDate t => dateToString t
  | JArr l =>
      join "," (List.map (fun x => match x with
                                   | JUndefined | JNull => ""
                                   | _ => toStringJs x
                                   end) l)
  | JObj _ => "[object Object]"
  end.

(** ToNumber. *)
Definition toNumber (v : JsValue) : JsNum :=
  match v with
  | JUndefined => NaN
  | JNull => Fin 0
  | JBool b => Fin (if b then 1 else 0)
  | JNum n => n
  | JStr s => stringToNumber s
  | JDate t => match t with Some z => Fin z | None => NaN end
  | JArr _ | JObj _ => stringToNumber (toStringJs v)
  end.

(** The global [isNaN(v)]. *)
Definition isNaN (v : JsValue) : bool :=
  match toNumber v with
  | NaN => true
  | Fin _ => false
  end.

(** [v < 0]. *)
Definition ltZero (v : JsValue) : bool :=
  match toNumber v with
  | Fin z => z <? 0
  | NaN => false
  end.

(** [parseInt(v, 10)]: the argument is converted to a string first. *)
Definition parseInt (v : JsValue) : JsNum := parseIntStr (toStringJs v).

(** [parseFloat(v)]: a number prints to a string that parses back to it. *)
Definition parseFloat (v : JsValue) : JsNum :=
  match v with
  | JNum n => n
  | _ => parseFloatStr (toStringJs v)
  end.

(** The time value of [new Date(v)]. *)
Definition newDate (v : JsValue) : option Z :=
  match v with
  | JDate t => timeClip t
  | JStr s => timeClip (dateParse s)
  | JArr _ | JObj _ => timeClip (dateParse (toStringJs v))
  | _ => timeClip (match toNumber v with Fin z => Some z | NaN => None end)
  end.

(** [isNaN(new Date(v).getTime())]. *)
Definition invalidDate (v : JsValue) : bool :=
  match newDate v with
  | Some _ => false
  | None => true
  end.

(** [v.trim()] and [v.toUpperCase()]. *)
Definition jsTrim (v : JsValue) : Result string := strMethod "trim" trim v.
Definition jsToUpperCase (v : JsValue) : Result string :=
  strMethod "toUpperCase" toUpperCase v.

(** [if (o.k) o.k = f(o.k)] for an [f] that may throw. *)
Definition whenTruthy (k : string) (f : JsValue -> Result JsValue) (o : Obj)
  : Result Obj :=
  if truthy (get o k) then v ← f (get o k); Ok (set k v o) else Ok o.

(** [if (!o.k) o.k = d]. *)
Definition defaultTo (k : string) (d : JsValue) (o : Obj) : Obj :=
  if truthy (get o k) then o else set k d o.

(** The binary64 number nearest to a whole number [z], ties going to the
    even significand: what an arithmetic operation of JavaScript returns
    when its exact result is [z] (below 2^1024 in magnitude). The whole
    numbers up to 2^53 in magnitude are binary64 numbers; beyond, a number
    of [53 + e] bits keeps its 53 leading bits. *)
Definition roundToDouble (z : Z) : Z :=
  let a := Z.abs z in
  if a <=? 2 ^ 53 then z
  else
    let e := Z.log2 a - 52 in
    let q := a / 2 ^ e in
    let r := a mod 2 ^ e in
    let half := 2 ^ (e - 1) in
    let q := if r <? half then q
             else if half <? r then q + 1
             else if Z.even q then q else q + 1 in
    Z.sgn z * (q * 2 ^ e).

(** [v + 1]. *)
Definition plusOne (v : JsValue) : JsValue :=
  match v with
  | JUndefined => JNum NaN
  | JNull => JNum (Fin 1)
  | JBool b => JNum (Fin (if b then 2 else 1))
  | JNum NaN => JNum NaN
  | JNum (Fin z) => JNum (Fin (roundToDouble (z + 1)))
  | _ => JStr (toStringJs v +:+ "1")
  end.

(** [if (o.k) o.k = f(o.k)] for an [f] that cannot throw. *)
Definition coerce (k : string) (f : JsValue -> JsValue) (o : Obj) : Obj :=
  if truthy (get o k) then set k (f (get o k)) o else o.

(** [v && p(v.trim().length)]. *)
Definition trimmedLength (v : JsValue) (p : nat -> bool) : Result bool :=
  if truthy v then t ← jsTrim v; Ok (p (String.length t)) else Ok false.

(** The result of a referential or uniqueness check:
    [{ isValid: errors.length === 0, errors }]. *)
Record Check := { isValid : bool; errors : list string }.

Definition mkCheck (errs : list string) : Check :=
  {| isValid := Nat.eqb (length errs) 0; errors := errs |}.

Definition passed : Check := {| isValid := true; errors := [] |}.

(** [timestamp: new Date().toISOString()]: the instant, which JSON prints
    as its ISO string. *)
Definition timestamp (now : Z) : string * JsValue := ("timestamp", JDate (Some now)).

(** ** controllers/employeeController.js *)

Definition employeeStatuses : list string := ["ACTIVE"; "INACTIVE"; "SUSPENDED"].

Definition validateEmployeeInput (data : Obj) : Result (list string) :=
  let id := get data "id" in
  let companyId := get data "companyId" in
  let userId := get data "userId" in
  let fullName := get data "fullName" in
  let employeeCode := get data "employeeCode" in
  let status := get data "status" in
  let errors := [] in
  (* Required fields validation *)
  let errors := pushIf (negb (truthy id)) "Employee ID is required" errors in
  let errors := pushIf (negb (truthy companyId)) "Company ID is required" errors in
  let errors := pushIf (negb (truthy fullName)) "Full name is required" errors in
  let errors := pushIf (negb (truthy employeeCode)) "Employee code is required" errors in
  (* Data type validation *)
  let errors := pushIf (truthy id && isNaN id) "Employee ID must be a number" errors in
  let errors := pushIf (truthy companyId && isNaN companyId)
                  "Company ID must be a number" errors in
  let errors := pushIf (truthy userId && isNaN userId) "User ID must be a number" errors in
  (* String content validation *)
  c ← trimmedLength fullName (fun n => Nat.eqb n 0);
  let errors := pushIf c "Full name cannot be empty" errors in
  c ← trimmedLength fullName (fun n => Nat.ltb 100 n);
  let errors := pushIf c "Full name must be less than 100 characters" errors in
  c ← trimmedLength employeeCode (fun n => Nat.ltb 20 n);
  let errors := pushIf c "Employee code must be less than 20 characters" errors in
  (* Status validation *)
  let errors := pushIf (truthy status && negb (includes employeeStatuses status))
                  ("Status must be one of: " +:+ join ", " employeeStatuses) errors in
  Ok errors.

Definition normalizeEmployeeData (now : Z) (data : Obj) : Result Obj :=
  let normalized := data in
  (* Type conversion *)
  let normalized := coerce "id" (fun v => JNum (parseInt v)) normalized in
  let normalized := coerce "companyId" (fun v => JNum (parseInt v)) normalized in
  let normalized := coerce "userId" (fun v => JNum (parseInt v)) normalized in
  (* String sanitization *)
  normalized ← whenTruthy "fullName"
    (fun v => t ← jsTrim v; Ok (JStr (collapseSpaces t))) normalized;
  normalized ← whenTruthy "employeeCode" (fun v => t ← jsTrim v; Ok (JStr t)) normalized;
  normalized ← whenTruthy "phone"
    (fun v => t ← jsTrim v; Ok (JStr (stripNonDigits t))) normalized;
  normalized ← whenTruthy "jobTitle" (fun v => t ← jsTrim v; Ok (JStr t)) normalized;
  normalized ← whenTruthy "photoUrl" (fun v => t ← jsTrim v; Ok (JStr t)) normalized;
  (* Status normalization *)
  normalized ← whenTruthy "status" (fun v => t ← jsToUpperCase v; Ok (JStr t)) normalized;
  (* Date handling *)
  let normalized := coerce "createdAt"
    (fun v => match newDate v with
              | None => JDate (Some now)
              | Some t => JDate (Some t)
              end) normalized in
  Ok normalized.

(** The employee controller's [validateReferentialIntegrity(companyId,
    userId = null)]. *)
Definition validateReferentialIntegrity (db : Db) (companyId userId : JsValue)
  : Check :=
  let companyExists := findOne (fieldEq "id" companyId) (companies db) in
  let userExists :=
    if truthy userId then bool_decide (is_Some (findOne (fieldEq "id" userId) (users db)))
    else true in
  let errors := [] in
  let errors := pushIf (negb (bool_decide (is_Some companyExists)))
                  ("Company with ID " +:+ toStringJs companyId +:+ " does not exist")
                  errors in
  let errors := pushIf (truthy userId && negb userExists)
                  ("User with ID " +:+ toStringJs userId +:+ " does not exist")
                  errors in
  mkCheck errors.

Definition checkEmployeeUniqueness (db : Db)
    (employeeId employeeCode excludeEmployeeId : JsValue) : Result Check :=
  (* Check ID uniqueness *)
  let idQuery :=
    if truthy excludeEmployeeId then fieldNe "id" excludeEmployeeId
    else fieldEq "id" employeeId in
  let existingById := findOne idQuery (employees db) in
  (* Check employee code uniqueness if provided *)
  existingByCode ←
    (if truthy employeeCode
     then code ← jsTrim employeeCode;
          let codeQuery := fun d =>
            (fieldEq "employeeCode" (JStr code) d
             && (if truthy excludeEmployeeId then fieldNe "id" excludeEmployeeId d
                 else true))%bool in
          Ok (findOne codeQuery (employees db))
     else Ok None);
  let errors := [] in
  let errors := pushIf (bool_decide (is_Some existingById))
                  ("Employee with ID " +:+ toStringJs employeeId +:+ " already exists")
                  errors in
  let errors := pushIf (bool_decide (is_Some existingByCode))
                  ("Employee with code '" +:+ toStringJs employeeCode
                   +:+ "' already exists") errors in
  Ok (mkCheck errors).

Definition getUserEmailById (db : Db) (userId : JsValue) : JsValue :=
  if negb (truthy userId) then JNull
  else match findOne (fieldEq "id" userId) (users db) with
       | Some user => get user "email"
       | None => JNull
       end.

(** [transformEmployeeResponse(employee)] with the default, empty
    [emailMap]. *)
Definition transformEmployeeResponse (employee : Obj) : Obj :=
  obj [("id", get employee "id");
       ("companyId", get employee "companyId");
       ("userId", get employee "userId");
       ("employeeCode", get employee "employeeCode");
       ("fullName", get employee "fullName");
       ("phone", get employee "phone");
       ("jobTitle", get employee "jobTitle");
       ("status", get employee "status");
       ("photoUrl", get employee "photoUrl");
       ("email", JNull);
       ("createdAt", get employee "createdAt");
       ("updatedAt", get employee "updatedAt")].

Definition failure (now : Z) (code : Z) (message : string) : Response :=
  respond code [("success", JBool false); ("message", JStr message); timestamp now].

(** The [try] block of [createEmployee]. *)
Definition createEmployeeTry (db : Db) (now : Z) (body : Obj)
  : Result (Response * Db) :=
  (* Execute input validation *)
  validationErrors ← validateEmployeeInput body;
  if Nat.ltb 0 (length validationErrors)
  then Ok (failure now 400 (join ", " validationErrors), db)
  else
    (* Normalize input data *)
    normalizedData ← normalizeEmployeeData now body;
    (* Execute parallel validations *)
    let referentialCheck :=
      validateReferentialIntegrity db (get normalizedData "companyId")
        (get normalizedData "userId") in
    uniquenessCheck ←
      checkEmployeeUniqueness db (get normalizedData "id")
        (get normalizedData "employeeCode") JNull;
    (* Handle validation failures *)
    if negb (isValid referentialCheck)
    then Ok (failure now 400 (join ", " (errors referentialCheck)), db)
    else if negb (isValid uniquenessCheck)
    then Ok (failure now 409 (join ", " (errors uniquenessCheck)), db)
    else
      (* Prepare employee document with defaults *)
      let employeeData :=
        obj [("id", get normalizedData "id");
             ("companyId", get normalizedData "companyId");
             ("userId", jsOr (get normalizedData "userId") JNull);
             ("employeeCode", get normalizedData "employeeCode");
             ("fullName", get normalizedData "fullName");
             ("phone", jsOr (get normalizedData "phone") JNull);
             ("jobTitle", jsOr (get normalizedData "jobTitle") JNull);
             ("photoUrl", jsOr (get normalizedData "photoUrl") JNull);
             ("status", jsOr (get normalizedData "status") (JStr "ACTIVE"));
             ("createdAt", jsOr (get normalizedData "createdAt") (JDate (Some now)))] in
      (* Persist employee document *)
      match onInsert EmployeeModel (employees db) employeeData with
      | Some e => Throw e
      | None =>
          let savedEmployee := employeeData in
          let db' := {| companies := companies db; users := users db;
                        employees := employees db ++ [savedEmployee];
                        projects := projects db; tasks := tasks db;
                        materials := materials db |} in
          (* Get user email for response *)
          let userEmail := getUserEmailById db' (get savedEmployee "userId") in
          Ok (respond 201
                [("success", JBool true);
                 ("message", JStr "Employee created successfully");
                 ("data", JObj (set "email" userEmail
                                  (transformEmployeeResponse savedEmployee)));
                 timestamp now], db')
      end.

(** The [catch] block of [createEmployee]. *)
Definition createEmployeeCatch (now : Z) (error : JsError) : Response :=
  match error with
  | ValidationError _ errs =>
      respond 400 [("success", JBool false);
                   ("message", JStr "Data validation error");
                   ("errors", strArray errs);
                   timestamp now]
  | DuplicateKey _ field =>
      failure now 409 ("Employee with this " +:+ field +:+ " already exists")
  | _ => failure now 500 ("Server error during employee creation: " +:+ errMessage error)
  end.

(** POST /api/employees. *)
Definition createEmployee (db : Db) (now : Z) (body : Obj) : Response * Db :=
  match createEmployeeTry db now body with
  | Ok r => r
  | Throw error => (createEmployeeCatch now error, db)
  end.

(** The [try] block of [updateEmployee]. *)
Definition updateEmployeeTry (db : Db) (now : Z) (idParam : string) (body : Obj)
  : Result (Response * Db) :=
  let employeeId := parseIntStr idParam in
  (* Validate employee ID parameter *)
  match employeeId with
  | NaN => Ok (failure now 400 "Invalid employee ID. Must be a positive integer.", db)
  | Fin z =>
    if z <=? 0
    then Ok (failure now 400 "Invalid employee ID. Must be a positive integer.", db)
    else
      let employeeId := JNum employeeId in
      (* Normalize update data *)
      updateData ← normalizeEmployeeData now body;
      (* Execute parallel validations *)
      let existingEmployee := findOne (fieldEq "id" employeeId) (employees db) in
      let referentialCheck :=
        if (truthy (get updateData "companyId") || truthy (get updateData "userId"))%bool
        then validateReferentialIntegrity db
               (jsOr (get updateData "companyId") employeeId) (get updateData "userId")
        else passed in
      uniquenessCheck ←
        (if truthy (get updateData "employeeCode")
         then checkEmployeeUniqueness db employeeId (get updateData "employeeCode")
                employeeId
         else Ok passed);
      (* Verify employee exists *)
      match existingEmployee with
      | None =>
          Ok (failure now 404
                ("Employee with ID " +:+ toStringJs employeeId +:+ " not found"), db)
      | Some stored =>
          (* Handle validation failures *)
          if negb (isValid referentialCheck)
          then Ok (failure now 400 (join ", " (errors referentialCheck)), db)
          else if negb (isValid uniquenessCheck)
          then Ok (failure now 409 (join ", " (errors uniquenessCheck)), db)
          else
            (* Execute update operation *)
            match onUpdate EmployeeModel (employees db) updateData with
            | Some e => Throw e
            | None =>
                let employee := updateData ∪ stored in
                let db' := {| companies := companies db; users := users db;
                              employees := updateFirst (fieldEq "id" employeeId)
                                             updateData (employees db);
                              projects := projects db; tasks := tasks db;
                              materials := materials db |} in
                let userEmail := getUserEmailById db' (get employee "userId") in
                Ok (respond 200
                      [("success", JBool true);
                       ("message", JStr "Employee updated successfully");
                       ("data", JObj (set "email" userEmail
                                        (transformEmployeeResponse employee)));
                       timestamp now], db')
            end
      end
  end.

Definition updateEmployeeCatch (now : Z) (error : JsError) : Response :=
  match error with
  | ValidationError _ errs =>
      respond 400 [("success", JBool false);
                   ("message", JStr "Data validation error during update");
                   ("errors", strArray errs);
                   timestamp now]
  | DuplicateKey _ _ =>
      failure now 409 "Employee with this employee code already exists"
  | _ => failure now 400 ("Update process failed: " +:+ errMessage error)
  end.

(** PUT /api/employees/:id. *)
Definition updateEmployee (db : Db) (now : Z) (idParam : string) (body : Obj)
  : Response * Db :=
  match updateEmployeeTry db now idParam body with
  | Ok r => r
  | Throw error => (updateEmployeeCatch now error, db)
  end.

(** ** models/Project.js *)

Definition projectStatusEnum : list string :=
  ["Planned"; "Ongoing"; "Completed"; "Warranty"; "Cancelled"].

Definition isNullish (v : JsValue) : bool :=
  match v with
  | JUndefined | JNull => true
  | _ => false
  end.

(** [required: true]: the path must hold a value (and a string must not be
    empty). *)
Definition requiredError (path : string) (v : JsValue) : list string :=
  if (isNullish v || match v with JStr "" => true | _ => false end)%bool
  then ["Path `" +:+ path +:+ "` is required."]
  else [].

(** [enum: [...]] on a [String] path: a value that is set must be, as a
    string, one of the enumerated ones. *)
Definition enumError (path : string) (allowed : list string) (v : JsValue)
  : list string :=
  if isNullish v then []
  else if existsb (String.eqb (toStringJs v)) allowed then []
  else ["`" +:+ toStringJs v +:+ "` is not a valid enum value for path `"
        +:+ path +:+ "`."].

(** [min: 0] on a [Number] path. *)
Definition minZeroError (path : string) (v : JsValue) : list string :=
  if isNullish v then []
  else if ltZero v
  then ["Path `" +:+ path +:+ "` is less than minimum allowed value (0)."]
  else [].

(** The schema default [status: 'Planned'] applies to a document without a
    status. *)
Definition projectDefaults (doc : Obj) : Obj :=
  match get doc "status" with
  | JUndefined => set "status" (JStr "Planned") doc
  | _ => doc
  end.

Definition projectSchemaErrors (doc : Obj) : list string :=
  requiredError "id" (get doc "id")
  ++ requiredError "companyId" (get doc "companyId")
  ++ requiredError "name" (get doc "name")
  ++ minZeroError "budget" (get doc "budget")
  ++ requiredError "status" (get doc "status")
  ++ enumError "status" projectStatusEnum (get doc "status")
  ++ requiredError "createdBy" (get doc "createdBy").

Definition validationFailed (errs : list string) : JsError :=
  ValidationError ("Project validation failed: " +:+ join ", " errs) errs.

(** The unique indexes on [id] and [projectCode]; in an index a missing
    value counts as [null]. *)
Definition sameKey (a b : JsValue) : bool :=
  ((isNullish a && isNullish b) || queryEq a b)%bool.

Definition duplicateOf (coll : list Obj) (doc : Obj) : option JsError :=
  if existsb (fun d => sameKey (get d "id") (get doc "id")) coll
  then Some (DuplicateKey "E11000 duplicate key error" "id")
  else if existsb (fun d => sameKey (get d "projectCode") (get doc "projectCode")) coll
  then Some (DuplicateKey "E11000 duplicate key error" "projectCode")
  else None.

(** The model [Project]: [save] validates the document against the schema,
    then inserts it under the unique indexes; an update with
    [runValidators] checks the validators of the paths it sets. *)
Definition ProjectModel : Model :=
  {| onInsert := fun coll doc =>
       match projectSchemaErrors (projectDefaults doc) with
       | [] => duplicateOf coll (projectDefaults doc)
       | errs => Some (validationFailed errs)
       end;
     onUpdate := fun coll update =>
       match minZeroError "budget" (get update "budget")
             ++ enumError "status" projectStatusEnum (get update "status") with
       | [] => None
       | errs => Some (validationFailed errs)
       end |}.

(** ** The project controller *)

Definition projectStatuses : list string :=
  ["PLANNING"; "ACTIVE"; "ON_HOLD"; "COMPLETED"; "CANCELLED"].

Definition validateProjectInput (data : Obj) : Result (list string) :=
  let name := get data "name" in
  let companyId := get data "companyId" in
  let code := get data "code" in
  let status := get data "status" in
  let budget := get data "budget" in
  let startDate := get data "startDate" in
  let endDate := get data "endDate" in
  let errors := [] in
  (* Required fields validation *)
  let errors := pushIf (negb (truthy name)) "Project name is required" errors in
  let errors := pushIf (negb (truthy companyId)) "Company ID is required" errors in
  (* Data type validation *)
  let errors := pushIf (truthy companyId && isNaN companyId)
                  "Company ID must be a number" errors in
  let errors := pushIf (truthy budget && isNaN budget) "Budget must be a number" errors in
  (* String content validation *)
  c ← trimmedLength name (fun n => Nat.eqb n 0);
  let errors := pushIf c "Project name cannot be empty" errors in
  c ← trimmedLength name (fun n => Nat.ltb 100 n);
  let errors := pushIf c "Project name must be less than 100 characters" errors in
  c ← trimmedLength code (fun n => Nat.ltb 20 n);
  let errors := pushIf c "Project code must be less than 20 characters" errors in
  (* Date validation *)
  let errors := pushIf (truthy startDate && invalidDate startDate)
                  "Start date must be a valid date" errors in
  let errors := pushIf (truthy endDate && invalidDate endDate)
                  "End date must be a valid date" errors in
  (* Business logic validation *)
  let errors := pushIf (truthy startDate && truthy endDate
                        && dateLe (newDate endDate) (newDate startDate))
                  "End date must be after start date" errors in
  let errors := pushIf (truthy budget && ltZero budget) "Budget cannot be negative" errors in
  (* Status validation *)
  let errors := pushIf (truthy status && negb (includes projectStatuses status))
                  ("Status must be one of: " +:+ join ", " projectStatuses) errors in
  Ok errors.

(** [new Date(v)] kept when valid, [null] otherwise. *)
Definition dateOrNull (v : JsValue) : JsValue :=
  match newDate v with
  | Some t => JDate (Some t)
  | None => JNull
  end.

Definition normalizeProjectData (data : Obj) : Result Obj :=
  let normalized := data in
  (* Type conversion *)
  let normalized := coerce "companyId" (fun v => JNum (parseInt v)) normalized in
  let normalized := coerce "budget" (fun v => JNum (parseFloat v)) normalized in
  (* String sanitization *)
  normalized ← whenTruthy "name"
    (fun v => t ← jsTrim v; Ok (JStr (collapseSpaces t))) normalized;
  normalized ← whenTruthy "code"
    (fun v => t ← jsTrim v; Ok (JStr (toUpperCase t))) normalized;
  normalized ← whenTruthy "description" (fun v => t ← jsTrim v; Ok (JStr t)) normalized;
  normalized ← whenTruthy "location" (fun v => t ← jsTrim v; Ok (JStr t)) normalized;
  (* Date handling with validation *)
  let normalized := coerce "startDate" dateOrNull normalized in
  let normalized := coerce "endDate" dateOrNull normalized in
  (* Default values *)
  let normalized := defaultTo "status" (JStr "PLANNING") normalized in
  let normalized := defaultTo "budget" (JNum (Fin 0)) normalized in
  Ok normalized.

Definition validateCompanyExistence (db : Db) (companyId : JsValue) : bool :=
  bool_decide (is_Some (findOne (fieldEq "id" companyId) (companies db))).

Definition checkProjectCodeUniqueness (db : Db) (code excludeProjectId : JsValue)
  : Result bool :=
  t ← jsTrim code;
  let query := fun d =>
    (fieldEq "code" (JStr (toUpperCase t)) d
     && (if truthy excludeProjectId then fieldNe "id" excludeProjectId d else true))%bool in
  let existingProject := findOne query (projects db) in
  Ok (negb (bool_decide (is_Some existingProject))).

Definition generateNextProjectId (db : Db) : JsValue :=
  match greatestBy "id" (projects db) with
  | Some lastProject => plusOne (get lastProject "id")
  | None => JNum (Fin 1)
  end.

(** [generateProjectMetadata]. A difference of two dates is [NaN] when one
    of them is invalid, and every comparison with [NaN] is false. The two
    ratios are computed exactly: [Math.round(e / t * 100)] is
    [floor((200 e + t) / (2 t))] for [t > 0], and [(end - now) / t < 0.2] is
    decided by the signs of its terms. *)
Definition generateProjectMetadata (now : Z) (projectData : Obj) : Obj :=
  let '(progress, health, timelineStatus, risks) :=
    if (truthy (get projectData "startDate") && truthy (get projectData "endDate"))%bool
    then
      let startDate := newDate (get projectData "startDate") in
      let endDate := newDate (get projectData "endDate") in
      let totalDuration :=
        match startDate, endDate with
        | Some s, Some e => Some (e - s)
        | _, _ => None
        end in
      let elapsedDuration :=
        match startDate with
        | Some s => Some (now - s)
        | None => None
        end in
      let progress :=
        match totalDuration, elapsedDuration with
        | Some t, Some e =>
            if ((0 <? t) && (0 <? e))%bool
            then Z.min ((200 * e + t) / (2 * t)) 100
            else 0
        | _, _ => 0
        end in
      let pastEnd :=
        match endDate with
        | Some e => e <? now
        | None => false
        end in
      let closeToEnd :=
        match totalDuration, endDate with
        | Some t, Some e =>
            if 0 <? t then 5 * (e - now) <? t
            else if t <? 0 then t <? 5 * (e - now)
            else e - now <? 0
        | _, _ => false
        end in
      if (pastEnd && (progress <? 100))%bool
      then (progress, "AT_RISK", "DELAYED", ["Project timeline exceeded"])
      else if (closeToEnd && (progress <? 80))%bool
      then (progress, "NEEDS_ATTENTION", "AT_RISK",
            ["Approaching deadline with low progress"])
      else (progress, "HEALTHY", "ON_TRACK", [])
    else (0, "HEALTHY", "ON_TRACK", []) in
  (* Status-based health *)
  let health :=
    match get projectData "status" with
    | JStr "ON_HOLD" => "ON_HOLD"
    | JStr "CANCELLED" => "CANCELLED"
    | _ => health
    end in
  obj [("progress", JNum (Fin progress));
       ("health", JStr health);
       ("timelineStatus", JStr timelineStatus);
       ("financialStatus", JStr "WITHIN_BUDGET");
       ("risks", strArray risks)].

Definition refusal (code : Z) (message : string) : Response :=
  respond code [("success", JBool false); ("message", JStr message)].

Definition withProjects (db : Db) (l : list Obj) : Db :=
  {| companies := companies db; users := users db; employees := employees db;
     projects := l; tasks := tasks db; materials := materials db |}.

(** The document [createProject] hands to [new Project(...)]:
    [{ id: nextProjectId, ...normalizedData, metadata, createdAt, updatedAt }]. *)
Definition projectDocument (now : Z) (nextProjectId : JsValue)
    (normalizedData projectMetadata : Obj) : Obj :=
  set "updatedAt" (JDate (Some now))
    (set "createdAt" (JDate (Some now))
       (set "metadata" (JObj projectMetadata)
          (normalizedData ∪ obj [("id", nextProjectId)]))).

(** The [try] block of [createProject]. *)
Definition createProjectTry (db : Db) (now : Z) (body : Obj)
  : Result (Response * Db) :=
  (* Execute input validation *)
  validationErrors ← validateProjectInput body;
  if Nat.ltb 0 (length validationErrors)
  then Ok (refusal 400 (join ", " validationErrors), db)
  else
    (* Normalize input data *)
    normalizedData ← normalizeProjectData body;
    (* Execute parallel validations *)
    let nextProjectId := generateNextProjectId db in
    let companyExists := validateCompanyExistence db (get normalizedData "companyId") in
    isCodeUnique ←
      (if truthy (get normalizedData "code")
       then checkProjectCodeUniqueness db (get normalizedData "code") JNull
       else Ok true);
    (* Handle company existence validation failure *)
    if negb companyExists
    then Ok (refusal 400 ("Company with ID " +:+ toStringJs (get normalizedData "companyId")
                          +:+ " does not exist"), db)
    (* Handle code uniqueness validation failure *)
    else if negb isCodeUnique
    then Ok (refusal 409 ("Project code '" +:+ toStringJs (get normalizedData "code")
                          +:+ "' already exists"), db)
    else
      (* Generate project metadata *)
      let projectMetadata := generateProjectMetadata now normalizedData in
      (* Prepare project document *)
      let projectData := projectDocument now nextProjectId normalizedData projectMetadata in
      (* Persist project document *)
      match onInsert ProjectModel (projects db) projectData with
      | Some e => Throw e
      | None =>
          let savedProject := projectDefaults projectData in
          Ok (respond 201
                [("success", JBool true);
                 ("message", JStr "Project created successfully");
                 ("data", JObj savedProject);
                 ("metadata", JObj (obj [("progress", get projectMetadata "progress");
                                         ("health", get projectMetadata "health");
                                         ("timelineStatus",
                                          get projectMetadata "timelineStatus")]))],
              withProjects db (projects db ++ [savedProject]))
      end.

Definition createProjectCatch (error : JsError) : Response :=
  match error with
  | DuplicateKey _ field => refusal 409 ("Project with this " +:+ field +:+ " already exists")
  | _ => refusal 500 ("Server error during project creation: " +:+ errMessage error)
  end.

(** POST /api/projects. *)
Definition createProject (db : Db) (now : Z) (body : Obj) : Response * Db :=
  match createProjectTry db now body with
  | Ok r => r
  | Throw error => (createProjectCatch error, db)
  end.

Definition invalidProjectId : Response :=
  refusal 400 "Invalid project ID format. Must be a positive integer.".

(** The [try] block of [updateProject]. *)
Definition updateProjectTry (db : Db) (now : Z) (idParam : string) (body : Obj)
  : Result (Response * Db) :=
  match parseIntStr idParam with
  | NaN => Ok (invalidProjectId, db)
  | Fin z =>
    if z <=? 0 then Ok (invalidProjectId, db)
    else
      let projectId := JNum (Fin z) in
      (* Normalize update data *)
      updateData ← normalizeProjectData body;
      (* Remove protected fields *)
      let updateData := delete "id" updateData in
      let updateData := delete "_id" updateData in
      let updateData := set "updatedAt" (JDate (Some now)) updateData in
      (* Execute parallel validations *)
      let existingProject := findOne (fieldEq "id" projectId) (projects db) in
      let companyExists :=
        if truthy (get updateData "companyId")
        then validateCompanyExistence db (get updateData "companyId") else true in
      isCodeUnique ←
        (if truthy (get updateData "code")
         then checkProjectCodeUniqueness db (get updateData "code") projectId
         else Ok true);
      (* Verify project exists *)
      match existingProject with
      | None => Ok (refusal 404 ("Project with ID " +:+ toStringJs projectId
                                 +:+ " not found"), db)
      | Some stored =>
          if (truthy (get updateData "companyId") && negb companyExists)%bool
          then Ok (refusal 400 ("Company with ID "
                                +:+ toStringJs (get updateData "companyId")
                                +:+ " does not exist"), db)
          else if negb isCodeUnique
          then Ok (refusal 409 ("Project code '" +:+ toStringJs (get updateData "code")
                                +:+ "' already exists"), db)
          else
            (* Generate updated metadata if relevant fields changed *)
            let shouldUpdateMetadata :=
              existsb (fun field => negb match get updateData field with
                                         | JUndefined => true
                                         | _ => false
                                         end)
                ["startDate"; "endDate"; "status"; "budget"] in
            let updateData :=
              if shouldUpdateMetadata
              then let mergedData := updateData ∪ stored in
                   set "metadata"
                     (JObj (generateProjectMetadata now mergedData
                            ∪ spread (get stored "metadata"))) updateData
              else updateData in
            (* Execute update operation *)
            match onUpdate ProjectModel (projects db) updateData with
            | Some e => Throw e
            | None =>
                let project := updateData ∪ stored in
                Ok (respond 200
                      [("success", JBool true);
                       ("message", JStr "Project updated successfully");
                       ("data", JObj project)],
                    withProjects db
                      (updateFirst (fieldEq "id" projectId) updateData (projects db)))
            end
      end
  end.

Definition updateProjectCatch (error : JsError) : Response :=
  match error with
  | DuplicateKey _ field => refusal 409 ("Project with this " +:+ field +:+ " already exists")
  | _ => refusal 400 ("Update process failed: " +:+ errMessage error)
  end.

(** PUT /api/projects/:id. *)
Definition updateProject (db : Db) (now : Z) (idParam : string) (body : Obj)
  : Response * Db :=
  match updateProjectTry db now idParam body with
  | Ok r => r
  | Throw error => (updateProjectCatch error, db)
  end.

(** ** controllers/taskController.js *)

Definition taskStatuses : list string :=
  ["PLANNED"; "IN_PROGRESS"; "COMPLETED"; "CANCELLED"].

Definition taskTypes : list string :=
  ["WORK"; "TRANSPORT"; "MATERIAL"; "TOOL"; "INSPECTION";
   "MAINTENANCE"; "ADMIN"; "TRAINING"; "OTHER"].

Definition validateTaskInput (data : Obj) : list string :=
  let companyId := get data "companyId" in
  let projectId := get data "projectId" in
  let taskName := get data "taskName" in
  let taskType := get data "taskType" in
  let startDate := get data "startDate" in
  let endDate := get data "endDate" in
  let status := get data "status" in
  let errors := [] in
  (* Required fields validation *)
  let errors := pushIf (negb (truthy companyId)) "Company ID is required" errors in
  let errors := pushIf (negb (truthy projectId)) "Project ID is required" errors in
  let errors := pushIf (negb (truthy taskName)) "Task name is required" errors in
  let errors := pushIf (negb (truthy taskType)) "Task type is required" errors in
  (* Data type validation *)
  let errors := pushIf (truthy companyId && isNaN companyId)
                  "Company ID must be a number" errors in
  let errors := pushIf (truthy projectId && isNaN projectId)
                  "Project ID must be a number" errors in
  (* Date validation *)
  let errors := pushIf (truthy startDate && invalidDate startDate)
                  "Start date must be a valid date" errors in
  let errors := pushIf (truthy endDate && invalidDate endDate)
                  "End date must be a valid date" errors in
  (* Business logic validation *)
  let errors := pushIf (truthy startDate && truthy endDate
                        && dateLe (newDate endDate) (newDate startDate))
                  "End date must be after start date" errors in
  (* Status validation *)
  let errors := pushIf (truthy status && negb (includes taskStatuses status))
                  ("Status must be one of: " +:+ join ", " taskStatuses) errors in
  (* Task type validation *)
  let errors := pushIf (truthy taskType && negb (includes taskTypes taskType))
                  ("Task type must be one of: " +:+ join ", " taskTypes) errors in
  errors.

(** The local [parseDate] of [normalizeTaskData], on a truthy argument: a
    [Date] is returned as it is, anything else goes through [new Date]. *)
Definition parseDate (dateString : JsValue) : JsValue :=
  match dateString with
  | JDate t => JDate t
  | _ => dateOrNull dateString
  end.

Definition normalizeTaskData (now : Z) (data : Obj) : Result Obj :=
  let normalized := data in
  (* Type conversion *)
  let normalized := coerce "companyId" (fun v => JNum (parseInt v)) normalized in
  let normalized := coerce "projectId" (fun v => JNum (parseInt v)) normalized in
  let normalized := coerce "createdBy" (fun v => JNum (parseInt v)) normalized in
  (* String sanitization *)
  normalized ← whenTruthy "taskName" (fun v => t ← jsTrim v; Ok (JStr t)) normalized;
  normalized ← whenTruthy "description" (fun v => t ← jsTrim v; Ok (JStr t)) normalized;
  normalized ← whenTruthy "notes" (fun v => t ← jsTrim v; Ok (JStr t)) normalized;
  (* Date handling *)
  let normalized := coerce "startDate" parseDate normalized in
  let normalized := coerce "endDate" parseDate normalized in
  (* Default values *)
  let normalized := defaultTo "status" (JStr "PLANNED") normalized in
  let normalized := defaultTo "additionalData" (JObj ∅) normalized in
  let normalized := defaultTo "createdAt" (JDate (Some now)) normalized in
  Ok normalized.

(** The task controller's [validateReferentialIntegrity(companyId,
    projectId)]. *)
Definition validateReferentialIntegrityTask (db : Db) (companyId projectId : JsValue)
  : Check :=
  let company := findOne (fieldEq "id" companyId) (companies db) in
  let project := findOne (fieldEq "id" projectId) (projects db) in
  let errors := [] in
  let errors := pushIf (negb (bool_decide (is_Some company)))
                  ("Company with ID " +:+ toStringJs companyId +:+ " does not exist")
                  errors in
  let errors := pushIf (negb (bool_decide (is_Some project)))
                  ("Project with ID " +:+ toStringJs projectId +:+ " does not exist")
                  errors in
  mkCheck errors.

(** [parseInt(v) || d]. *)
Definition parseIntOr (v : JsValue) (d : Z) : Z :=
  match parseIntAutoStr (toStringJs v) with
  | NaN => d
  | Fin z => if z =? 0 then d else z
  end.

(** [{ ...taskObj, companyName, projectName }]. *)
Definition nameOr (d : option Obj) (fallback : string) : JsValue :=
  match d with
  | Some o => get o "name"
  | None => JStr fallback
  end.

Definition withDetails (db : Db) (task : Obj) : Obj :=
  let company := findOne (fieldEq "id" (get task "companyId")) (companies db) in
  let project := findOne (fieldEq "id" (get task "projectId")) (projects db) in
  set "projectName" (nameOr project "Unknown Project")
    (set "companyName" (nameOr company "Unknown Company") task).

(** [{ startDate: { $gte: lo, $lte: hi } }]. *)
Definition dateBetween (lo hi : option Z) (doc : Obj) : bool :=
  match get doc "startDate", lo, hi with
  | JDate (Some t), Some a, Some b => ((a <=? t) && (t <=? b))%bool
  | _, _, _ => false
  end.

(** The filter that [getAllTasks] builds from the query string. *)
Definition taskListQuery (q : Obj) : Result (Obj -> bool) :=
  let byCompany := fun d =>
    if truthy (get q "companyId")
    then fieldEq "companyId" (JNum (parseIntAutoStr (toStringJs (get q "companyId")))) d
    else true in
  let byProject := fun d =>
    if truthy (get q "projectId")
    then fieldEq "projectId" (JNum (parseIntAutoStr (toStringJs (get q "projectId")))) d
    else true in
  byStatus ←
    (if truthy (get q "status")
     then u ← jsToUpperCase (get q "status"); Ok (fieldEq "status" (JStr u))
     else Ok (fun _ => true));
  byType ←
    (if truthy (get q "taskType")
     then u ← jsToUpperCase (get q "taskType"); Ok (fieldEq "taskType" (JStr u))
     else Ok (fun _ => true));
  (* Date range filtering *)
  let byDates := fun d =>
    if (truthy (get q "startDate") && truthy (get q "endDate"))%bool
    then dateBetween (newDate (get q "startDate")) (newDate (get q "endDate")) d
    else true in
  Ok (fun d => (byCompany d && byProject d && byStatus d && byType d && byDates d)%bool).

(** [find(query).sort(...).skip(skip).limit(limit)]: a negative skip is
    refused by the database, a negative limit counts as its absolute
    value. *)
Definition findPage (query : Obj -> bool) (skip limit : Z) (coll : list Obj)
  : Result (list Obj) :=
  if skip <? 0 then Throw (OtherError "Skip value must be non-negative")
  else Ok (take (Z.to_nat (Z.abs limit))
             (drop (Z.to_nat skip) (sortDocs taskBefore (List.filter query coll)))).

Definition docArray (l : list Obj) : JsValue := JArr (map JObj l).

Definition getAllTasksTry (db : Db) (q : Obj) : Result Response :=
  let page := parseIntOr (get q "page") 1 in
  let limit := parseIntOr (get q "limit") 1000 in
  let skip := (page - 1) * limit in
  (* Build query based on filters *)
  query ← taskListQuery q;
  found ← findPage query skip limit (tasks db);
  (* Populate related data *)
  let tasksWithDetails := map (withDetails db) found in
  let total := Z.of_nat (length (List.filter query (tasks db))) in
  Ok (respond 200
        [("success", JBool true);
         ("data", docArray tasksWithDetails);
         ("pagination", JObj (obj [("page", JNum (Fin page));
                                   ("limit", JNum (Fin limit));
                                   ("total", JNum (Fin total));
                                   ("pages", JNum (Fin (- ((- total) / limit))))]))]).

(** GET /api/tasks. *)
Definition getAllTasks (db : Db) (q : Obj) : Response :=
  match getAllTasksTry db q with
  | Ok r => r
  | Throw error => refusal 500 ("Error fetching tasks: " +:+ errMessage error)
  end.

(** The lookup shared by the [/:id] task routes: a parameter of digits is
    the numeric [id], anything else the storage [_id]. *)
Definition taskSelector (idParam : string) : Obj -> bool :=
  if allDigits idParam
  then fieldEq "id" (JNum (parseIntAutoStr idParam))
  else fieldEq "_id" (JStr idParam).

(** [findById] and its variants cast their argument to the type of [_id],
    an ObjectId: for a string that is none, the query fails with a
    CastError. Which strings are cast, and the message of the error, depend
    on the version of Mongoose: [castObjectId] gives the error, or [None]
    for a string that is cast. *)
Variable castObjectId : string -> option JsError.

(** The error of the lookup shared by the [/:id] task routes, if any: a
    parameter of digits goes to [findOne({ id })], which does not fail. *)
Definition castTaskId (idParam : string) : option JsError :=
  if allDigits idParam then None else castObjectId idParam.

(** GET /api/tasks/:id. *)
Definition getTaskById (db : Db) (idParam : string) : Response :=
  match castTaskId idParam with
  | Some error => refusal 500 ("Error fetching task: " +:+ errMessage error)
  | None =>
      match findOne (taskSelector idParam) (tasks db) with
      | None => refusal 404 "Task not found"
      | Some task =>
          respond 200 [("success", JBool true); ("data", JObj (withDetails db task))]
      end
  end.

Definition withTasks (db : Db) (l : list Obj) : Db :=
  {| companies := companies db; users := users db; employees := employees db;
     projects := projects db; tasks := l; materials := materials db |}.

(** [normalizedData.id], generated when the body brings none. *)
Definition assignTaskId (db : Db) (normalizedData : Obj) : Obj :=
  if negb (truthy (get normalizedData "id"))
  then set "id" (match greatestBy "id" (tasks db) with
                 | Some lastTask => plusOne (get lastTask "id")
                 | None => JNum (Fin 1)
                 end) normalizedData
  else normalizedData.

(** The [try] block of [createTask]. *)
Definition createTaskTry (db : Db) (now : Z) (body : Obj) : Result (Response * Db) :=
  (* Input validation *)
  let validationErrors := validateTaskInput body in
  if Nat.ltb 0 (length validationErrors)
  then Ok (refusal 400 (join ", " validationErrors), db)
  else
    (* Normalize input data *)
    normalizedData ← normalizeTaskData now body;
    (* Generate new ID if not provided *)
    let normalizedData := assignTaskId db normalizedData in
    (* Referential integrity validation *)
    let referentialCheck :=
      validateReferentialIntegrityTask db (get normalizedData "companyId")
        (get normalizedData "projectId") in
    if negb (isValid referentialCheck)
    then Ok (refusal 400 (join ", " (errors referentialCheck)), db)
    else
      (* Create task *)
      let taskData := set "updatedAt" (JDate (Some now)) normalizedData in
      match onInsert TaskModel (tasks db) taskData with
      | Some e => Throw e
      | None =>
          let savedTask := taskData in
          let db' := withTasks db (tasks db ++ [savedTask]) in
          Ok (respond 201
                [("success", JBool true);
                 ("message", JStr "Task created successfully");
                 ("data", JObj (withDetails db' savedTask))], db')
      end.

Definition createTaskCatch (error : JsError) : Response :=
  match error with
  | ValidationError _ errs =>
      respond 400 [("success", JBool false);
                   ("message", JStr "Data validation error");
                   ("errors", strArray errs)]
  | DuplicateKey _ _ => refusal 409 "Task with this ID already exists"
  | _ => refusal 500 ("Error creating task: " +:+ errMessage error)
  end.

(** POST /api/tasks. *)
Definition createTask (db : Db) (now : Z) (body : Obj) : Response * Db :=
  match createTaskTry db now body with
  | Ok r => r
  | Throw error => (createTaskCatch error, db)
  end.

(** The [try] block of [updateTask]. *)
Definition updateTaskTry (db : Db) (now : Z) (idParam : string) (body : Obj)
  : Result (Response * Db) :=
  updateData ← normalizeTaskData now body;
  let updateData := set "updatedAt" (JDate (Some now)) updateData in
  match castTaskId idParam, onUpdate TaskModel (tasks db) updateData with
  | Some e, _ | None, Some e => Throw e
  | None, None =>
      match findOne (taskSelector idParam) (tasks db) with
      | None => Ok (refusal 404 "Task not found", db)
      | Some stored =>
          let updatedTask := updateData ∪ stored in
          let db' := withTasks db (updateFirst (taskSelector idParam) updateData (tasks db)) in
          (* Populate response *)
          let company :=
            findOne (fieldEq "id" (get updatedTask "companyId")) (companies db') in
          Ok (respond 200
                [("success", JBool true);
                 ("message", JStr "Task updated successfully");
                 ("data", JObj (set "companyName" (nameOr company "Unknown Company")
                                  updatedTask))], db')
      end
  end.

(** PUT /api/tasks/:id. *)
Definition updateTask (db : Db) (now : Z) (idParam : string) (body : Obj)
  : Response * Db :=
  match updateTaskTry db now idParam body with
  | Ok r => r
  | Throw error => (refusal 500 ("Error updating task: " +:+ errMessage error), db)
  end.

(** DELETE /api/tasks/:id. *)
Definition deleteTask (db : Db) (idParam : string) : Response * Db :=
  match castTaskId idParam with
  | Some error => (refusal 500 ("Error deleting task: " +:+ errMessage error), db)
  | None =>
      match findOne (taskSelector idParam) (tasks db) with
      | None => (refusal 404 "Task not found", db)
      | Some deletedTask =>
          (respond 200 [("success", JBool true);
                        ("message", JStr "Task deleted successfully");
                        ("data", JObj deletedTask)],
           withTasks db (deleteFirst (taskSelector idParam) (tasks db)))
      end
  end.

(** ** controllers/materialsController.js *)

Definition withMaterials (db : Db) (l : list Obj) : Db :=
  {| companies := companies db; users := users db; employees := employees db;
     projects := projects db; tasks := tasks db; materials := l |}.

Definition errorBody (code : Z) (message : string) : Response :=
  respond code [("error", JStr message)].

(** [Material.create(docs)] for an array: a document is made of each
    element and saved; every element that the model accepts is stored, and
    the call fails with the error of the first element that is refused. The
    saves run concurrently; they are taken here in the order of the array.
    An element that is no object is refused when the document is made
    (the message is Mongoose's). *)
Definition notADocument (v : JsValue) : JsError :=
  OtherError ("Parameter obj to Document() must be an object, got " +:+ toStringJs v).

Fixpoint createEach (coll : list Obj) (docs : list JsValue)
  : list Obj * list Obj * option JsError :=
  match docs with
  | [] => (coll, [], None)
  | JObj doc :: rest =>
      match onInsert MaterialModel coll doc with
      | Some err => let '(coll, created, _) := createEach coll rest in
                    (coll, created, Some err)
      | None => let '(coll, created, err) := createEach (coll ++ [doc]) rest in
                (coll, doc :: created, err)
      end
  | v :: rest => let '(coll, created, _) := createEach coll rest in
                 (coll, created, Some (notADocument v))
  end.

(** POST /api/materials. The body is what the body parser hands over: a
    JSON object, or a JSON array. *)
Definition createMaterial (db : Db) (body : JsValue) : Response * Db :=
  match body with
  | JObj doc =>
      match onInsert MaterialModel (materials db) doc with
      | Some err => (errorBody 400 (errMessage err), db)
      | None =>
          let material := doc in
          ({| status := 201; body := JObj material |},
           withMaterials db (materials db ++ [material]))
      end
  | JArr docs =>
      let '(coll, created, error) := createEach (materials db) docs in
      match error with
      | Some err => (errorBody 400 (errMessage err), withMaterials db coll)
      | None => ({| status := 201; body := docArray created |}, withMaterials db coll)
      end
  | _ => (errorBody 400 (errMessage (notADocument body)), db)
  end.

(** GET /api/materials. *)
Definition getMaterials (db : Db) : Response :=
  {| status := 200; body := docArray (materials db) |}.

(** GET /api/materials/:id. *)
Definition getMaterial (db : Db) (idParam : string) : Response :=
  match castObjectId idParam with
  | Some err => errorBody 500 (errMessage err)
  | None =>
      match findOne (fieldEq "_id" (JStr idParam)) (materials db) with
      | None => errorBody 404 "Material not found"
      | Some material => {| status := 200; body := JObj material |}
      end
  end.

(** PUT /api/materials/:id. The update runs without [runValidators]: what
    the model refuses here are the values that it cannot cast. *)
Definition updateMaterial (db : Db) (idParam : string) (body : Obj) : Response * Db :=
  match castObjectId idParam, onUpdate MaterialModel (materials db) body with
  | Some err, _ | None, Some err => (errorBody 400 (errMessage err), db)
  | None, None =>
      match findOne (fieldEq "_id" (JStr idParam)) (materials db) with
      | None => (errorBody 404 "Material not found", db)
      | Some stored =>
          ({| status := 200; body := JObj (body ∪ stored) |},
           withMaterials db
             (updateFirst (fieldEq "_id" (JStr idParam)) body (materials db)))
      end
  end.

(** DELETE /api/materials/:id. *)
Definition deleteMaterial (db : Db) (idParam : string) : Response * Db :=
  match castObjectId idParam with
  | Some err => (errorBody 500 (errMessage err), db)
  | None =>
      match findOne (fieldEq "_id" (JStr idParam)) (materials db) with
      | None => (errorBody 404 "Material not found", db)
      | Some _ =>
          (respond 200 [("message", JStr "Material deleted")],
           withMaterials db (deleteFirst (fieldEq "_id" (JStr idParam)) (materials db)))
      end
  end.

(** ** Vocabulary of the properties *)

(** Shapes of strings: the first character is not white space, some
    character is not, no character is. *)
Definition startsNonWhite (s : string) : bool :=
  match s with
  | EmptyString => true
  | String c _ => negb (isWhite c)
  end.

Fixpoint hasNonWhite (s : string) : bool :=
  match s with
  | EmptyString => false
  | String c s' => (negb (isWhite c) || hasNonWhite s')%bool
  end.

Fixpoint noWhite (s : string) : bool :=
  match s with
  | EmptyString => true
  | String c s' => (negb (isWhite c) && noWhite s')%bool
  end.

(** A value that, if it is a whole number, lies below 10^21 in magnitude:
    the numbers that print as plain decimal digits. *)
Definition wholeBelow (v : JsValue) : Prop :=
  match v with
  | JNum (Fin z) => Z.abs z < 10 ^ 21
  | _ => True
  end.

(** A time value that a [Date] can hold. *)
(** The three normalisers, and for each the fields it passes through
    [parseInt]. *)
Inductive Normaliser := EmployeeNormaliser | ProjectNormaliser | TaskNormaliser.

Definition normalise (n : Normaliser) (now : Z) (data : Obj) : Result Obj :=
  match n with
  | EmployeeNormaliser => normalizeEmployeeData now data
  | ProjectNormaliser => normalizeProjectData data
  | TaskNormaliser => normalizeTaskData now data
  end.

Definition integerFields (n : Normaliser) : list string :=
  match n with
  | EmployeeNormaliser => ["id"; "companyId"; "userId"]
  | ProjectNormaliser => ["companyId"]
  | TaskNormaliser => ["companyId"; "projectId"; "createdBy"]
  end.

(** The integer ids stored in a collection, their maximum, and the id that
    is "the maximum id currently stored plus 1, and 1 when the collection is
    empty". *)
Definition idOf (d : Obj) : option Z :=
  match get d "id" with
  | JNum (Fin z) => Some z
  | _ => None
  end.

Definition maximum (l : list Z) : option Z :=
  foldr (fun z acc => match acc with
                      | Some m => Some (Z.max z m)
                      | None => Some z
                      end) None l.

Definition maxIdPlusOne (coll : list Obj) : Z :=
  match maximum (omap idOf coll) with
  | Some m => m + 1
  | None => 1
  end.

(** "Ordered by descending createdAt and id": [a] may come before [b] in
    the listing when its [createdAt] is the greater of the two in the order
    of MongoDB, or when the two are equal there and its [id] is not the
    smaller one. *)
Definition newestFirst (a b : Obj) : Prop :=
  bsonCompare (get a "createdAt") (get b "createdAt") = Gt
  ∨ (bsonCompare (get a "createdAt") (get b "createdAt") = Eq
     ∧ bsonCompare (get a "id") (get b "id") ≠ Lt).

(** A document whose [id] is a whole number below 2^53 in magnitude, so
    that [id + 1] is exact in binary64. *)
Definition safeId (d : Obj) : Prop := ∃ z, idOf d = Some z ∧ Z.abs z < 2 ^ 53.

(** * The other routes of the controllers *)

(** [parseInt(req.params.id, 10)] under the guard
    [isNaN(id) || id <= 0] of the [/:id] routes. *)
Definition positiveId (idParam : string) : option Z :=
  match parseIntStr idParam with
  | Fin z => if z <=? 0 then None else Some z
  | NaN => None
  end.

(** ** controllers/employeeController.js: read, delete and status routes *)

Definition withEmployees (db : Db) (l : list Obj) : Db :=
  {| companies := companies db; users := users db; employees := l;
     projects := projects db; tasks := tasks db; materials := materials db |}.

Definition invalidEmployeeId (now : Z) : Response :=
  failure now 400 "Invalid employee ID. Must be a positive integer.".

Definition employeeNotFound (now : Z) (employeeId : JsValue) : Response :=
  failure now 404 ("Employee with ID " +:+ toStringJs employeeId +:+ " not found").

(** GET /api/employees/:id. *)
Definition getEmployeeById (db : Db) (now : Z) (idParam : string) : Response :=
  match positiveId idParam with
  | None => invalidEmployeeId now
  | Some z =>
      let employeeId := JNum (Fin z) in
      match findOne (fieldEq "id" employeeId) (employees db) with
      | None => employeeNotFound now employeeId
      | Some employee =>
          (* select('-__v') *)
          let employee := delete "__v" employee in
          (* Get user email if userId exists *)
          let userEmail := getUserEmailById db (get employee "userId") in
          respond 200 [("success", JBool true);
                       ("data", JObj (set "email" userEmail
                                        (transformEmployeeResponse employee)));
                       timestamp now]
      end
  end.

(** DELETE /api/employees/:id. *)
Definition deleteEmployee (db : Db) (now : Z) (idParam : string) : Response * Db :=
  match positiveId idParam with
  | None => (invalidEmployeeId now, db)
  | Some z =>
      let employeeId := JNum (Fin z) in
      match findOne (fieldEq "id" employeeId) (employees db) with
      | None => (employeeNotFound now employeeId, db)
      | Some employee =>
          (respond 200
             [("success", JBool true);
              ("message", JStr "Employee deleted successfully");
              ("deletedEmployee",
               JObj (obj [("id", get employee "id");
                          ("fullName", get employee "fullName");
                          ("employeeCode", get employee "employeeCode");
                          ("companyId", get employee "companyId");
                          ("status", get employee "status");
                          ("createdAt", get employee "createdAt")]));
              timestamp now],
           withEmployees db (deleteFirst (fieldEq "id" employeeId) (employees db)))
      end
  end.

(** The [try] block of [updateEmployeeStatus]. The update is made without
    [runValidators]. *)
Definition updateEmployeeStatusTry (db : Db) (now : Z) (idParam : string) (body : Obj)
  : Result (Response * Db) :=
  let status := get body "status" in
  match positiveId idParam with
  | None => Ok (invalidEmployeeId now, db)
  | Some z =>
      let employeeId := JNum (Fin z) in
      (* Validate status parameter *)
      valid ←
        (if negb (truthy status) then Ok false
         else u ← jsToUpperCase status; Ok (existsb (String.eqb u) employeeStatuses));
      if negb valid
      then Ok (failure now 400
                 ("Invalid status. Must be one of: " +:+ join ", " employeeStatuses), db)
      else
        (* Execute status update operation *)
        u ← jsToUpperCase status;
        let update := obj [("status", JStr u)] in
        match findOne (fieldEq "id" employeeId) (employees db) with
        | None => Ok (employeeNotFound now employeeId, db)
        | Some stored =>
            let employee := update ∪ stored in
            let db' := withEmployees db
                         (updateFirst (fieldEq "id" employeeId) update (employees db)) in
            (* Get user email for response *)
            let userEmail := getUserEmailById db' (get employee "userId") in
            Ok (respond 200
                  [("success", JBool true);
                   ("message", JStr ("Employee status updated to "
                                     +:+ toStringJs (get employee "status")));
                   ("data", JObj (obj [("id", get employee "id");
                                       ("fullName", get employee "fullName");
                                       ("employeeCode", get employee "employeeCode");
                                       ("status", get employee "status");
                                       ("email", userEmail)]));
                   timestamp now], db')
        end
  end.

(** PATCH /api/employees/:id/status. *)
Definition updateEmployeeStatus (db : Db) (now : Z) (idParam : string) (body : Obj)
  : Response * Db :=
  match updateEmployeeStatusTry db now idParam body with
  | Ok r => r
  | Throw error =>
      (failure now 500 ("Database error during status update: " +:+ errMessage error), db)
  end.

(** ** The project controller: read and delete routes *)

Definition projectNotFound (projectId : JsValue) : Response :=
  refusal 404 ("Project with ID " +:+ toStringJs projectId +:+ " not found").

(** GET /api/projects/:id. *)
Definition getProjectById (db : Db) (idParam : string) : Response :=
  match positiveId idParam with
  | None => invalidProjectId
  | Some z =>
      let projectId := JNum (Fin z) in
      match findOne (fieldEq "id" projectId) (projects db) with
      | None => projectNotFound projectId
      | Some project =>
          respond 200 [("success", JBool true); ("data", JObj (delete "__v" project))]
      end
  end.

(** DELETE /api/projects/:id. *)
Definition deleteProject (db : Db) (idParam : string) : Response * Db :=
  match positiveId idParam with
  | None => (invalidProjectId, db)
  | Some z =>
      let projectId := JNum (Fin z) in
      match findOne (fieldEq "id" projectId) (projects db) with
      | None => (projectNotFound projectId, db)
      | Some project =>
          (respond 200 [("success", JBool true);
                        ("message", JStr "Project deleted successfully");
                        ("data", JObj (obj [("id", projectId);
                                            ("name", get project "name");
                                            ("code", get project "code")]))],
           withProjects db (deleteFirst (fieldEq "id" projectId) (projects db)))
      end
  end.

(** ** controllers/taskController.js: the listings by project, status and type *)

(** [if (req.query.k) query.k = parseInt(req.query.k)]. *)
Definition byParsedId (q : Obj) (k : string) (d : Obj) : bool :=
  if truthy (get q k)
  then fieldEq k (JNum (parseIntAutoStr (toStringJs (get q k)))) d
  else true.

(** [if (req.query.k) query.k = req.query.k.toUpperCase()]. *)
Definition byUpperCased (q : Obj) (k : string) : Result (Obj -> bool) :=
  if truthy (get q k)
  then u ← jsToUpperCase (get q k); Ok (fieldEq k (JStr u))
  else Ok (fun _ => true).

(** The date range on [startDate], set when the query string has both
    [startDate] and [endDate]. *)
Definition byStartDateRange (q : Obj) (d : Obj) : bool :=
  if (truthy (get q "startDate") && truthy (get q "endDate"))%bool
  then dateBetween (newDate (get q "startDate")) (newDate (get q "endDate")) d
  else true.

(** [pagination: { page, limit, total, pages: Math.ceil(total / limit) }]. *)
Definition pagination (page limit total : Z) : string * JsValue :=
  ("pagination", JObj (obj [("page", JNum (Fin page));
                            ("limit", JNum (Fin limit));
                            ("total", JNum (Fin total));
                            ("pages", JNum (Fin (- ((- total) / limit))))])).

(** The [try] block of [getTasksByStatus]. *)
Definition getTasksByStatusTry (db : Db) (statusParam : string) (q : Obj)
  : Result Response :=
  let page := parseIntOr (get q "page") 1 in
  let limit := parseIntOr (get q "limit") 1000 in
  let skip := (page - 1) * limit in
  let status := toUpperCase statusParam in
  if negb (existsb (String.eqb status) taskStatuses)
  then Ok (refusal 400 ("Status must be one of: " +:+ join ", " taskStatuses))
  else
    let query := fun d =>
      (fieldEq "status" (JStr status) d && byParsedId q "companyId" d
       && byParsedId q "projectId" d && byStartDateRange q d)%bool in
    found ← findPage query skip limit (tasks db);
    let tasksWithDetails := map (withDetails db) found in
    let total := Z.of_nat (length (List.filter query (tasks db))) in
    Ok (respond 200 [("success", JBool true);
                     ("data", docArray tasksWithDetails);
                     ("status", JStr status);
                     pagination page limit total]).

(** GET /api/tasks/status/:status. *)
Definition getTasksByStatus (db : Db) (statusParam : string) (q : Obj) : Response :=
  match getTasksByStatusTry db statusParam q with
  | Ok r => r
  | Throw error => refusal 500 ("Error fetching tasks by status: " +:+ errMessage error)
  end.

(** The [try] block of [getTasksByType]. *)
Definition getTasksByTypeTry (db : Db) (taskTypeParam : string) (q : Obj)
  : Result Response :=
  let page := parseIntOr (get q "page") 1 in
  let limit := parseIntOr (get q "limit") 1000 in
  let skip := (page - 1) * limit in
  let taskType := toUpperCase taskTypeParam in
  if negb (existsb (String.eqb taskType) taskTypes)
  then Ok (refusal 400 ("Task type must be one of: " +:+ join ", " taskTypes))
  else
    let query := fun d =>
      (fieldEq "taskType" (JStr taskType) d && byParsedId q "companyId" d
       && byParsedId q "projectId" d && byStartDateRange q d)%bool in
    found ← findPage query skip limit (tasks db);
    let tasksWithDetails := map (withDetails db) found in
    let total := Z.of_nat (length (List.filter query (tasks db))) in
    Ok (respond 200 [("success", JBool true);
                     ("data", docArray tasksWithDetails);
                     ("taskType", JStr taskType);
                     pagination page limit total]).

(** GET /api/tasks/type/:taskType. *)
Definition getTasksByType (db : Db) (taskTypeParam : string) (q : Obj) : Response :=
  match getTasksByTypeTry db taskTypeParam q with
  | Ok r => r
  | Throw error => refusal 500 ("Error fetching tasks by type: " +:+ errMessage error)
  end.

(** [{ ...taskObj, companyName, projectName: project.name }]. *)
Definition withProjectDetails (db : Db) (project task : Obj) : Obj :=
  let company := findOne (fieldEq "id" (get task "companyId")) (companies db) in
  set "projectName" (get project "name")
    (set "companyName" (nameOr company "Unknown Company") task).

(** The [try] block of [getTasksByProject]. The schema of [Project.js]
    declares [id] a [Number], and a query on it with [NaN] is refused with a
    cast error. *)
Definition getTasksByProjectTry (db : Db) (projectIdParam : string) (q : Obj)
  : Result Response :=
  let projectId := parseIntAutoStr projectIdParam in
  let page := parseIntOr (get q "page") 1 in
  let limit := parseIntOr (get q "limit") 1000 in
  let skip := (page - 1) * limit in
  project ←
    match projectId with
    | NaN => Throw (OtherError "Cast to Number failed for value NaN at path id")
    | Fin _ => Ok (findOne (fieldEq "id" (JNum projectId)) (projects db))
    end;
  match project with
  | None => Ok (refusal 404 "Project not found")
  | Some project =>
      (* Additional filters *)
      byStatus ← byUpperCased q "status";
      byType ← byUpperCased q "taskType";
      let query := fun d =>
        (fieldEq "projectId" (JNum projectId) d && byStatus d && byType d
         && byStartDateRange q d)%bool in
      found ← findPage query skip limit (tasks db);
      let tasksWithDetails := map (withProjectDetails db project) found in
      let total := Z.of_nat (length (List.filter query (tasks db))) in
      Ok (respond 200 [("success", JBool true);
                       ("data", docArray tasksWithDetails);
                       ("project", JObj (obj [("id", get project "id");
                                              ("name", get project "name")]));
                       pagination page limit total])
  end.

(** GET /api/tasks/project/:projectId. *)
Definition getTasksByProject (db : Db) (projectIdParam : string) (q : Obj) : Response :=
  match getTasksByProjectTry db projectIdParam q with
  | Ok r => r
  | Throw error => refusal 500 ("Error fetching project tasks: " +:+ errMessage error)
  end.

(** ** The user controller *)

(** The model [User]. *)
Variable UserModel : Model.

Definition lowerChar (c : ascii) : ascii :=
  let n := nat_of_ascii c in
  if (Nat.leb 65 n && Nat.leb n 90)%bool then ascii_of_nat (n + 32) else c.

(** [s.toLowerCase()]. *)
Fixpoint toLowerCase (s : string) : string :=
  match s with
  | EmptyString => EmptyString
  | String c s' => String (lowerChar c) (toLowerCase s')
  end.

Definition jsToLowerCase (v : JsValue) : Result string :=
  strMethod "toLowerCase" toLowerCase v.

(** The matcher of [/^[^\s@]+@[^\s@]+\.[^\s@]+$/], one function per
    construct of the pattern, each taking the matcher of what follows it:
    a character of the class [[^\s@]] one or more times, a literal
    character, the end of the input. *)
Definition emailChar (c : ascii) : bool := negb (isWhite c || Ascii.eqb c "@").

Fixpoint classPlusThen (rest : string -> bool) (s : string) : bool :=
  match s with
  | EmptyString => false
  | String c s' => (emailChar c && (rest s' || classPlusThen rest s'))%bool
  end.

Definition literalThen (c : ascii) (rest : string -> bool) (s : string) : bool :=
  match s with
  | String d s' => (Ascii.eqb c d && rest s')%bool
  | EmptyString => false
  end.

Definition atEnd (s : string) : bool :=
  match s with
  | EmptyString => true
  | String _ _ => false
  end.

(** [emailRegex.test(s)]. *)
Definition emailRegex (s : string) : bool :=
  classPlusThen
    (literalThen "@" (classPlusThen (literalThen "." (classPlusThen atEnd)))) s.

(** [v.length] on a truthy [v]. *)
Definition jsLength (v : JsValue) : JsValue :=
  match v with
  | JStr s => JNum (Fin (Z.of_nat (String.length s)))
  | JArr l => JNum (Fin (Z.of_nat (length l)))
  | JObj o => get o "length"
  | _ => JUndefined
  end.

(** [v > n] for a number [n]. *)
Definition gtNumber (v : JsValue) (n : Z) : bool :=
  match toNumber v with
  | Fin z => n <? z
  | NaN => false
  end.

Definition isBoolean (v : JsValue) : bool :=
  match v with
  | JBool _ => true
  | _ => false
  end.

Definition isUndefined (v : JsValue) : bool :=
  match v with
  | JUndefined => true
  | _ => false
  end.

Definition validateUserInput (data : Obj) : Result (list string) :=
  let id := get data "id" in
  let email := get data "email" in
  let name := get data "name" in
  let isActive := get data "isActive" in
  let errors := [] in
  (* Required fields validation *)
  let errors := pushIf (negb (truthy id)) "User ID is required" errors in
  let errors := pushIf (negb (truthy email)) "Email is required" errors in
  let errors := pushIf (negb (truthy name)) "Name is required" errors in
  (* Data type validation *)
  let errors := pushIf (truthy id && isNaN id) "User ID must be a number" errors in
  (* Email validation *)
  let errors := pushIf (truthy email && negb (emailRegex (toStringJs email)))
                  "Please provide a valid email address" errors in
  (* Name validation *)
  c ← trimmedLength name (fun n => Nat.eqb n 0);
  let errors := pushIf c "User name cannot be empty" errors in
  c ← trimmedLength name (fun n => Nat.ltb 100 n);
  let errors := pushIf c "User name must be less than 100 characters" errors in
  (* Email length validation *)
  let errors := pushIf (truthy email && gtNumber (jsLength email) 254)
                  "Email address is too long" errors in
  (* Active status validation *)
  let errors := pushIf (negb (isUndefined isActive) && negb (isBoolean isActive))
                  "Active status must be a boolean value" errors in
  Ok errors.

Definition normalizeUserData (now : Z) (data : Obj) : Result Obj :=
  let normalized := data in
  (* Type conversion *)
  let normalized := coerce "id" (fun v => JNum (parseInt v)) normalized in
  (* String sanitization *)
  normalized ← whenTruthy "email"
    (fun v => l ← jsToLowerCase v; Ok (JStr (trim l))) normalized;
  normalized ← whenTruthy "name"
    (fun v => t ← jsTrim v; Ok (JStr (collapseSpaces t))) normalized;
  (* Boolean conversion *)
  let normalized :=
    if negb (isUndefined (get normalized "isActive"))
    then set "isActive" (JBool (truthy (get normalized "isActive"))) normalized
    else normalized in
  (* Date handling with validation *)
  let normalized :=
    if truthy (get normalized "createdAt")
    then set "createdAt"
           (match newDate (get normalized "createdAt") with
            | None => JDate (Some now)
            | Some t => JDate (Some t)
            end) normalized
    else set "createdAt" (JDate (Some now)) normalized in
  (* Default values *)
  let normalized :=
    if isUndefined (get normalized "isActive")
    then set "isActive" (JBool true) normalized
    else normalized in
  Ok normalized.

Definition checkUserUniqueness (db : Db) (userId email excludeUserId : JsValue)
  : Result Check :=
  (* Check ID uniqueness *)
  let idQuery :=
    if truthy excludeUserId then fieldNe "id" excludeUserId
    else fieldEq "id" userId in
  (* Check email uniqueness *)
  l ← jsToLowerCase email;
  let emailQuery := fun d =>
    (fieldEq "email" (JStr (trim l)) d
     && (if truthy excludeUserId then fieldNe "id" excludeUserId d else true))%bool in
  let existingById := findOne idQuery (users db) in
  let existingByEmail := findOne emailQuery (users db) in
  let errors := [] in
  let errors := pushIf (bool_decide (is_Some existingById))
                  ("User with ID " +:+ toStringJs userId +:+ " already exists") errors in
  let errors := pushIf (bool_decide (is_Some existingByEmail))
                  ("User with email " +:+ toStringJs email +:+ " already exists")
                  errors in
  Ok (mkCheck errors).

Definition generateUserMetadata (now : Z) (userData : Obj) : Obj :=
  let isActive := truthy (get userData "isActive") in
  obj [("accountStatus", JStr (if isActive then "ACTIVE" else "INACTIVE"));
       ("lastActive", if isActive then JDate (Some now) else JNull);
       ("loginCount", JNum (Fin 0));
       ("preferences", JObj ∅);
       ("security", JObj (obj [("emailVerified", JBool false);
                               ("twoFactorEnabled", JBool false)]))].

Definition withUsers (db : Db) (l : list Obj) : Db :=
  {| companies := companies db; users := l; employees := employees db;
     projects := projects db; tasks := tasks db; materials := materials db |}.

(** The [try] block of [createUser]. *)
Definition createUserTry (db : Db) (now : Z) (body : Obj) : Result (Response * Db) :=
  (* Execute input validation *)
  validationErrors ← validateUserInput body;
  if Nat.ltb 0 (length validationErrors)
  then Ok (refusal 400 (join ", " validationErrors), db)
  else
    (* Normalize input data *)
    normalizedData ← normalizeUserData now body;
    (* Execute uniqueness validation *)
    uniquenessCheck ←
      checkUserUniqueness db (get normalizedData "id") (get normalizedData "email") JNull;
    if negb (isValid uniquenessCheck)
    then Ok (refusal 409 (join ", " (errors uniquenessCheck)), db)
    else
      (* Generate user metadata *)
      let userMetadata := generateUserMetadata now normalizedData in
      (* Prepare user document *)
      let userData :=
        set "updatedAt" (JDate (Some now))
          (set "metadata" (JObj userMetadata) normalizedData) in
      (* Persist user document *)
      match onInsert UserModel (users db) userData with
      | Some e => Throw e
      | None =>
          let savedUser := userData in
          Ok (respond 201
                [("success", JBool true);
                 ("message", JStr "User created successfully");
                 ("data", JObj savedUser);
                 ("metadata", JObj (obj [("accountStatus",
                                          get userMetadata "accountStatus");
                                         ("security", get userMetadata "security")]))],
              withUsers db (users db ++ [savedUser]))
      end.

Definition createUserCatch (error : JsError) : Response :=
  match error with
  | ValidationError _ errs =>
      respond 400 [("success", JBool false);
                   ("message", JStr "Data validation error");
                   ("errors", strArray errs)]
  | DuplicateKey _ field => refusal 409 ("User with this " +:+ field +:+ " already exists")
  | _ => refusal 500 ("Server error during user creation: " +:+ errMessage error)
  end.

(** POST /api/users. *)
Definition createUser (db : Db) (now : Z) (body : Obj) : Response * Db :=
  match createUserTry db now body with
  | Ok r => r
  | Throw error => (createUserCatch error, db)
  end.

Definition invalidUserId : Response :=
  refusal 400 "Invalid user ID. Must be a positive integer.".

Definition userNotFound (userId : JsValue) : Response :=
  refusal 404 ("User with ID " +:+ toStringJs userId +:+ " not found").

(** GET /api/users/:id. *)
Definition getUserById (db : Db) (idParam : string) : Response :=
  match positiveId idParam with
  | None => invalidUserId
  | Some z =>
      let userId := JNum (Fin z) in
      match findOne (fieldEq "id" userId) (users db) with
      | None => userNotFound userId
      | Some user =>
          respond 200 [("success", JBool true); ("data", JObj (delete "__v" user))]
      end
  end.

(** The [try] block of [updateUser]. *)
Definition updateUserTry (db : Db) (now : Z) (idParam : string) (body : Obj)
  : Result (Response * Db) :=
  match positiveId idParam with
  | None => Ok (invalidUserId, db)
  | Some z =>
      let userId := JNum (Fin z) in
      (* Normalize update data *)
      updateData ← normalizeUserData now body;
      let updateData := set "updatedAt" (JDate (Some now)) updateData in
      (* Execute parallel validations *)
      let existingUser := findOne (fieldEq "id" userId) (users db) in
      uniquenessCheck ←
        (if truthy (get updateData "email")
         then checkUserUniqueness db userId (get updateData "email") userId
         else Ok passed);
      (* Verify user exists *)
      match existingUser with
      | None => Ok (userNotFound userId, db)
      | Some stored =>
          (* Handle uniqueness validation failure *)
          if negb (isValid uniquenessCheck)
          then Ok (refusal 409 (join ", " (errors uniquenessCheck)), db)
          else
            (* Generate updated metadata if relevant fields changed *)
            let shouldUpdateMetadata :=
              existsb (fun field => negb (isUndefined (get updateData field)))
                ["isActive"] in
            let updateData :=
              if shouldUpdateMetadata
              then
                let mergedData := updateData ∪ stored in
                let metadata :=
                  generateUserMetadata now mergedData ∪ spread (get stored "metadata") in
                (* Update last active timestamp if user is being activated *)
                let metadata :=
                  if (truthy (get updateData "isActive")
                      && negb (truthy (get stored "isActive")))%bool
                  then set "lastActive" (JDate (Some now)) metadata
                  else metadata in
                set "metadata" (JObj metadata) updateData
              else updateData in
            (* Execute update operation *)
            match onUpdate UserModel (users db) updateData with
            | Some e => Throw e
            | None =>
                let user := updateData ∪ stored in
                Ok (respond 200 [("success", JBool true);
                                 ("message", JStr "User updated successfully");
                                 ("data", JObj user)],
                    withUsers db (updateFirst (fieldEq "id" userId) updateData (users db)))
            end
      end
  end.

Definition updateUserCatch (error : JsError) : Response :=
  match error with
  | ValidationError _ errs =>
      respond 400 [("success", JBool false);
                   ("message", JStr "Data validation error during update");
                   ("errors", strArray errs)]
  | _ => refusal 400 ("Update process failed: " +:+ errMessage error)
  end.

(** PUT /api/users/:id. *)
Definition updateUser (db : Db) (now : Z) (idParam : string) (body : Obj)
  : Response * Db :=
  match updateUserTry db now idParam body with
  | Ok r => r
  | Throw error => (updateUserCatch error, db)
  end.

(** DELETE /api/users/:id. *)
Definition deleteUser (db : Db) (idParam : string) : Response * Db :=
  match positiveId idParam with
  | None => (invalidUserId, db)
  | Some z =>
      let userId := JNum (Fin z) in
      match findOne (fieldEq "id" userId) (users db) with
      | None => (userNotFound userId, db)
      | Some user =>
          (respond 200 [("success", JBool true);
                        ("message", JStr "User deleted successfully");
                        ("deletedUser",
                         JObj (obj [("id", get user "id");
                                    ("name", get user "name");
                                    ("email", get user "email");
                                    ("isActive", get user "isActive");
                                    ("createdAt", get user "createdAt")]))],
           withUsers db (deleteFirst (fieldEq "id" userId) (users db)))
      end
  end.

(** * The listing and statistics routes *)

(** The listing and statistics routes read through [find] with projections,
    with sort keys taken from the request and with regular expressions,
    through [countDocuments] and through [aggregate], some of them on the
    collection CompanyUser, which is not part of [Db]. These reads are not
    computed here: the call goes to the driver, a parameter of the
    embedding, with the name of the model and the filter and options that
    the handler builds, and returns documents or throws. What the handler
    does before and after the read is modelled as it is written. *)
Variable mongoFind : string -> Obj -> Obj -> Db -> Result (list Obj).
Variable mongoCount : string -> Obj -> Db -> Result Z.

(** [Model.aggregate(pipeline)]. The pipelines of the handlers are constants
    but for some values of the request; a pipeline is referred to by the
    name that the handler's comment gives it, with those values. *)
Variable mongoAggregate : string -> string -> list JsValue -> Db -> Result (list Obj).

(** A destructuring default [{ k = d } = o]: [d] replaces [undefined]. *)
Definition orDefault (v d : JsValue) : JsValue := if isUndefined v then d else v.

(** [v === s] for a string literal [s]. *)
Definition isString (s : string) (v : JsValue) : bool :=
  match v with
  | JStr t => String.eqb t s
  | _ => false
  end.

(** [a * b] and [a - b]. *)
Definition arith (f : Z -> Z -> Z) (a b : JsValue) : JsValue :=
  JNum (match toNumber a, toNumber b with
        | Fin x, Fin y => Fin (roundToDouble (f x y))
        | _, _ => NaN
        end).

(** [a + b]. *)
Definition jsPlus (a b : JsValue) : JsValue :=
  match a, b with
  | (JStr _ | JDate _ | JArr _ | JObj _), _ | _, (JStr _ | JDate _ | JArr _ | JObj _) =>
      JStr (toStringJs a +:+ toStringJs b)
  | _, _ => arith Z.add a b
  end.

(** [Math.ceil(total / limit)]. A division by zero gives an infinity or
    [NaN]; JSON prints both as [null]. *)
Definition ceilQuotient (total : Z) (limit : JsValue) : JsValue :=
  JNum (match toNumber limit with
        | Fin l => if l =? 0 then NaN else Fin (- ((- total) / l))
        | NaN => NaN
        end).

(** [{ currentPage: parseInt(page), totalPages: Math.ceil(total / limit),
       totalItems: total, itemsPerPage: parseInt(limit) }]. *)
Definition pageSummary (page limit : JsValue) (total : Z) : string * JsValue :=
  ("pagination",
   JObj (obj [("currentPage", JNum (parseIntAutoStr (toStringJs page)));
              ("totalPages", ceilQuotient total limit);
              ("totalItems", JNum (Fin total));
              ("itemsPerPage", JNum (parseIntAutoStr (toStringJs limit)))])).

(** [.select(fields).sort(order)]. *)
Definition selectSorted (fields : string) (order : Obj) : Obj :=
  obj [("select", JStr fields); ("sort", JObj order)].

(** [.limit(limit * 1).skip((page - 1) * limit)]. *)
Definition paged (page limit : JsValue) (options : Obj) : Obj :=
  set "skip" (arith Z.mul (arith Z.sub page (JNum (Fin 1))) limit)
    (set "limit" (arith Z.mul limit (JNum (Fin 1))) options).

(** [{ [sortBy]: sortOrder === 'desc' ? -1 : 1 }]. *)
Definition sortOrderOf (sortBy sortOrder : JsValue) : Obj :=
  {[ toStringJs sortBy := JNum (Fin (if isString "desc" sortOrder then -1 else 1)) ]}.

Definition countOf {A} (l : list A) : string * JsValue :=
  ("count", JNum (Fin (Z.of_nat (length l)))).

(** ** controllers/employeeController.js: the listings *)

(** [getUserEmailsBulk(userIds)]: a map from the ids, as property names, to
    the e-mails of the users whose id is among [userIds]; the empty map for
    no id. *)
Definition getUserEmailsBulk (db : Db) (userIds : list JsValue) : Obj :=
  foldl (fun emailMap user => set (toStringJs (get user "id")) (get user "email") emailMap)
    ∅ (List.filter (fun user => existsb (queryEq (get user "id")) userIds) (users db)).

(** [emailMap[userId] || null], for a map without inherited properties. *)
Definition emailOf (emailMap : Obj) (userId : JsValue) : JsValue :=
  jsOr (get emailMap (toStringJs userId)) JNull.

(** [transformEmployeeResponse(employee, emailMap)]. *)
Definition transformEmployeeWith (emailMap : Obj) (employee : Obj) : Obj :=
  set "email" (if truthy (get employee "userId")
               then emailOf emailMap (get employee "userId")
               else JNull)
    (transformEmployeeResponse employee).

(** [[...new Set(employees.map(emp => emp.userId).filter(Boolean))]], up to
    the duplicates, which make no difference to [$in]. *)
Definition userIdsOf (employees : list Obj) : list JsValue :=
  List.filter truthy (map (fun emp => get emp "userId") employees).

(** The [try] block of [getWorkerEmployees]. *)
Definition getWorkerEmployeesTry (db : Db) (q : Obj) : Result Response :=
  let companyId := get q "companyId" in
  let role := orDefault (get q "role") (JStr "worker") in
  let search := orDefault (get q "search") (JStr "") in
  if negb (truthy companyId)
  then Ok (refusal 400 "companyId is required")
  else
    (* Convert companyId to numeric for querying *)
    let numericCompanyId := JNum (parseIntAutoStr (toStringJs companyId)) in
    if isNaN numericCompanyId
    then Ok (refusal 400 "Invalid company ID format")
    else
      (* Step 1: Find all company_user records with role = 'worker' *)
      companyUserRecords ←
        mongoFind "CompanyUser" (obj [("companyId", numericCompanyId); ("role", role)])
          ∅ db;
      let userIds := map (fun cu => get cu "userId") companyUserRecords in
      if Nat.eqb (length userIds) 0
      then Ok (respond 200 [("success", JBool true);
                            ("data", JArr []);
                            ("count", JNum (Fin 0));
                            ("message", JStr "No worker users found for this company")])
      else
        (* Step 2: Get user emails in bulk *)
        let emailMap := getUserEmailsBulk db userIds in
        (* Step 3: Find all employees linked to those users *)
        let query := obj [("companyId", numericCompanyId);
                          ("status", JStr "ACTIVE");
                          ("userId", JObj {[ "$in" := JArr userIds ]})] in
        (* Add search functionality *)
        let matches := JObj (obj [("$regex", search); ("$options", JStr "i")]) in
        let query :=
          if truthy search
          then set "$or" (JArr [JObj {[ "fullName" := matches ]};
                                JObj {[ "jobTitle" := matches ]};
                                JObj {[ "employeeCode" := matches ]}]) query
          else query in
        (* Step 4: Fetch employees *)
        employees ←
          mongoFind "Employee" query
            (selectSorted "id employeeCode fullName jobTitle phone status photoUrl userId"
               {[ "fullName" := JNum (Fin 1) ]}) db;
        (* Transform response to include user email *)
        let transformedEmployees :=
          map (fun employee =>
                 obj [("id", get employee "id");
                      ("employeeCode", get employee "employeeCode");
                      ("fullName", get employee "fullName");
                      ("jobTitle", get employee "jobTitle");
                      ("phone", get employee "phone");
                      ("status", get employee "status");
                      ("photoUrl", get employee "photoUrl");
                      ("email", emailOf emailMap (get employee "userId"));
                      ("userId", get employee "userId")]) employees in
        Ok (respond 200
              [("success", JBool true);
               ("data", docArray transformedEmployees);
               countOf transformedEmployees;
               ("message",
                JStr ("Found "
                      +:+ numberToString (Fin (Z.of_nat (length transformedEmployees)))
                      +:+ " active worker employees"))]).

(** GET /api/employees/workers. *)
Definition getWorkerEmployees (db : Db) (q : Obj) : Response :=
  match getWorkerEmployeesTry db q with
  | Ok r => r
  | Throw err =>
      respond 500 [("success", JBool false);
                   ("message", JStr "Server error while fetching worker employees");
                   ("error", JStr (errMessage err))]
  end.

(** The [try] block of [getEmployees]. *)
Definition getEmployeesTry (db : Db) (now : Z) : Result Response :=
  (* Execute optimized query without population *)
  employees ←
    mongoFind "Employee" ∅
      (set "maxTimeMS" (JNum (Fin 10000))
         (selectSorted "id companyId userId employeeCode fullName phone jobTitle status photoUrl createdAt"
            {[ "createdAt" := JNum (Fin (-1)) ]})) db;
  (* Get unique user IDs for email lookup *)
  let emailMap := getUserEmailsBulk db (userIdsOf employees) in
  (* Transform response *)
  let transformedEmployees := map (transformEmployeeWith emailMap) employees in
  Ok (respond 200 [("success", JBool true);
                   countOf transformedEmployees;
                   ("data", docArray transformedEmployees);
                   timestamp now]).

(** GET /api/employees. *)
Definition getEmployees (db : Db) (now : Z) : Response :=
  match getEmployeesTry db now with
  | Ok r => r
  | Throw error =>
      failure now 500 ("Database error during employee retrieval: " +:+ errMessage error)
  end.

Definition invalidCompanyId (now : Z) : Response :=
  failure now 400 "Invalid company ID. Must be a positive integer.".

(** The [try] block of [getEmployeesByCompany]. *)
Definition getEmployeesByCompanyTry (db : Db) (now : Z) (companyIdParam : string)
  : Result Response :=
  match positiveId companyIdParam with
  | None => Ok (invalidCompanyId now)
  | Some z =>
      let companyId := JNum (Fin z) in
      (* Execute optimized query without population *)
      companyDrivers ←
        mongoFind "CompanyUser" (obj [("companyId", companyId); ("role", JStr "driver")])
          {[ "select" := JStr "userId role" ]} db;
      let userIds := map (fun cd => get cd "userId") companyDrivers in
      if Nat.eqb (length userIds) 0
      then Ok (respond 200 [("success", JBool true);
                            ("count", JNum (Fin 0));
                            ("companyId", companyId);
                            ("data", JArr []);
                            timestamp now])
      else
        (* Fetch corresponding employees *)
        employees ←
          mongoFind "Employee" {[ "userId" := JObj {[ "$in" := JArr userIds ]} ]}
            (selectSorted "id employeeCode fullName phone jobTitle status photoUrl userId createdAt"
               {[ "createdAt" := JNum (Fin (-1)) ]}) db;
        let emailMap := getUserEmailsBulk db userIds in
        (* Transform response *)
        let transformedEmployees := map (transformEmployeeWith emailMap) employees in
        Ok (respond 200 [("success", JBool true);
                         countOf transformedEmployees;
                         ("companyId", companyId);
                         ("data", docArray transformedEmployees);
                         timestamp now])
  end.

(** GET /api/employees/company/:companyId. *)
Definition getEmployeesByCompany (db : Db) (now : Z) (companyIdParam : string)
  : Response :=
  match getEmployeesByCompanyTry db now companyIdParam with
  | Ok r => r
  | Throw error =>
      failure now 500 ("Database error during company employee retrieval: "
                       +:+ errMessage error)
  end.

(** The [try] block of [getActiveEmployeesByCompany]. *)
Definition getActiveEmployeesByCompanyTry (db : Db) (now : Z) (companyIdParam : string)
  : Result Response :=
  match positiveId companyIdParam with
  | None => Ok (invalidCompanyId now)
  | Some z =>
      let companyId := JNum (Fin z) in
      (* Execute optimized query for active employees only *)
      activeEmployees ←
        mongoFind "Employee" (obj [("companyId", companyId); ("status", JStr "ACTIVE")])
          (selectSorted "id employeeCode fullName jobTitle phone photoUrl userId"
             {[ "fullName" := JNum (Fin 1) ]}) db;
      (* Get unique user IDs for email lookup *)
      let emailMap := getUserEmailsBulk db (userIdsOf activeEmployees) in
      (* Transform response *)
      let transformedEmployees :=
        map (fun employee =>
               obj [("id", get employee "id");
                    ("employeeCode", get employee "employeeCode");
                    ("fullName", get employee "fullName");
                    ("jobTitle", get employee "jobTitle");
                    ("phone", get employee "phone");
                    ("photoUrl", get employee "photoUrl");
                    ("email", emailOf emailMap (get employee "userId"));
                    ("userId", get employee "userId")]) activeEmployees in
      Ok (respond 200 [("success", JBool true);
                       countOf transformedEmployees;
                       ("companyId", companyId);
                       ("data", docArray transformedEmployees);
                       timestamp now])
  end.

(** GET /api/employees/company/:companyId/active. *)
Definition getActiveEmployeesByCompany (db : Db) (now : Z) (companyIdParam : string)
  : Response :=
  match getActiveEmployeesByCompanyTry db now companyIdParam with
  | Ok r => r
  | Throw error =>
      failure now 500 ("Database error during active employee retrieval: "
                       +:+ errMessage error)
  end.

(** The [try] block of [getEmployeesByStatus]. *)
Definition getEmployeesByStatusTry (db : Db) (now : Z) (statusParam : string)
  : Result Response :=
  let status := toUpperCase statusParam in
  (* Validate status parameter *)
  if negb (existsb (String.eqb status) employeeStatuses)
  then Ok (failure now 400
             ("Invalid status. Must be one of: " +:+ join ", " employeeStatuses))
  else
    (* Execute optimized query without population *)
    employees ←
      mongoFind "Employee" {[ "status" := JStr status ]}
        (selectSorted "id companyId employeeCode fullName jobTitle photoUrl userId createdAt"
           {[ "createdAt" := JNum (Fin (-1)) ]}) db;
    (* Get unique user IDs for email lookup *)
    let emailMap := getUserEmailsBulk db (userIdsOf employees) in
    (* Transform response *)
    let transformedEmployees := map (transformEmployeeWith emailMap) employees in
    Ok (respond 200 [("success", JBool true);
                     countOf transformedEmployees;
                     ("status", JStr status);
                     ("data", docArray transformedEmployees);
                     timestamp now]).

(** GET /api/employees/status/:status. *)
Definition getEmployeesByStatus (db : Db) (now : Z) (statusParam : string) : Response :=
  match getEmployeesByStatusTry db now statusParam with
  | Ok r => r
  | Throw error =>
      failure now 500 ("Database error during status-based employee retrieval: "
                       +:+ errMessage error)
  end.

(** ** The project controller: the listings and the statistics *)

(** [buildProjectFilter(query)]. *)
Definition buildProjectFilter (query : Obj) : Obj :=
  let filter : Obj := ∅ in
  let filter := if truthy (get query "status")
                then set "status" (get query "status") filter else filter in
  let filter := if truthy (get query "companyId")
                then set "companyId" (JNum (parseInt (get query "companyId"))) filter
                else filter in
  let filter := if truthy (get query "health")
                then set "metadata.health" (get query "health") filter else filter in
  (* Date range filtering *)
  let filter :=
    if truthy (get query "startDateFrom")
    then set "startDate"
           (JObj {[ "$gte" := JDate (newDate (get query "startDateFrom")) ]}) filter
    else filter in
  let filter :=
    if truthy (get query "startDateTo")
    then set "startDate"
           (JObj (set "$lte" (JDate (newDate (get query "startDateTo")))
                    (spread (get filter "startDate")))) filter
    else filter in
  filter.

(** The [try] block of [getAllProjects]. *)
Definition getAllProjectsTry (db : Db) (now : Z) (q : Obj) : Result Response :=
  let page := orDefault (get q "page") (JNum (Fin 1)) in
  let limit := orDefault (get q "limit") (JNum (Fin 10)) in
  let sortBy := orDefault (get q "sortBy") (JStr "createdAt") in
  let sortOrder := orDefault (get q "sortOrder") (JStr "desc") in
  (* Build optimized filter *)
  let filter := buildProjectFilter q in
  (* Execute parallel queries for data and count *)
  projects ←
    mongoFind "Project" filter
      (set "maxTimeMS" (JNum (Fin 10000))
         (paged page limit
            (selectSorted "id name code companyId status budget startDate endDate metadata createdAt"
               (sortOrderOf sortBy sortOrder)))) db;
  total ← mongoCount "Project" filter db;
  (* Return successful retrieval response *)
  Ok (respond 200 [("success", JBool true);
                   ("data", docArray projects);
                   pageSummary page limit total;
                   timestamp now]).

(** GET /api/projects. *)
Definition getAllProjects (db : Db) (now : Z) (q : Obj) : Response :=
  match getAllProjectsTry db now q with
  | Ok r => r
  | Throw error =>
      failure now 500 ("Database error during project retrieval: " +:+ errMessage error)
  end.

Definition invalidCompanyIdFormat : Response :=
  refusal 400 "Invalid company ID format. Must be a positive integer.".

(** The [try] block of [getProjectsByCompany]. *)
Definition getProjectsByCompanyTry (db : Db) (companyIdParam : string) (q : Obj)
  : Result Response :=
  match positiveId companyIdParam with
  | None => Ok invalidCompanyIdFormat
  | Some z =>
      let companyId := JNum (Fin z) in
      let page := orDefault (get q "page") (JNum (Fin 1)) in
      let limit := orDefault (get q "limit") (JNum (Fin 10)) in
      let status := get q "status" in
      (* Execute parallel validations and queries *)
      let companyExists := findOne (fieldEq "id" companyId) (companies db) in
      (* [{ companyId, ...(status && { status }) }] *)
      let filter := if truthy status
                    then obj [("companyId", companyId); ("status", status)]
                    else {[ "companyId" := companyId ]} in
      projects ←
        mongoFind "Project" filter
          (paged page limit
             (selectSorted "id name code status budget startDate endDate metadata createdAt"
                {[ "createdAt" := JNum (Fin (-1)) ]})) db;
      total ← mongoCount "Project" filter db;
      (* Handle company not found scenario *)
      match companyExists with
      | None =>
          Ok (refusal 404 ("Company with ID " +:+ toStringJs companyId +:+ " not found"))
      | Some company =>
          (* Return successful retrieval response *)
          Ok (respond 200 [("success", JBool true);
                           ("data", docArray projects);
                           ("company", JObj (obj [("id", companyId);
                                                  ("name", get company "name");
                                                  ("tenantCode", get company "tenantCode")]));
                           pageSummary page limit total])
      end
  end.

(** GET /api/projects/company/:companyId. *)
Definition getProjectsByCompany (db : Db) (companyIdParam : string) (q : Obj)
  : Response :=
  match getProjectsByCompanyTry db companyIdParam q with
  | Ok r => r
  | Throw error =>
      refusal 500 ("Database error during company project retrieval: "
                   +:+ errMessage error)
  end.

(** [docs[0] || {}]. *)
Definition firstOrEmpty (docs : list Obj) : JsValue :=
  match docs with
  | d :: _ => JObj d
  | [] => JObj ∅
  end.

(** The [try] block of [getProjectStats]. *)
Definition getProjectStatsTry (db : Db) (now : Z) (companyIdParam : string)
  : Result Response :=
  match positiveId companyIdParam with
  | None => Ok invalidCompanyIdFormat
  | Some z =>
      let companyId := JNum (Fin z) in
      (* Execute parallel aggregation queries *)
      statusStats ←
        mongoAggregate "Project" "Status-based statistics" [companyId] db;
      healthStats ←
        mongoAggregate "Project" "Health-based statistics" [companyId] db;
      budgetStats ←
        mongoAggregate "Project" "Budget statistics" [companyId] db;
      timelineStats ←
        mongoAggregate "Project" "Timeline statistics" [companyId; JDate (Some now)] db;
      (* Return successful statistics response *)
      Ok (respond 200
            [("success", JBool true);
             ("data", JObj (obj [("statusStats", docArray statusStats);
                                 ("healthStats", docArray healthStats);
                                 ("budgetSummary", firstOrEmpty budgetStats);
                                 ("timelineSummary", firstOrEmpty timelineStats);
                                 ("companyId", companyId)]))])
  end.

(** GET /api/projects/stats/:companyId. *)
Definition getProjectStats (db : Db) (now : Z) (companyIdParam : string) : Response :=
  match getProjectStatsTry db now companyIdParam with
  | Ok r => r
  | Throw error =>
      refusal 500 ("Database error during project statistics retrieval: "
                   +:+ errMessage error)
  end.

(** ** The user controller: the listings and the statistics *)

(** The [try] block of [getUsers]. *)
Definition getUsersTry (db : Db) (now : Z) (q : Obj) : Result Response :=
  let page := orDefault (get q "page") (JNum (Fin 1)) in
  let limit := orDefault (get q "limit") (JNum (Fin 10)) in
  let sortBy := orDefault (get q "sortBy") (JStr "createdAt") in
  let sortOrder := orDefault (get q "sortOrder") (JStr "desc") in
  let isActive := get q "isActive" in
  (* Build optimized filter *)
  let filter : Obj :=
    if negb (isUndefined isActive)
    then {[ "isActive" := JBool (isString "true" isActive) ]}
    else ∅ in
  (* Execute parallel queries for data and count *)
  users ←
    mongoFind "User" filter
      (set "maxTimeMS" (JNum (Fin 10000))
         (paged page limit
            (selectSorted "id email name isActive metadata.createdAt"
               (sortOrderOf sortBy sortOrder)))) db;
  total ← mongoCount "User" filter db;
  (* Return successful retrieval response *)
  Ok (respond 200 [("success", JBool true);
                   countOf users;
                   ("data", docArray users);
                   pageSummary page limit total;
                   timestamp now]).

(** GET /api/users. *)
Definition getUsers (db : Db) (now : Z) (q : Obj) : Response :=
  match getUsersTry db now q with
  | Ok r => r
  | Throw error =>
      failure now 500 ("Database error during user retrieval: " +:+ errMessage error)
  end.

Definition quoted (s : string) : string :=
  String (ascii_of_nat 34) s +:+ String (ascii_of_nat 34) EmptyString.

(** The [try] block of [getUsersByStatus]. *)
Definition getUsersByStatusTry (db : Db) (isActive : string) : Result Response :=
  (* Validate status parameter *)
  if (negb (String.eqb isActive "true") && negb (String.eqb isActive "false"))%bool
  then Ok (refusal 400 ("Status must be either " +:+ quoted "true" +:+ " or "
                        +:+ quoted "false"))
  else
    let activeStatus := String.eqb isActive "true" in
    (* Execute optimized query *)
    users ←
      mongoFind "User" {[ "isActive" := JBool activeStatus ]}
        (selectSorted "id email name createdAt metadata.lastActive"
           {[ "createdAt" := JNum (Fin (-1)) ]}) db;
    (* Return successful retrieval response *)
    Ok (respond 200 [("success", JBool true);
                     countOf users;
                     ("status", JStr (if activeStatus then "ACTIVE" else "INACTIVE"));
                     ("data", docArray users)]).

(** GET /api/users/status/:isActive. *)
Definition getUsersByStatus (db : Db) (isActive : string) : Response :=
  match getUsersByStatusTry db isActive with
  | Ok r => r
  | Throw error =>
      refusal 500 ("Database error during status-based user retrieval: "
                   +:+ errMessage error)
  end.

(** The [try] block of [getUserStats]. *)
Definition getUserStatsTry (db : Db) : Result Response :=
  (* Execute parallel aggregation queries *)
  statusStats ← mongoAggregate "User" "Status-based statistics" [] db;
  activityStats ← mongoAggregate "User" "Activity-based statistics" [] db;
  timelineStats ← mongoAggregate "User" "Timeline statistics" [] db;
  (* Transform status stats for better readability *)
  let transformedStatusStats :=
    map (fun stat =>
           obj [("status", JStr (if truthy (get stat "_id") then "ACTIVE" else "INACTIVE"));
                ("count", get stat "count");
                ("latestUser", get stat "latestUser")]) statusStats in
  (* Return successful statistics response *)
  Ok (respond 200
        [("success", JBool true);
         ("data",
          JObj (obj [("statusStats", docArray transformedStatusStats);
                     ("activityStats", docArray activityStats);
                     ("timelineStats", docArray timelineStats);
                     ("totalUsers",
                      foldl (fun sum stat => jsPlus sum (get stat "count"))
                        (JNum (Fin 0)) statusStats)]))]).

(** GET /api/users/stats. *)
Definition getUserStats (db : Db) : Response :=
  match getUserStatsTry db with
  | Ok r => r
  | Throw error =>
      refusal 500 ("Database error during user statistics retrieval: "
                   +:+ errMessage error)
  end.

(** ** index.js *)

(** The requests that the application distinguishes, by the route that
    answers them, with the parts of each that its handler reads: route
    parameters, the query string, the body. The body parser hands over a
    JSON object or a JSON array; handlers that read properties off the body
    see an array as the object of its indices, so their body is an object;
    [createMaterial] hands the body to [Material.create], for which an array
    is a list of documents. [MalformedBody] is a request whose body the body
    parser rejects. *)
Inductive Request :=
(* routes/employeeRoutes.js *)
| PostEmployees (body : Obj)
| GetEmployees
| GetWorkerEmployees (query : Obj)
| GetEmployee (id : string)
| GetEmployeesByCompany (companyId : string)
| GetActiveEmployeesByCompany (companyId : string)
| GetEmployeesByStatus (status : string)
| PutEmployee (id : string) (body : Obj)
| PatchEmployeeStatus (id : string) (body : Obj)
| DeleteEmployee (id : string)
(* routes/projectRoutes.js *)
| GetProjects (query : Obj)
| GetProjectStats (companyId : string)
| GetProjectsByCompany (companyId : string) (query : Obj)
| GetProject (id : string)
| PostProjects (body : Obj)
| PutProject (id : string) (body : Obj)
| DeleteProject (id : string)
(* routes/taskRoutes.js *)
| GetTasks (query : Obj)
| GetTask (id : string)
| PostTasks (body : Obj)
| PutTask (id : string) (body : Obj)
| DeleteTask (id : string)
| GetTasksByProject (projectId : string) (query : Obj)
| GetTasksByStatus (status : string) (query : Obj)
| GetTasksByType (taskType : string) (query : Obj)
(* routes/userRoutes.js *)
| GetUsers (query : Obj)
| GetUserStats
| GetUsersByStatus (isActive : string)
| GetUser (id : string)
| PostUsers (body : Obj)
| PutUser (id : string) (body : Obj)
| DeleteUser (id : string)
(* routes/materialsRoutes.js *)
| PostMaterials (body : JsValue)
| GetMaterials
| GetMaterial (id : string)
| PutMaterial (id : string) (body : Obj)
| DeleteMaterial (id : string)
(* index.js *)
| GetRoot
| GetHealth
| MalformedBody
| Unmatched.

(** [app.get('/')]. *)
Definition rootHandler : Response :=
  respond 200
    [("message", JStr "ERP API is running!");
     ("endpoints", JObj (obj [("users", JStr "/api/users");
                              ("companies", JStr "/api/companies");
                              ("employees", JStr "/api/employees");
                              ("fleetVehicles", JStr "/api/fleet-vehicles");
                              ("fleetTasks", JStr "/api/fleet-tasks");
                              ("fleetTaskPassengers", JStr "/api/fleet-task-passengers");
                              ("fleetAlerts", JStr "/api/fleet-alerts");
                              ("drivers", JStr "/api/drivers");
                              ("projects", JStr "/api/projects");
                              ("tasks", JStr "/api/tasks");
                              ("materials", JStr "/api/materials")]))].

(** [app.get('/api/health')]. *)
Definition healthHandler (now : Z) : Response :=
  respond 200 [("status", JStr "OK"); timestamp now; ("database", JStr "Connected")].

(** The error handling middleware. *)
Definition errorMiddleware : Response :=
  respond 500 [("message", JStr "Something went wrong!")].

(** The 404 handler. *)
Definition notFoundHandler : Response :=
  respond 404 [("message", JStr "Route not found")].

(** The application: a request is answered by the handler its route is
    mounted on. *)
Definition app (db : Db) (now : Z) (req : Request) : Response * Db :=
  match req with
  | PostEmployees b => createEmployee db now b
  | GetEmployees => (getEmployees db now, db)
  | GetWorkerEmployees q => (getWorkerEmployees db q, db)
  | GetEmployee id => (getEmployeeById db now id, db)
  | GetEmployeesByCompany id => (getEmployeesByCompany db now id, db)
  | GetActiveEmployeesByCompany id => (getActiveEmployeesByCompany db now id, db)
  | GetEmployeesByStatus s => (getEmployeesByStatus db now s, db)
  | PutEmployee id b => updateEmployee db now id b
  | PatchEmployeeStatus id b => updateEmployeeStatus db now id b
  | DeleteEmployee id => deleteEmployee db now id
  | GetProjects q => (getAllProjects db now q, db)
  | GetProjectStats id => (getProjectStats db now id, db)
  | GetProjectsByCompany id q => (getProjectsByCompany db id q, db)
  | GetProject id => (getProjectById db id, db)
  | PostProjects b => createProject db now b
  | PutProject id b => updateProject db now id b
  | DeleteProject id => deleteProject db id
  | GetTasks q => (getAllTasks db q, db)
  | GetTask id => (getTaskById db id, db)
  | PostTasks b => createTask db now b
  | PutTask id b => updateTask db now id b
  | DeleteTask id => deleteTask db id
  | GetTasksByProject id q => (getTasksByProject db id q, db)
  | GetTasksByStatus s q => (getTasksByStatus db s q, db)
  | GetTasksByType t q => (getTasksByType db t q, db)
  | GetUsers q => (getUsers db now q, db)
  | GetUserStats => (getUserStats db, db)
  | GetUsersByStatus s => (getUsersByStatus db s, db)
  | GetUser id => (getUserById db id, db)
  | PostUsers b => createUser db now b
  | PutUser id b => updateUser db now id b
  | DeleteUser id => deleteUser db id
  | PostMaterials b => createMaterial db b
  | GetMaterials => (getMaterials db, db)
  | GetMaterial id => (getMaterial db id, db)
  | PutMaterial id b => updateMaterial db id b
  | DeleteMaterial id => deleteMaterial db id
  | GetRoot => (rootHandler, db)
  | GetHealth => (healthHandler now, db)
  | MalformedBody => (errorMiddleware, db)
  | Unmatched => (notFoundHandler, db)
  end.

(** The routes by the file that answers them: the employee, project, task
    and user controllers; the materials controller; [index.js] itself. *)
Inductive Origin := Controllers | Materials | Index.

Definition origin (req : Request) : Origin :=
  match req with
  | PostMaterials _ | GetMaterials | GetMaterial _ | PutMaterial _ _
  | DeleteMaterial _ => Materials
  | GetRoot | GetHealth | MalformedBody | Unmatched => Index
  | _ => Controllers
  end.

(** The requests whose handler writes at one place, after all its checks:
    all but the creation of materials from an array, which saves the
    elements one by one. *)
Definition writesOnce (req : Request) : bool :=
  match req with
  | PostMaterials (JArr _) => false
  | _ => true
  end.

(** ** Vocabulary of the further properties *)

(** The progress that [generateProjectMetadata] computes, by cases. *)
Definition progressOf (now : Z) (projectData : Obj) : Z :=
  if (truthy (get projectData "startDate") && truthy (get projectData "endDate"))%bool
  then match newDate (get projectData "startDate"),
             newDate (get projectData "endDate") with
       | Some s, Some e =>
           if ((0 <? e - s) && (0 <? now - s))%bool
           then Z.min ((200 * (now - s) + (e - s)) / (2 * (e - s))) 100
           else 0
       | _, _ => 0
       end
  else 0.

(** The update object that [updateProject] hands to [findOneAndUpdate]:
    the normalised body without [id] and [_id], stamped, and with the
    metadata when one of the metadata fields is set. *)
Definition projectUpdate (now : Z) (stored ud : Obj) : Obj :=
  let updateData := set "updatedAt" (JDate (Some now)) (delete "_id" (delete "id" ud)) in
  if existsb (fun field => negb match get updateData field with
                                | JUndefined => true
                                | _ => false
                                end)
       ["startDate"; "endDate"; "status"; "budget"]
  then set "metadata"
         (JObj (generateProjectMetadata now (updateData ∪ stored)
                ∪ spread (get stored "metadata"))) updateData
  else updateData.

(** The properties that [normalizeEmployeeData] rewrites. *)
Definition employeeNormalisedFields : list string :=
  ["id"; "companyId"; "userId"; "fullName"; "employeeCode"; "phone"; "jobTitle";
   "photoUrl"; "status"; "createdAt"].

(** The document that [createEmployee] hands to [new Employee(...)]. *)
Definition employeeDocument (now : Z) (normalizedData : Obj) : Obj :=
  obj [("id", get normalizedData "id");
       ("companyId", get normalizedData "companyId");
       ("userId", jsOr (get normalizedData "userId") JNull);
       ("employeeCode", get normalizedData "employeeCode");
       ("fullName", get normalizedData "fullName");
       ("phone", jsOr (get normalizedData "phone") JNull);
       ("jobTitle", jsOr (get normalizedData "jobTitle") JNull);
       ("photoUrl", jsOr (get normalizedData "photoUrl") JNull);
       ("status", jsOr (get normalizedData "status") (JStr "ACTIVE"));
       ("createdAt", jsOr (get normalizedData "createdAt") (JDate (Some now)))].

(** The tasks that match [query], in the order of the listings. *)
Definition matchingTasks (db : Db) (query : Obj → bool) : list Obj :=
  sortDocs taskBefore (List.filter query (tasks db)).

(** A non-empty string of characters that are neither white space nor
    [@]: what [[^\s@]+] matches. *)
Fixpoint allEmailChars (s : string) : bool :=
  match s with
  | EmptyString => true
  | String c s' => (emailChar c && allEmailChars s')%bool
  end.

Definition emailPart (s : string) : Prop := s ≠ "" ∧ allEmailChars s = true.

(** The steps of [normalizeUserData] after the string sanitisation. *)
Definition userDefaults (now : Z) (o : Obj) : Obj :=
  let normalized :=
    if negb (isUndefined (get o "isActive"))
    then set "isActive" (JBool (truthy (get o "isActive"))) o
    else o in
  let normalized :=
    if truthy (get normalized "createdAt")
    then set "createdAt"
           (match newDate (get normalized "createdAt") with
            | None => JDate (Some now)
            | Some t => JDate (Some t)
            end) normalized
    else set "createdAt" (JDate (Some now)) normalized in
  if isUndefined (get normalized "isActive")
  then set "isActive" (JBool true) normalized
  else normalized.

(** The update object that [updateUser] hands to [findOneAndUpdate]. *)
Definition userUpdate (now : Z) (stored ud : Obj) : Obj :=
  let updateData := set "updatedAt" (JDate (Some now)) ud in
  if existsb (fun field => negb (isUndefined (get updateData field))) ["isActive"]
  then
    let mergedData := updateData ∪ stored in
    let metadata := generateUserMetadata now mergedData ∪ spread (get stored "metadata") in
    let metadata :=
      if (truthy (get updateData "isActive") && negb (truthy (get stored "isActive")))%bool
      then set "lastActive" (JDate (Some now)) metadata
      else metadata in
    set "metadata" (JObj metadata) updateData
  else updateData.

(** * Properties *)

(** ** Objects and responses *)

Lemma get_set_eq (k : string) (v : JsValue) (o : Obj) : get (set k v o) k = v.
Proof. unfold get, set. by rewrite lookup_insert_eq. Qed.

Lemma get_set_ne (k k' : string) (v : JsValue) (o : Obj) :
  k ≠ k' → get (set k v o) k' = get o k'.
Proof. intros Hne. unfold get, set. by rewrite lookup_insert_ne. Qed.

Lemma respond_success code b rest :
  hasSuccessFlag (respond code (("success", JBool b) :: rest)) = true.
Proof. unfold hasSuccessFlag, respond, obj. cbn. by rewrite lookup_insert_eq. Qed.

Lemma failure_success now code msg : hasSuccessFlag (failure now code msg) = true.
Proof. apply respond_success. Qed.

Lemma refusal_success code msg : hasSuccessFlag (refusal code msg) = true.
Proof. apply respond_success. Qed.

Create HintDb envelope.
#[local] Hint Resolve respond_success failure_success refusal_success : envelope.

(** Unfolds one monadic bind of a [try] block in hypothesis [H]. *)
Ltac unbind H := unfold mbind, result_bind, rbind in H.

(** Splits the [try] block in [H] along its branches; the branches that end
    in a response are left as equations [Ok (r, db) = Ok (r0, db0)]. *)
Ltac branches H :=
  repeat match type of H with
         | match ?x with _ => _ end = _ => destruct x eqn:?; try discriminate H
         | (if ?c then _ else _) = _ => destruct c eqn:?; try discriminate H
         | (let '(_, _) := ?x in _) = _ => destruct x eqn:?
         end.

Lemma createEmployee_envelope db now body :
  hasSuccessFlag (fst (createEmployee db now body)) = true.
Proof.
  unfold createEmployee.
  destruct (createEmployeeTry db now body) as [[r db']|e] eqn:E; cbn.
  - unfold createEmployeeTry in E. unbind E. branches E;
      injection E as <- <-; auto with envelope.
  - destruct e; cbn; auto with envelope.
Qed.

Lemma updateEmployee_envelope db now id body :
  hasSuccessFlag (fst (updateEmployee db now id body)) = true.
Proof.
  unfold updateEmployee.
  destruct (updateEmployeeTry db now id body) as [[r db']|e] eqn:E; cbn.
  - unfold updateEmployeeTry in E. unbind E. branches E;
      injection E as <- <-; auto with envelope.
  - destruct e; cbn; auto with envelope.
Qed.

Lemma createProject_envelope db now body :
  hasSuccessFlag (fst (createProject db now body)) = true.
Proof.
  unfold createProject.
  destruct (createProjectTry db now body) as [[r db']|e] eqn:E; cbn.
  - unfold createProjectTry in E. unbind E. branches E;
      injection E as <- <-; auto with envelope.
  - destruct e; cbn; auto with envelope.
Qed.

Lemma updateProject_envelope db now id body :
  hasSuccessFlag (fst (updateProject db now id body)) = true.
Proof.
  unfold updateProject.
  destruct (updateProjectTry db now id body) as [[r db']|e] eqn:E; cbn.
  - unfold updateProjectTry in E. unbind E. branches E;
      injection E as <- <-; auto with envelope.
  - destruct e; cbn; auto with envelope.
Qed.

Lemma getAllTasks_envelope db q : hasSuccessFlag (getAllTasks db q) = true.
Proof.
  unfold getAllTasks.
  destruct (getAllTasksTry db q) as [r|e] eqn:E; auto with envelope.
  unfold getAllTasksTry in E. unbind E. branches E.
  injection E as <-. auto with envelope.
Qed.

Lemma getTaskById_envelope db id : hasSuccessFlag (getTaskById db id) = true.
Proof. unfold getTaskById. repeat case_match; auto with envelope. Qed.

Lemma createTask_envelope db now body :
  hasSuccessFlag (fst (createTask db now body)) = true.
Proof.
  unfold createTask.
  destruct (createTaskTry db now body) as [[r db']|e] eqn:E; cbn.
  - unfold createTaskTry in E. unbind E. branches E;
      injection E as <- <-; auto with envelope.
  - destruct e; cbn; auto with envelope.
Qed.

Lemma updateTask_envelope db now id body :
  hasSuccessFlag (fst (updateTask db now id body)) = true.
Proof.
  unfold updateTask.
  destruct (updateTaskTry db now id body) as [[r db']|e] eqn:E; cbn;
    auto with envelope.
  unfold updateTaskTry in E. unbind E. branches E;
    injection E as <- <-; auto with envelope.
Qed.

Lemma deleteTask_envelope db id : hasSuccessFlag (fst (deleteTask db id)) = true.
Proof. unfold deleteTask. repeat case_match; cbn; auto with envelope. Qed.

Lemma getEmployeeById_envelope db now id :
  hasSuccessFlag (getEmployeeById db now id) = true.
Proof.
  unfold getEmployeeById, invalidEmployeeId, employeeNotFound.
  repeat case_match; auto with envelope.
Qed.

Lemma deleteEmployee_envelope db now id :
  hasSuccessFlag (fst (deleteEmployee db now id)) = true.
Proof.
  unfold deleteEmployee, invalidEmployeeId, employeeNotFound.
  repeat case_match; cbn [fst]; auto with envelope.
Qed.

Lemma updateEmployeeStatus_envelope db now id body :
  hasSuccessFlag (fst (updateEmployeeStatus db now id body)) = true.
Proof.
  unfold updateEmployeeStatus.
  destruct (updateEmployeeStatusTry db now id body) as [[r db']|e] eqn:E; cbn [fst];
    auto with envelope.
  unfold updateEmployeeStatusTry, invalidEmployeeId, employeeNotFound in E.
  unbind E. branches E; injection E as <- <-; auto with envelope.
Qed.

Lemma getProjectById_envelope db id : hasSuccessFlag (getProjectById db id) = true.
Proof.
  unfold getProjectById, invalidProjectId, projectNotFound.
  repeat case_match; auto with envelope.
Qed.

Lemma deleteProject_envelope db id :
  hasSuccessFlag (fst (deleteProject db id)) = true.
Proof.
  unfold deleteProject, invalidProjectId, projectNotFound.
  repeat case_match; cbn [fst]; auto with envelope.
Qed.

Lemma getTasksByStatus_envelope db s q : hasSuccessFlag (getTasksByStatus db s q) = true.
Proof.
  unfold getTasksByStatus.
  destruct (getTasksByStatusTry db s q) as [r|e] eqn:E; auto with envelope.
  unfold getTasksByStatusTry in E. unbind E. branches E;
    injection E as <-; auto with envelope.
Qed.

Lemma getTasksByType_envelope db t q : hasSuccessFlag (getTasksByType db t q) = true.
Proof.
  unfold getTasksByType.
  destruct (getTasksByTypeTry db t q) as [r|e] eqn:E; auto with envelope.
  unfold getTasksByTypeTry in E. unbind E. branches E;
    injection E as <-; auto with envelope.
Qed.

Lemma getTasksByProject_envelope db id q :
  hasSuccessFlag (getTasksByProject db id q) = true.
Proof.
  unfold getTasksByProject.
  destruct (getTasksByProjectTry db id q) as [r|e] eqn:E; auto with envelope.
  unfold getTasksByProjectTry in E. unbind E. branches E;
    injection E as <-; auto with envelope.
Qed.

Lemma createUser_envelope db now body :
  hasSuccessFlag (fst (createUser db now body)) = true.
Proof.
  unfold createUser.
  destruct (createUserTry db now body) as [[r db']|e] eqn:E; cbn.
  - unfold createUserTry in E. unbind E. branches E;
      injection E as <- <-; auto with envelope.
  - destruct e; cbn; auto with envelope.
Qed.

Lemma getUserById_envelope db id : hasSuccessFlag (getUserById db id) = true.
Proof.
  unfold getUserById, invalidUserId, userNotFound.
  repeat case_match; auto with envelope.
Qed.

Lemma updateUser_envelope db now id body :
  hasSuccessFlag (fst (updateUser db now id body)) = true.
Proof.
  unfold updateUser.
  destruct (updateUserTry db now id body) as [[r db']|e] eqn:E; cbn.
  - unfold updateUserTry, invalidUserId, userNotFound in E. unbind E. branches E;
      injection E as <- <-; auto with envelope.
  - destruct e; cbn; auto with envelope.
Qed.

Lemma deleteUser_envelope db id : hasSuccessFlag (fst (deleteUser db id)) = true.
Proof.
  unfold deleteUser, invalidUserId, userNotFound.
  repeat case_match; cbn [fst]; auto with envelope.
Qed.

Lemma getWorkerEmployees_envelope db q : hasSuccessFlag (getWorkerEmployees db q) = true.
Proof.
  unfold getWorkerEmployees.
  destruct (getWorkerEmployeesTry db q) as [r|e] eqn:E; auto with envelope.
  unfold getWorkerEmployeesTry in E. unbind E. branches E;
    injection E as <-; auto with envelope.
Qed.

Lemma getEmployees_envelope db now : hasSuccessFlag (getEmployees db now) = true.
Proof.
  unfold getEmployees.
  destruct (getEmployeesTry db now) as [r|e] eqn:E; auto with envelope.
  unfold getEmployeesTry in E. unbind E. branches E;
    injection E as <-; auto with envelope.
Qed.

Lemma getEmployeesByCompany_envelope db now id :
  hasSuccessFlag (getEmployeesByCompany db now id) = true.
Proof.
  unfold getEmployeesByCompany.
  destruct (getEmployeesByCompanyTry db now id) as [r|e] eqn:E; auto with envelope.
  unfold getEmployeesByCompanyTry, invalidCompanyId in E. unbind E. branches E;
    injection E as <-; auto with envelope.
Qed.

Lemma getActiveEmployeesByCompany_envelope db now id :
  hasSuccessFlag (getActiveEmployeesByCompany db now id) = true.
Proof.
  unfold getActiveEmployeesByCompany.
  destruct (getActiveEmployeesByCompanyTry db now id) as [r|e] eqn:E; auto with envelope.
  unfold getActiveEmployeesByCompanyTry, invalidCompanyId in E. unbind E. branches E;
    injection E as <-; auto with envelope.
Qed.

Lemma getEmployeesByStatus_envelope db now s :
  hasSuccessFlag (getEmployeesByStatus db now s) = true.
Proof.
  unfold getEmployeesByStatus.
  destruct (getEmployeesByStatusTry db now s) as [r|e] eqn:E; auto with envelope.
  unfold getEmployeesByStatusTry in E. unbind E. branches E;
    injection E as <-; auto with envelope.
Qed.

Lemma getAllProjects_envelope db now q : hasSuccessFlag (getAllProjects db now q) = true.
Proof.
  unfold getAllProjects.
  destruct (getAllProjectsTry db now q) as [r|e] eqn:E; auto with envelope.
  unfold getAllProjectsTry in E. unbind E. branches E;
    injection E as <-; auto with envelope.
Qed.

Lemma getProjectsByCompany_envelope db id q :
  hasSuccessFlag (getProjectsByCompany db id q) = true.
Proof.
  unfold getProjectsByCompany.
  destruct (getProjectsByCompanyTry db id q) as [r|e] eqn:E; auto with envelope.
  unfold getProjectsByCompanyTry, invalidCompanyIdFormat in E. unbind E. branches E;
    injection E as <-; auto with envelope.
Qed.

Lemma getProjectStats_envelope db now id :
  hasSuccessFlag (getProjectStats db now id) = true.
Proof.
  unfold getProjectStats.
  destruct (getProjectStatsTry db now id) as [r|e] eqn:E; auto with envelope.
  unfold getProjectStatsTry, invalidCompanyIdFormat in E. unbind E. branches E;
    injection E as <-; auto with envelope.
Qed.

Lemma getUsers_envelope db now q : hasSuccessFlag (getUsers db now q) = true.
Proof.
  unfold getUsers.
  destruct (getUsersTry db now q) as [r|e] eqn:E; auto with envelope.
  unfold getUsersTry in E. unbind E. branches E;
    injection E as <-; auto with envelope.
Qed.

Lemma getUsersByStatus_envelope db s : hasSuccessFlag (getUsersByStatus db s) = true.
Proof.
  unfold getUsersByStatus.
  destruct (getUsersByStatusTry db s) as [r|e] eqn:E; auto with envelope.
  unfold getUsersByStatusTry in E. unbind E. branches E;
    injection E as <-; auto with envelope.
Qed.

Lemma getUserStats_envelope db : hasSuccessFlag (getUserStats db) = true.
Proof.
  unfold getUserStats.
  destruct (getUserStatsTry db) as [r|e] eqn:E; auto with envelope.
  unfold getUserStatsTry in E. unbind E. branches E;
    injection E as <-; auto with envelope.
Qed.

(** The answers of the materials controller. *)
Lemma errorBody_bare code msg : hasSuccessFlag (errorBody code msg) = false.
Proof. done. Qed.

Lemma updateFirst_In q update coll stored :
  findOne q coll = Some stored → In (update ∪ stored) (updateFirst q update coll).
Proof.
  unfold findOne. induction coll as [|d coll IH]; [done|]. cbn.
  destruct (q d); [intros [= ->]; by left|]. intros H. right. by apply IH.
Qed.

(** C8, as amended: every handler of the employee, project, task and user
    controllers answers, on success and on every error path, with a JSON
    object that carries a boolean [success] property. The root and health
    routes and the error and 404 middleware of [index.js] answer without
    that property, whatever the request. The handlers of the materials
    controller answer without an envelope: with an object that has no
    [success] property (an error, the confirmation of a deletion), with a
    list of materials, or with the stored material itself. *)
Theorem handlers_answer_in_envelope db now req :
  match origin req with
  | Controllers => hasSuccessFlag (fst (app db now req)) = true
  | Index => hasSuccessFlag (fst (app db now req)) = false
  | Materials =>
      hasSuccessFlag (fst (app db now req)) = false
      ∨ ∃ material, body (fst (app db now req)) = JObj material
                    ∧ In material (materials (snd (app db now req)))
  end.
Proof.
  destruct req; cbn [origin app fst snd]; try done.
  - apply createEmployee_envelope.
  - apply getEmployees_envelope.
  - apply getWorkerEmployees_envelope.
  - apply getEmployeeById_envelope.
  - apply getEmployeesByCompany_envelope.
  - apply getActiveEmployeesByCompany_envelope.
  - apply getEmployeesByStatus_envelope.
  - apply updateEmployee_envelope.
  - apply updateEmployeeStatus_envelope.
  - apply deleteEmployee_envelope.
  - apply getAllProjects_envelope.
  - apply getProjectStats_envelope.
  - apply getProjectsByCompany_envelope.
  - apply getProjectById_envelope.
  - apply createProject_envelope.
  - apply updateProject_envelope.
  - apply deleteProject_envelope.
  - apply getAllTasks_envelope.
  - apply getTaskById_envelope.
  - apply createTask_envelope.
  - apply updateTask_envelope.
  - apply deleteTask_envelope.
  - apply getTasksByProject_envelope.
  - apply getTasksByStatus_envelope.
  - apply getTasksByType_envelope.
  - apply getUsers_envelope.
  - apply getUserStats_envelope.
  - apply getUsersByStatus_envelope.
  - apply getUserById_envelope.
  - apply createUser_envelope.
  - apply updateUser_envelope.
  - apply deleteUser_envelope.
  - unfold createMaterial.
    match goal with
    | |- context [match ?b with JObj _ => _ | _ => _ end] =>
        destruct b as [| | | | | |docs|doc]
    end; try (by left).
    + destruct (createEach _ _) as [[coll created] [err|]]; by left.
    + destruct (onInsert _ _ _); [by left|]. right. exists doc.
      cbn [fst snd body materials withMaterials]. split; [done|].
      apply in_or_app. right. by left.
  - by left.
  - unfold getMaterial. destruct (castObjectId _); [by left|].
    destruct (findOne _ _) as [material|] eqn:Hfind; [|by left].
    right. exists material. split; [done|].
    unfold findOne in Hfind. by apply List.find_some in Hfind as [Hin _].
  - unfold updateMaterial.
    destruct (castObjectId _); [by left|]. destruct (onUpdate _ _ _); [by left|].
    destruct (findOne _ _) as [stored|] eqn:Hfind; [|by left].
    right. eexists. split; [done|]. cbn [snd materials withMaterials].
    by apply updateFirst_In.
  - unfold deleteMaterial. destruct (castObjectId _); [by left|].
    destruct (findOne _ _); by left.
Qed.

(** ** Steps of the normalisers *)

Lemma bind_Ok_inv {A B} (m : Result A) (k : A → Result B) (b : B) :
  (x ← m; k x) = Ok b → ∃ a, m = Ok a ∧ k a = Ok b.
Proof. destruct m as [a|e]; [eauto | discriminate]. Qed.

Lemma pushIf_nil c msg l : pushIf c msg l = [] → c = false ∧ l = [].
Proof.
  unfold pushIf. destruct c; [|done].
  intros H. by apply app_eq_nil in H as [_ ?].
Qed.

Lemma get_lookup (o o' : Obj) (k : string) : o' !! k = o !! k → get o' k = get o k.
Proof. unfold get. by intros ->. Qed.

Lemma truthy_get_lookup (o : Obj) (k : string) :
  truthy (get o k) = true → o !! k = Some (get o k).
Proof. unfold get. by destruct (o !! k). Qed.

Lemma coerce_lookup_ne k k' f (o : Obj) : k ≠ k' → coerce k f o !! k' = o !! k'.
Proof.
  intros Hne. unfold coerce, set. case_match; [|done]. by rewrite lookup_insert_ne.
Qed.

Lemma defaultTo_lookup_ne k k' d (o : Obj) : k ≠ k' → defaultTo k d o !! k' = o !! k'.
Proof.
  intros Hne. unfold defaultTo, set. case_match; [done|]. by rewrite lookup_insert_ne.
Qed.

Lemma whenTruthy_lookup_ne k k' f (o o' : Obj) :
  whenTruthy k f o = Ok o' → k ≠ k' → o' !! k' = o !! k'.
Proof.
  unfold whenTruthy, set. case_match.
  - intros (v & _ & [= <-])%bind_Ok_inv Hne. by rewrite lookup_insert_ne.
  - by intros [= <-].
Qed.

Lemma defaultTo_lookup_falsy k d (o : Obj) :
  truthy (get o k) = false → defaultTo k d o !! k = Some d.
Proof. intros H. unfold defaultTo, set. rewrite H. by rewrite lookup_insert_eq. Qed.

Lemma defaultTo_lookup_truthy k d (o : Obj) :
  truthy (get o k) = true → defaultTo k d o = o.
Proof. intros H. unfold defaultTo. by rewrite H. Qed.

(** ** Project creation against the schema of [Project.js] *)

Lemma ProjectModel_rejects_status coll doc s :
  get doc "status" = JStr s →
  existsb (String.eqb s) projectStatusEnum = false →
  ∃ msg errs, onInsert ProjectModel coll doc = Some (ValidationError msg errs).
Proof.
  intros Hs Hnot. cbn [onInsert ProjectModel].
  assert (projectDefaults doc = doc) as ->.
  { unfold projectDefaults. by rewrite Hs. }
  destruct (projectSchemaErrors doc) as [|e l] eqn:E; [|unfold validationFailed; eauto].
  exfalso. unfold projectSchemaErrors in E.
  do 5 (apply app_eq_nil in E as [_ E]).
  apply app_eq_nil in E as [E _].
  rewrite Hs in E. unfold enumError in E. cbn [isNullish toStringJs] in E.
  rewrite Hnot in E. discriminate E.
Qed.

Lemma validateProjectInput_status body :
  validateProjectInput body = Ok [] →
  truthy (get body "status") = false ∨ includes projectStatuses (get body "status") = true.
Proof.
  unfold validateProjectInput. intros H.
  repeat (apply bind_Ok_inv in H as (? & _ & H)).
  injection H as H. apply pushIf_nil in H as [H _].
  destruct (truthy (get body "status")); [right|by left].
  by destruct (includes projectStatuses (get body "status")).
Qed.

Lemma normalizeProjectData_status body nd :
  normalizeProjectData body = Ok nd →
  nd !! "status" =
    if truthy (get body "status") then body !! "status" else Some (JStr "PLANNING").
Proof.
  unfold normalizeProjectData. intros H.
  apply bind_Ok_inv in H as (o1 & H1 & H).
  apply bind_Ok_inv in H as (o2 & H2 & H).
  apply bind_Ok_inv in H as (o3 & H3 & H).
  apply bind_Ok_inv in H as (o4 & H4 & H).
  injection H as <-.
  rewrite defaultTo_lookup_ne by done.
  assert (∀ o : Obj, o !! "status" = body !! "status" →
            defaultTo "status" (JStr "PLANNING") o !! "status" =
            if truthy (get body "status") then body !! "status"
            else Some (JStr "PLANNING")) as Hd.
  { intros o Ho. rewrite <- (get_lookup _ _ _ Ho).
    destruct (truthy (get o "status")) eqn:Ht.
    - by rewrite defaultTo_lookup_truthy.
    - by rewrite defaultTo_lookup_falsy. }
  apply Hd.
  rewrite !coerce_lookup_ne by done.
  rewrite (whenTruthy_lookup_ne _ _ _ _ _ H4) by done.
  rewrite (whenTruthy_lookup_ne _ _ _ _ _ H3) by done.
  rewrite (whenTruthy_lookup_ne _ _ _ _ _ H2) by done.
  rewrite (whenTruthy_lookup_ne _ _ _ _ _ H1) by done.
  by rewrite !coerce_lookup_ne by done.
Qed.

Lemma projectDocument_status now next nd meta :
  is_Some (nd !! "status") →
  get (projectDocument now next nd meta) "status" = get nd "status".
Proof.
  intros [v Hv]. unfold projectDocument.
  rewrite !get_set_ne by done. unfold get.
  by rewrite (lookup_union_Some_l _ _ _ _ Hv), Hv.
Qed.

(** Whatever the request, [createProject] stores nothing and never answers
    201: a status that passes [validateProjectInput], or the default the
    normaliser fills in, is not a member of the schema's enumeration. *)
Lemma createProject_never_persists db now body :
  snd (createProject db now body) = db ∧ status (fst (createProject db now body)) ≠ 201.
Proof.
  unfold createProject.
  destruct (createProjectTry db now body) as [[r db']|e] eqn:E; cbn [fst snd].
  2: { split; [done|]. by destruct e. }
  unfold createProjectTry in E.
  apply bind_Ok_inv in E as (errs & Hval & E).
  destruct (Nat.ltb 0 (length errs)) eqn:Hlen.
  { by injection E as <- <-. }
  destruct errs; [|discriminate Hlen].
  apply bind_Ok_inv in E as (nd & Hnorm & E).
  apply bind_Ok_inv in E as (unique & _ & E).
  destruct (negb (validateCompanyExistence db (get nd "companyId"))).
  { by injection E as <- <-. }
  destruct (negb unique).
  { by injection E as <- <-. }
  exfalso.
  assert (∃ s, nd !! "status" = Some (JStr s)
               ∧ existsb (String.eqb s) projectStatusEnum = false) as (s & Hs & Hnot).
  { rewrite (normalizeProjectData_status _ _ Hnorm).
    destruct (validateProjectInput_status _ Hval) as [Hf|Hin].
    - rewrite Hf. by eexists.
    - destruct (get body "status") as [| | | |s| | |] eqn:Hget; try discriminate Hin.
      cbn in Hin.
      repeat (apply orb_prop in Hin as [Hin|Hin];
              [apply String.eqb_eq in Hin as ->; cbn;
               unfold get in Hget; destruct (body !! "status"); [|done];
               cbn in Hget; subst; by eexists|]).
      discriminate Hin. }
  match type of E with
  | match onInsert ProjectModel ?coll ?doc with _ => _ end = _ =>
      destruct (ProjectModel_rejects_status coll doc s) as (m & errs & Hrej)
  end.
  - rewrite projectDocument_status by (rewrite Hs; eauto).
    unfold get. by rewrite Hs.
  - done.
  - rewrite Hrej in E. discriminate E.
Qed.

(** C3, on the code: a project payload that passes input validation,
    references an existing company and omits [status] is given the status
    'PLANNING' by the normaliser; the schema of [Project.js] does not list
    that value, so [save] raises a validation error: nothing is persisted
    and the answer is 500 (409 when the project code is already taken),
    never 201. *)
Theorem project_with_default_status_is_not_created db now body nd :
  validateProjectInput body = Ok [] →
  normalizeProjectData body = Ok nd →
  validateCompanyExistence db (get nd "companyId") = true →
  truthy (get body "status") = false →
  get nd "status" = JStr "PLANNING"
  ∧ snd (createProject db now body) = db
  ∧ (status (fst (createProject db now body)) = 500
     ∨ status (fst (createProject db now body)) = 409).
Proof.
  intros Hval Hnorm Hcompany Hstatus.
  assert (nd !! "status" = Some (JStr "PLANNING")) as Hs.
  { rewrite (normalizeProjectData_status _ _ Hnorm). by rewrite Hstatus. }
  split; [unfold get; by rewrite Hs|].
  split; [apply createProject_never_persists|].
  unfold createProject, createProjectTry.
  rewrite Hval. unfold mbind, result_bind, rbind. cbn [length Nat.ltb Nat.leb].
  rewrite Hnorm, Hcompany. cbn [negb].
  destruct (if truthy (get nd "code")
            then checkProjectCodeUniqueness db (get nd "code") JNull
            else Ok true) as [[|]|e].
  - cbn [negb].
    match goal with
    | |- context [onInsert ProjectModel ?coll ?doc] =>
        destruct (ProjectModel_rejects_status coll doc "PLANNING") as (m & errs & ->)
    end.
    + rewrite projectDocument_status by (rewrite Hs; eauto).
      unfold get. by rewrite Hs.
    + done.
    + by left.
  - by right.
  - destruct e; cbn; auto.
Qed.

(** ** String operations *)

Lemma trimStart_starts s : startsNonWhite (trimStart s) = true.
Proof. induction s as [|c s IH]; [done|]. cbn. destruct (isWhite c) eqn:E; [done|]. cbn. by rewrite E. Qed.

Lemma trimStart_id s : startsNonWhite s = true → trimStart s = s.
Proof. destruct s as [|c s]; [done|]. cbn. by destruct (isWhite c). Qed.

Lemma trimEnd_nil_iff s : trimEnd s = EmptyString ↔ hasNonWhite s = false.
Proof.
  induction s as [|c s IH]; [done|]. cbn.
  destruct (trimEnd s) eqn:E, (isWhite c); cbn; split; intros H; try done.
  - by apply IH.
  - destruct IH as [_ IH]. by specialize (IH H).
Qed.

Lemma trimEnd_starts s : startsNonWhite s = true → startsNonWhite (trimEnd s) = true.
Proof.
  destruct s as [|c s]; [done|]. cbn. intros H%negb_true_iff.
  destruct (trimEnd s); rewrite ?H; cbn; rewrite ?H; done.
Qed.

Lemma trimEnd_idem s : trimEnd (trimEnd s) = trimEnd s.
Proof.
  induction s as [|c s IH]; [done|]. cbn.
  destruct (trimEnd s) as [|a t] eqn:E.
  - destruct (isWhite c) eqn:Hc; [done|]. cbn. by rewrite Hc.
  - cbn [trimEnd]. cbn [trimEnd] in IH. by rewrite IH.
Qed.

Lemma trim_idem s : trim (trim s) = trim s.
Proof.
  unfold trim.
  rewrite (trimStart_id (trimEnd (trimStart s))).
  - apply trimEnd_idem.
  - apply trimEnd_starts, trimStart_starts.
Qed.

Lemma trim_starts s : startsNonWhite (trim s) = true.
Proof. apply trimEnd_starts, trimStart_starts. Qed.

Lemma trimEnd_trim s : trimEnd (trim s) = trim s.
Proof. apply trimEnd_idem. Qed.

Lemma trimEnd_hasNonWhite s : hasNonWhite (trimEnd s) = hasNonWhite s.
Proof.
  induction s as [|c s IH]; [done|]. cbn.
  destruct (trimEnd s) as [|a t] eqn:E.
  - apply trimEnd_nil_iff in E. rewrite E.
    destruct (isWhite c) eqn:Hc; cbn; by rewrite ?Hc.
  - cbn [hasNonWhite]. cbn [hasNonWhite] in IH. by rewrite IH.
Qed.

Lemma collapseFrom_nonempty b s : hasNonWhite s = true → collapseFrom b s ≠ EmptyString.
Proof.
  revert b. induction s as [|c s IH]; [done|]. intros b. cbn.
  destruct (isWhite c); cbn; [|done].
  intros H. destruct b; [by apply IH | done].
Qed.

Lemma trimEnd_collapseFrom b s : trimEnd (collapseFrom b s) = collapseFrom b (trimEnd s).
Proof.
  revert b. induction s as [|c s IH]; [done|]. intros b.
  cbn [trimEnd collapseFrom].
  destruct (trimEnd s) as [|a t] eqn:E.
  - destruct (isWhite c) eqn:Hc.
    + destruct b; cbn [trimEnd]; rewrite IH; cbn; done.
    + cbn [trimEnd]. rewrite IH. cbn. by rewrite ?Hc.
  - assert (collapseFrom true (String a t) ≠ EmptyString
            ∧ collapseFrom false (String a t) ≠ EmptyString) as [Ht Hf].
    { split; apply collapseFrom_nonempty; rewrite <- E, trimEnd_hasNonWhite;
        apply not_false_iff_true; intros Hn; apply trimEnd_nil_iff in Hn;
        by rewrite Hn in E. }
    remember (String a t) as u eqn:Hu. clear Hu.
    destruct (isWhite c) eqn:Hc.
    + cbn [collapseFrom]. rewrite Hc. destruct b.
      * apply IH.
      * cbn [trimEnd]. rewrite IH.
        destruct (collapseFrom true u); [done|]. done.
    + cbn [collapseFrom trimEnd]. rewrite Hc, IH.
      destruct (collapseFrom false u); [done|]. done.
Qed.

Lemma collapseFrom_starts s :
  startsNonWhite s = true → startsNonWhite (collapseFrom false s) = true.
Proof. destruct s as [|c s]; [done|]. cbn. destruct (isWhite c) eqn:E; [done|]. cbn. by rewrite E. Qed.

Lemma collapseFrom_idem b b' s :
  (b' = true → b = true) → collapseFrom b' (collapseFrom b s) = collapseFrom b s.
Proof.
  revert b b'. induction s as [|c s IH]; [done|]. intros b b' Hb. cbn.
  destruct (isWhite c) eqn:Hc.
  - destruct b.
    + by apply IH.
    + destruct b'; [by specialize (Hb eq_refl)|].
      cbn. f_equal. by apply IH.
  - cbn. rewrite Hc. f_equal. by apply IH.
Qed.

(** [s.trim().replace(/\s+/g, ' ')] is stable under itself. *)
Lemma collapse_trim_idem s :
  collapseSpaces (trim (collapseSpaces (trim s))) = collapseSpaces (trim s).
Proof.
  unfold collapseSpaces.
  assert (trim (collapseFrom false (trim s)) = collapseFrom false (trim s)) as ->.
  { unfold trim at 1.
    rewrite trimStart_id by apply collapseFrom_starts, trim_starts.
    by rewrite trimEnd_collapseFrom, trimEnd_trim. }
  by apply collapseFrom_idem.
Qed.

Lemma isWhite_upperChar c : isWhite (upperChar c) = isWhite c.
Proof. by destruct c as [[] [] [] [] [] [] [] []]. Qed.

Lemma upperChar_idem c : upperChar (upperChar c) = upperChar c.
Proof. by destruct c as [[] [] [] [] [] [] [] []]. Qed.

Lemma isDigit_not_white c : isDigit c = true → isWhite c = false.
Proof. by destruct c as [[] [] [] [] [] [] [] []]. Qed.

Lemma toUpperCase_idem s : toUpperCase (toUpperCase s) = toUpperCase s.
Proof. induction s as [|c s IH]; [done|]. cbn. by rewrite upperChar_idem, IH. Qed.

Lemma trimStart_toUpperCase s : trimStart (toUpperCase s) = toUpperCase (trimStart s).
Proof.
  induction s as [|c s IH]; [done|]. cbn. rewrite isWhite_upperChar.
  by destruct (isWhite c).
Qed.

Lemma trimEnd_toUpperCase s : trimEnd (toUpperCase s) = toUpperCase (trimEnd s).
Proof.
  induction s as [|c s IH]; [done|]. cbn. rewrite IH, isWhite_upperChar.
  destruct (trimEnd s); cbn; [by destruct (isWhite c)|done].
Qed.

Lemma trim_toUpperCase s : trim (toUpperCase s) = toUpperCase (trim s).
Proof. unfold trim. by rewrite trimStart_toUpperCase, trimEnd_toUpperCase. Qed.

(** [s.trim().toUpperCase()] is stable under itself. *)
Lemma upper_trim_idem s :
  toUpperCase (trim (toUpperCase (trim s))) = toUpperCase (trim s).
Proof. by rewrite trim_toUpperCase, trim_idem, toUpperCase_idem. Qed.

Lemma trimEnd_noWhite s : noWhite s = true → trimEnd s = s.
Proof.
  induction s as [|c s IH]; [done|]. cbn.
  intros [Hc Hs]%andb_prop. rewrite (IH Hs).
  destruct s; [|done]. by destruct (isWhite c).
Qed.

Lemma trim_noWhite s : noWhite s = true → trim s = s.
Proof.
  intros H. unfold trim. rewrite trimStart_id.
  - by apply trimEnd_noWhite.
  - destruct s; [done|]. cbn in *. by apply andb_prop in H as [? _].
Qed.

Lemma stripNonDigits_noWhite s : noWhite (stripNonDigits s) = true.
Proof.
  induction s as [|c s IH]; [done|]. cbn.
  destruct (isDigit c) eqn:E; [|done]. cbn. by rewrite (isDigit_not_white _ E).
Qed.

Lemma stripNonDigits_idem s : stripNonDigits (stripNonDigits s) = stripNonDigits s.
Proof.
  induction s as [|c s IH]; [done|]. cbn.
  destruct (isDigit c) eqn:E; [|done]. cbn. by rewrite E, IH.
Qed.

(** [s.trim().replace(/\D/g, '')] is stable under itself. *)
Lemma strip_trim_idem s :
  stripNonDigits (trim (stripNonDigits (trim s))) = stripNonDigits (trim s).
Proof.
  rewrite (trim_noWhite (stripNonDigits (trim s))) by apply stripNonDigits_noWhite.
  apply stripNonDigits_idem.
Qed.

(** ** Printing and parsing integers *)

Lemma digitChar_digit d :
  0 ≤ d ≤ 9 → isDigit (digitChar d) = true ∧ digitVal (digitChar d) = d.
Proof.
  intros Hd.
  assert (d = 0 ∨ d = 1 ∨ d = 2 ∨ d = 3 ∨ d = 4 ∨ d = 5 ∨ d = 6 ∨ d = 7 ∨ d = 8 ∨ d = 9)
    as Hcases by lia.
  repeat (destruct Hcases as [->|Hcases]; [done|]). by subst.
Qed.

Lemma readDigits_digitsFrom f z acc :
  0 ≤ z < 2 ^ Z.of_nat f → readDigits (digitsFrom f z acc) 0 = readDigits acc z.
Proof.
  revert z acc. induction f as [|f IH]; intros z acc Hz.
  - cbn in *. by replace z with 0 by lia.
  - rewrite Nat2Z.inj_succ, Z.pow_succ_r in Hz by lia.
    cbn [digitsFrom].
    destruct (digitChar_digit (z mod 10)) as [Hd Hv].
    { pose proof (Z.mod_pos_bound z 10). lia. }
    destruct (z <? 10) eqn:Hlt.
    + apply Z.ltb_lt in Hlt. cbn [readDigits]. rewrite Hd, Hv.
      f_equal. rewrite Z.mod_small; lia.
    + apply Z.ltb_ge in Hlt. rewrite IH.
      * cbn [readDigits]. rewrite Hd, Hv. f_equal.
        pose proof (Z.div_mod z 10). lia.
      * split; [apply Z.div_pos; lia|].
        apply Z.div_lt_upper_bound; lia.
Qed.

Lemma startsWithDigit_digitsFrom f z acc :
  0 ≤ z → startsWithDigit acc = true ∨ f ≠ O →
  startsWithDigit (digitsFrom f z acc) = true.
Proof.
  revert z acc. induction f as [|f IH]; intros z acc Hz Hacc.
  - by destruct Hacc.
  - cbn [digitsFrom].
    destruct (digitChar_digit (z mod 10)) as [Hd _].
    { pose proof (Z.mod_pos_bound z 10). lia. }
    destruct (z <? 10); [done|].
    apply IH; [apply Z.div_pos; lia|by left].
Qed.

Lemma decimalDigits_read z : 0 ≤ z → readDigits (decimalDigits z) 0 = z.
Proof.
  intros Hz. unfold decimalDigits. rewrite readDigits_digitsFrom; [done|].
  split; [done|]. rewrite Nat2Z.inj_succ, Z2Nat.id by apply Z.log2_nonneg.
  destruct (Z.eq_dec z 0) as [->|]; [done|].
  apply Z.log2_spec. lia.
Qed.

Lemma decimalDigits_starts z : 0 ≤ z → startsWithDigit (decimalDigits z) = true.
Proof. intros Hz. apply startsWithDigit_digitsFrom; [done|by right]. Qed.

Lemma parseIntStr_digits s :
  startsWithDigit s = true → parseIntStr s = Fin (readDigits s 0).
Proof.
  destruct s as [|c r]; [done|]. intros Hc.
  unfold parseIntStr. cbn [trimStart]. cbn [startsWithDigit] in Hc.
  rewrite (isDigit_not_white _ Hc).
  destruct c as [[] [] [] [] [] [] [] []]; try discriminate Hc;
    cbn [startsWithDigit]; by rewrite ?Hc.
Qed.

Lemma parseIntStr_minus s :
  startsWithDigit s = true → parseIntStr (String "-" s) = Fin (- readDigits s 0).
Proof.
  intros Hs. unfold parseIntStr. cbn [trimStart].
  change (isWhite "-") with false. cbv iota beta. by rewrite Hs.
Qed.

(** A whole number below 10^21 prints to its decimal digits, which
    [parseInt] reads back. *)
Lemma parseInt_number z :
  Z.abs z < 10 ^ 21 → parseInt (JNum (Fin z)) = Fin z.
Proof.
  intros Hz. unfold parseInt. cbn [toStringJs numberToString].
  unfold magnitudeToString.
  destruct (z <? 0) eqn:Hneg.
  - apply Z.ltb_lt in Hneg.
    assert ((- z <? 10 ^ 21) = true) as -> by (apply Z.ltb_lt; lia).
    change ("-" +:+ decimalDigits (- z)) with (String "-" (decimalDigits (- z))).
    rewrite parseIntStr_minus by (apply decimalDigits_starts; lia).
    rewrite decimalDigits_read by lia. f_equal. lia.
  - apply Z.ltb_ge in Hneg.
    assert ((z <? 10 ^ 21) = true) as -> by (apply Z.ltb_lt; lia).
    rewrite parseIntStr_digits by (by apply decimalDigits_starts).
    by rewrite decimalDigits_read.
Qed.

(** ** A normalised payload is settled *)

Lemma whenTruthy_inv k f (o o' : Obj) :
  whenTruthy k f o = Ok o' →
  (truthy (get o k) = false ∧ o' = o)
  ∨ (truthy (get o k) = true ∧ ∃ v, f (get o k) = Ok v ∧ o' = set k v o).
Proof.
  unfold whenTruthy. destruct (truthy (get o k)).
  - intros (v & Hv & [= <-])%bind_Ok_inv. right. eauto.
  - intros [= <-]. by left.
Qed.

(** A step [if (o.k) o.k = f(o.k)] that was taken on the way to [nd], and
    whose result later steps left alone, changes nothing when it is taken
    on [nd], provided [f] keeps its truthy results. *)
Lemma whenTruthy_settles k f (o o' nd : Obj) :
  whenTruthy k f o = Ok o' →
  nd !! k = o' !! k →
  (∀ v v', f v = Ok v' → get nd k = v' → truthy v' = true → f v' = Ok v') →
  whenTruthy k f nd = Ok nd.
Proof.
  intros Hstep Hframe Hstable. unfold whenTruthy.
  destruct (truthy (get nd k)) eqn:Ht; [|done].
  destruct (whenTruthy_inv _ _ _ _ Hstep) as [[Hf ->]|[_ (v & Hv & ->)]].
  - rewrite (get_lookup _ _ _ Hframe) in Ht. congruence.
  - assert (get nd k = v) as Hget.
    { unfold get, set in *. by rewrite Hframe, lookup_insert_eq. }
    pose proof (truthy_get_lookup _ _ Ht) as Hlook.
    rewrite Hget in Ht, Hlook |- *.
    rewrite (Hstable _ _ Hv Hget Ht).
    unfold mbind, result_bind, rbind. f_equal. unfold set.
    by apply insert_id.
Qed.

Lemma coerce_settles k f f' (o nd : Obj) :
  nd !! k = coerce k f o !! k →
  (∀ v, get nd k = f v → truthy (f v) = true → f' (f v) = f v) →
  coerce k f' nd = nd.
Proof.
  intros Hframe Hstable. unfold coerce.
  destruct (truthy (get nd k)) eqn:Ht; [|done].
  unfold coerce in Hframe. destruct (truthy (get o k)) eqn:Ho.
  - assert (get nd k = f (get o k)) as Hget.
    { unfold get, set in *. by rewrite Hframe, lookup_insert_eq. }
    pose proof (truthy_get_lookup _ _ Ht) as Hlook.
    rewrite Hget in Ht, Hlook |- *.
    rewrite (Hstable _ Hget Ht).
    unfold set. by apply insert_id.
  - rewrite (get_lookup _ _ _ Hframe) in Ht. congruence.
Qed.

Lemma defaultTo_settles k d (o nd : Obj) :
  nd !! k = defaultTo k d o !! k → defaultTo k d nd = nd.
Proof.
  intros Hframe. unfold defaultTo.
  destruct (truthy (get nd k)) eqn:Ht; [done|].
  unfold defaultTo in Hframe. destruct (truthy (get o k)) eqn:Ho.
  - rewrite (get_lookup _ _ _ Hframe) in Ht. congruence.
  - unfold set in *. rewrite lookup_insert_eq in Hframe. by apply insert_id.
Qed.

(** Rewrites a lookup in the result of later steps into the lookup in the
    object the steps started from, as long as the steps write other keys. *)
Ltac frame :=
  repeat match goal with
         | |- coerce ?k ?f ?o !! ?k' = _ =>
             etrans; [exact (coerce_lookup_ne k k' f o ltac:(discriminate))|]
         | |- defaultTo ?k ?d ?o !! ?k' = _ =>
             etrans; [exact (defaultTo_lookup_ne k k' d o ltac:(discriminate))|]
         | H : whenTruthy ?k ?f ?o = Ok ?o' |- ?o' !! ?k' = _ =>
             etrans; [exact (whenTruthy_lookup_ne k k' f o o' H ltac:(discriminate))|]
         end.

Lemma parseInt_settled (nd : Obj) k :
  wholeBelow (get nd k) →
  ∀ v, get nd k = JNum (parseInt v) → truthy (JNum (parseInt v)) = true →
       JNum (parseInt (JNum (parseInt v))) = JNum (parseInt v).
Proof.
  intros Hsmall v Hget _. rewrite Hget in Hsmall.
  destruct (parseInt v) as [|z] eqn:E; [done|].
  cbn in Hsmall. by rewrite parseInt_number.
Qed.

Lemma trimmed_settled (g : string → string) (nd : Obj) k :
  (∀ s, g (trim (g (trim s))) = g (trim s)) →
  ∀ v v', (t ← jsTrim v; Ok (JStr (g t))) = Ok v' → get nd k = v' →
          truthy v' = true → (t ← jsTrim v'; Ok (JStr (g t))) = Ok v'.
Proof.
  intros Hg v v' (t & Ht & [= <-])%bind_Ok_inv _ _.
  destruct v; try discriminate Ht. injection Ht as <-.
  cbn. by rewrite Hg.
Qed.

Lemma upper_settled (nd : Obj) k :
  ∀ v v', (t ← jsToUpperCase v; Ok (JStr t)) = Ok v' → get nd k = v' →
          truthy v' = true → (t ← jsToUpperCase v'; Ok (JStr t)) = Ok v'.
Proof.
  intros v v' (t & Ht & [= <-])%bind_Ok_inv _ _.
  destruct v; try discriminate Ht. injection Ht as <-.
  cbn. by rewrite toUpperCase_idem.
Qed.

Lemma timeClip_idem t : timeClip (timeClip t) = timeClip t.
Proof.
  destruct t as [z|]; [|done]. cbn.
  destruct (Z.abs z <=? 8640000000000000) eqn:E; [|done]. cbn. by rewrite E.
Qed.

Lemma newDate_clipped v t : newDate v = Some t → timeClip (Some t) = Some t.
Proof.
  intros H. rewrite <- H.
  destruct v; cbn [newDate]; try apply timeClip_idem.
Qed.

Definition validTime (now : Z) : Prop := Z.abs now ≤ 8640000000000000.

Lemma defaultTo_settles_truthy k d d' (o nd : Obj) :
  nd !! k = defaultTo k d o !! k → truthy d = true → defaultTo k d' nd = nd.
Proof.
  intros Hframe Hd. apply defaultTo_lookup_truthy.
  rewrite (get_lookup _ _ _ Hframe). unfold defaultTo.
  destruct (truthy (get o k)) eqn:Ho; [done|]. by rewrite get_set_eq.
Qed.

(** The same for a coercion that is followed by a falsy default on its
    key. *)
Lemma coerce_settles_default k f f' d (o x nd : Obj) :
  nd !! k = defaultTo k d x !! k →
  x !! k = coerce k f o !! k →
  truthy d = false →
  (∀ v, get nd k = f v → truthy (f v) = true → f' (f v) = f v) →
  coerce k f' nd = nd.
Proof.
  intros Hnd Hx Hd Hstable. unfold defaultTo in Hnd.
  destruct (truthy (get x k)) eqn:Ht.
  - eapply coerce_settles; [|done]. by rewrite Hnd, Hx.
  - unfold coerce. rewrite (get_lookup _ _ _ Hnd), get_set_eq. by rewrite Hd.
Qed.

Lemma dateOrNull_settled (nd : Obj) k :
  ∀ v, get nd k = dateOrNull v → truthy (dateOrNull v) = true →
       dateOrNull (dateOrNull v) = dateOrNull v.
Proof.
  intros v _ Ht. unfold dateOrNull in Ht |- * at 2 3.
  destruct (newDate v) as [t|] eqn:E; [|discriminate Ht].
  unfold dateOrNull. cbn [newDate]. by rewrite (newDate_clipped _ _ E).
Qed.

Lemma parseDate_settled (nd : Obj) k :
  ∀ v, get nd k = parseDate v → truthy (parseDate v) = true →
       parseDate (parseDate v) = parseDate v.
Proof.
  intros v _ Ht.
  assert (∀ w, truthy (dateOrNull w) = true → parseDate (dateOrNull w) = dateOrNull w)
    as Haux.
  { intros w. unfold dateOrNull. by destruct (newDate w). }
  destruct v; cbn [parseDate] in *; try by apply Haux. done.
Qed.

(** The steps are kept folded while the equations of the second pass are
    rewritten. *)
#[local] Opaque coerce defaultTo whenTruthy.

Lemma normalizeEmployeeData_settled now now' body nd :
  validTime now →
  normalizeEmployeeData now body = Ok nd →
  wholeBelow (get nd "id") → wholeBelow (get nd "companyId") →
  wholeBelow (get nd "userId") →
  normalizeEmployeeData now' nd = Ok nd.
Proof.
  intros Hnow H Hid Hcompany Huser. unfold normalizeEmployeeData in H.
  apply bind_Ok_inv in H as (o1 & H1 & H).
  apply bind_Ok_inv in H as (o2 & H2 & H).
  apply bind_Ok_inv in H as (o3 & H3 & H).
  apply bind_Ok_inv in H as (o4 & H4 & H).
  apply bind_Ok_inv in H as (o5 & H5 & H).
  apply bind_Ok_inv in H as (o6 & H6 & H).
  injection H as H.
  unfold normalizeEmployeeData.
  rewrite (coerce_settles "id" (fun v => JNum (parseInt v))
             (fun v => JNum (parseInt v)) body nd);
    [|subst nd; frame; reflexivity|by apply parseInt_settled].
  rewrite (coerce_settles "companyId" (fun v => JNum (parseInt v))
             (fun v => JNum (parseInt v))
             (coerce "id" (fun v => JNum (parseInt v)) body) nd);
    [|subst nd; frame; reflexivity|by apply parseInt_settled].
  rewrite (coerce_settles "userId" (fun v => JNum (parseInt v))
             (fun v => JNum (parseInt v))
             (coerce "companyId" (fun v => JNum (parseInt v))
                (coerce "id" (fun v => JNum (parseInt v)) body)) nd);
    [|subst nd; frame; reflexivity|by apply parseInt_settled].
  rewrite (whenTruthy_settles _ _ _ _ nd H1);
    [|subst nd; frame; reflexivity|apply (trimmed_settled collapseSpaces), collapse_trim_idem].
  cbn [mbind result_bind rbind].
  rewrite (whenTruthy_settles _ _ _ _ nd H2);
    [|subst nd; frame; reflexivity|apply (trimmed_settled id), trim_idem].
  cbn [mbind result_bind rbind].
  rewrite (whenTruthy_settles _ _ _ _ nd H3);
    [|subst nd; frame; reflexivity|apply (trimmed_settled stripNonDigits), strip_trim_idem].
  cbn [mbind result_bind rbind].
  rewrite (whenTruthy_settles _ _ _ _ nd H4);
    [|subst nd; frame; reflexivity|apply (trimmed_settled id), trim_idem].
  cbn [mbind result_bind rbind].
  rewrite (whenTruthy_settles _ _ _ _ nd H5);
    [|subst nd; frame; reflexivity|apply (trimmed_settled id), trim_idem].
  cbn [mbind result_bind rbind].
  rewrite (whenTruthy_settles _ _ _ _ nd H6);
    [|subst nd; frame; reflexivity|apply upper_settled].
  cbn [mbind result_bind rbind].
  f_equal. eapply coerce_settles; [by rewrite <- H|].
  intros v _ _. cbn beta.
  destruct (newDate v) as [t|] eqn:E; cbn [newDate].
  - by rewrite (newDate_clipped _ _ E).
  - unfold validTime in Hnow. cbn [timeClip].
    by destruct (Z.abs now <=? 8640000000000000) eqn:Hle; [|apply Z.leb_gt in Hle; lia].
Qed.

Lemma normalizeProjectData_settled body nd :
  normalizeProjectData body = Ok nd →
  wholeBelow (get nd "companyId") →
  normalizeProjectData nd = Ok nd.
Proof.
  intros H Hcompany. unfold normalizeProjectData in H.
  apply bind_Ok_inv in H as (o1 & H1 & H).
  apply bind_Ok_inv in H as (o2 & H2 & H).
  apply bind_Ok_inv in H as (o3 & H3 & H).
  apply bind_Ok_inv in H as (o4 & H4 & H).
  injection H as H.
  unfold normalizeProjectData.
  rewrite (coerce_settles "companyId" (fun v => JNum (parseInt v))
             (fun v => JNum (parseInt v)) body nd);
    [|subst nd; frame; reflexivity|by apply parseInt_settled].
  rewrite (coerce_settles_default "budget" (fun v => JNum (parseFloat v))
             (fun v => JNum (parseFloat v))
             (JNum (Fin 0)) (coerce "companyId" (fun v => JNum (parseInt v)) body)
             (defaultTo "status" (JStr "PLANNING")
                (coerce "endDate" dateOrNull (coerce "startDate" dateOrNull o4))) nd);
    [|by rewrite <- H|frame; reflexivity|done|done].
  rewrite (whenTruthy_settles _ _ _ _ nd H1);
    [|subst nd; frame; reflexivity|apply (trimmed_settled collapseSpaces), collapse_trim_idem].
  cbn [mbind result_bind rbind].
  rewrite (whenTruthy_settles _ _ _ _ nd H2);
    [|subst nd; frame; reflexivity|apply (trimmed_settled toUpperCase), upper_trim_idem].
  cbn [mbind result_bind rbind].
  rewrite (whenTruthy_settles _ _ _ _ nd H3);
    [|subst nd; frame; reflexivity|apply (trimmed_settled id), trim_idem].
  cbn [mbind result_bind rbind].
  rewrite (whenTruthy_settles _ _ _ _ nd H4);
    [|subst nd; frame; reflexivity|apply (trimmed_settled id), trim_idem].
  cbn [mbind result_bind rbind].
  rewrite (coerce_settles "startDate" dateOrNull dateOrNull o4 nd);
    [|subst nd; frame; reflexivity|apply dateOrNull_settled].
  rewrite (coerce_settles "endDate" dateOrNull dateOrNull
             (coerce "startDate" dateOrNull o4) nd);
    [|subst nd; frame; reflexivity|apply dateOrNull_settled].
  rewrite (defaultTo_settles "status" (JStr "PLANNING")
             (coerce "endDate" dateOrNull (coerce "startDate" dateOrNull o4)) nd);
    [|subst nd; frame; reflexivity].
  f_equal. eapply defaultTo_settles. by rewrite <- H.
Qed.

Lemma normalizeTaskData_settled now now' body nd :
  normalizeTaskData now body = Ok nd →
  wholeBelow (get nd "companyId") → wholeBelow (get nd "projectId") →
  wholeBelow (get nd "createdBy") →
  normalizeTaskData now' nd = Ok nd.
Proof.
  intros H Hcompany Hproject Hcreator. unfold normalizeTaskData in H.
  apply bind_Ok_inv in H as (o1 & H1 & H).
  apply bind_Ok_inv in H as (o2 & H2 & H).
  apply bind_Ok_inv in H as (o3 & H3 & H).
  injection H as H.
  unfold normalizeTaskData.
  rewrite (coerce_settles "companyId" (fun v => JNum (parseInt v))
             (fun v => JNum (parseInt v)) body nd);
    [|subst nd; frame; reflexivity|by apply parseInt_settled].
  rewrite (coerce_settles "projectId" (fun v => JNum (parseInt v))
             (fun v => JNum (parseInt v))
             (coerce "companyId" (fun v => JNum (parseInt v)) body) nd);
    [|subst nd; frame; reflexivity|by apply parseInt_settled].
  rewrite (coerce_settles "createdBy" (fun v => JNum (parseInt v))
             (fun v => JNum (parseInt v))
             (coerce "projectId" (fun v => JNum (parseInt v))
                (coerce "companyId" (fun v => JNum (parseInt v)) body)) nd);
    [|subst nd; frame; reflexivity|by apply parseInt_settled].
  rewrite (whenTruthy_settles _ _ _ _ nd H1);
    [|subst nd; frame; reflexivity|apply (trimmed_settled id), trim_idem].
  cbn [mbind result_bind rbind].
  rewrite (whenTruthy_settles _ _ _ _ nd H2);
    [|subst nd; frame; reflexivity|apply (trimmed_settled id), trim_idem].
  cbn [mbind result_bind rbind].
  rewrite (whenTruthy_settles _ _ _ _ nd H3);
    [|subst nd; frame; reflexivity|apply (trimmed_settled id), trim_idem].
  cbn [mbind result_bind rbind].
  rewrite (coerce_settles "startDate" parseDate parseDate o3 nd);
    [|subst nd; frame; reflexivity|apply parseDate_settled].
  rewrite (coerce_settles "endDate" parseDate parseDate
             (coerce "startDate" parseDate o3) nd);
    [|subst nd; frame; reflexivity|apply parseDate_settled].
  rewrite (defaultTo_settles_truthy "status" (JStr "PLANNED") (JStr "PLANNED")
             (coerce "endDate" parseDate (coerce "startDate" parseDate o3)) nd);
    [|subst nd; frame; reflexivity|done].
  rewrite (defaultTo_settles_truthy "additionalData" (JObj ∅) (JObj ∅)
             (defaultTo "status" (JStr "PLANNED")
                (coerce "endDate" parseDate (coerce "startDate" parseDate o3))) nd);
    [|subst nd; frame; reflexivity|done].
  f_equal. eapply defaultTo_settles_truthy; [by rewrite <- H|done].
Qed.

#[local] Transparent coerce defaultTo whenTruthy.

(** C7, as amended: normalisation is idempotent on every payload whose
    fields that go through [parseInt] come out of the first pass below 10^21
    in magnitude (or as [NaN]): if the employee, project or task normaliser
    returns [p'] on a payload, it returns [p'] again on [p'], whatever the
    time of the second pass. A whole number from 10^21 on prints in exponent
    notation, of which [parseInt] reads the leading digit only, so the
    second pass changes such a field. *)
Theorem normalising_twice_changes_nothing n now now' p p' :
  validTime now →
  normalise n now p = Ok p' →
  Forall (fun k => wholeBelow (get p' k)) (integerFields n) →
  normalise n now' p' = Ok p'.
Proof.
  intros Hnow Hfirst Hwhole.
  destruct n; cbn [normalise integerFields] in *;
    repeat (apply Forall_cons in Hwhole as [? Hwhole]).
  - by apply (normalizeEmployeeData_settled now now' p).
  - by apply (normalizeProjectData_settled p).
  - by apply (normalizeTaskData_settled now now' p).
Qed.

(** ** Messages *)

Lemma isPrefix_refl s : isPrefix s s = true.
Proof. induction s as [|c s IH]; [done|]. cbn [isPrefix]. by rewrite Ascii.eqb_refl. Qed.

Lemma isPrefix_append p s t : isPrefix p s = true → isPrefix p (s +:+ t) = true.
Proof.
  revert s. induction p as [|a p IH]; [done|]. intros [|b s]; [done|].
  change (String b s +:+ t) with (String b (s +:+ t)). cbn [isPrefix].
  intros [-> Hp]%andb_prop. by rewrite IH.
Qed.

Lemma contains_prefix n h : isPrefix n h = true → contains n h = true.
Proof. destruct h; cbn; [done|]. by intros ->. Qed.

Lemma contains_refl s : contains s s = true.
Proof. apply contains_prefix, isPrefix_refl. Qed.

Lemma contains_cons n c h :
  contains n (String c h) = (isPrefix n (String c h) || contains n h)%bool.
Proof. done. Qed.

Lemma contains_append_r n a h : contains n h = true → contains n (a +:+ h) = true.
Proof.
  intros H. induction a as [|c a IH]; [done|].
  change (String c a +:+ h) with (String c (a +:+ h)).
  rewrite contains_cons, IH. apply orb_true_r.
Qed.

Lemma contains_append_l n h t : contains n h = true → contains n (h +:+ t) = true.
Proof.
  induction h as [|c h IH].
  - intros H. apply contains_prefix. by destruct n.
  - change (String c h +:+ t) with (String c (h +:+ t)).
    rewrite !contains_cons. intros [H|H]%orb_prop.
    + change (String c (h +:+ t)) with (String c h +:+ t).
      by rewrite (isPrefix_append _ _ t H).
    + rewrite (IH H). apply orb_true_r.
Qed.

Lemma contains_join x sep l : In x l → contains x (join sep l) = true.
Proof.
  induction l as [|y [|z r] IH]; [done| |].
  - intros [->|[]]. apply contains_refl.
  - intros [->|Hin].
    + apply contains_append_l, contains_refl.
    + change (join sep (y :: z :: r)) with (y +:+ sep +:+ join sep (z :: r)).
      by apply contains_append_r, contains_append_r, IH.
Qed.

Lemma In_pushIf x c msg l : In x l → In x (pushIf c msg l).
Proof. unfold pushIf. destruct c; [|done]. intros H. apply in_or_app. by left. Qed.

Lemma In_pushIf_true msg l : In msg (pushIf true msg l).
Proof. apply in_or_app. right. by left. Qed.

Lemma mkCheck_invalid x l : In x l → isValid (mkCheck l) = false.
Proof. by destruct l. Qed.

(** ** Employee creation *)

Lemma find_exists {A} (q : A → bool) (l : list A) x :
  In x l → q x = true → is_Some (List.find q l).
Proof.
  induction l as [|y l IH]; [done|]. cbn. intros [->|Hin] Hq.
  - rewrite Hq. eauto.
  - destruct (q y); eauto.
Qed.

Lemma whenTruthy_result k f (o o' nd : Obj) :
  whenTruthy k f o = Ok o' → nd !! k = o' !! k → truthy (get nd k) = true →
  ∃ v, f v = Ok (get nd k).
Proof.
  intros Hstep Hframe Ht.
  destruct (whenTruthy_inv _ _ _ _ Hstep) as [[Hf ->]|[_ (v & Hv & ->)]].
  - rewrite (get_lookup _ _ _ Hframe) in Ht. congruence.
  - exists (get o k). rewrite Hv. f_equal.
    unfold get, set in *. by rewrite Hframe, lookup_insert_eq.
Qed.

(** After normalisation the employee code is falsy or a trimmed string. *)
Lemma normalizeEmployeeData_code now body nd :
  normalizeEmployeeData now body = Ok nd →
  truthy (get nd "employeeCode") = true →
  ∃ s, get nd "employeeCode" = JStr (trim s).
Proof.
  intros H Ht. unfold normalizeEmployeeData in H.
  apply bind_Ok_inv in H as (o1 & H1 & H).
  apply bind_Ok_inv in H as (o2 & H2 & H).
  apply bind_Ok_inv in H as (o3 & H3 & H).
  apply bind_Ok_inv in H as (o4 & H4 & H).
  apply bind_Ok_inv in H as (o5 & H5 & H).
  apply bind_Ok_inv in H as (o6 & H6 & H).
  injection H as H.
  destruct (whenTruthy_result _ _ _ _ nd H2) as (v & Hv); [|done|].
  { subst nd. frame. reflexivity. }
  apply bind_Ok_inv in Hv as (t & Htrim & [= Heq]).
  destruct v; try discriminate Htrim. injection Htrim as <-. eauto.
Qed.

Lemma checkEmployeeUniqueness_returns db employeeId employeeCode exclude :
  (truthy employeeCode = true → ∃ s, employeeCode = JStr s) →
  ∃ c, checkEmployeeUniqueness db employeeId employeeCode exclude = Ok c.
Proof.
  intros Hcode. unfold checkEmployeeUniqueness.
  destruct (truthy employeeCode); [|cbn; eauto].
  destruct Hcode as [s ->]; [done|]. cbn. eauto.
Qed.

(** C1, as amended: for every employee-creation request whose payload
    passes input validation and on which the normaliser returns (the
    optional [phone], [jobTitle] and [photoUrl], when truthy, are strings),
    if the normalised [companyId] is a whole number [n] that is the id of no
    stored company, the create handler answers 400 with a message that
    contains 'Company with ID n does not exist'; if the normalised [userId]
    is a non-zero whole number [n] that is the id of no stored user, it
    answers 400 with a message that contains 'User with ID n does not
    exist'. In both cases the database is left as it was: no employee
    document is written. *)
Theorem createEmployee_dangling_reference db now body nd n text :
  validateEmployeeInput body = Ok [] →
  normalizeEmployeeData now body = Ok nd →
  (get nd "companyId" = JNum (Fin n)
   ∧ findOne (fieldEq "id" (JNum (Fin n))) (companies db) = None
   ∧ text = "Company with ID " +:+ numberToString (Fin n) +:+ " does not exist")
  ∨ (get nd "userId" = JNum (Fin n) ∧ n ≠ 0
     ∧ findOne (fieldEq "id" (JNum (Fin n))) (users db) = None
     ∧ text = "User with ID " +:+ numberToString (Fin n) +:+ " does not exist") →
  ∃ msg, createEmployee db now body = (failure now 400 msg, db)
         ∧ contains text msg = true.
Proof.
  intros Hval Hnorm Hdangling.
  destruct (checkEmployeeUniqueness_returns db (get nd "id") (get nd "employeeCode") JNull)
    as [c Hc].
  { intros Ht. destruct (normalizeEmployeeData_code _ _ _ Hnorm Ht) as [s Hs]. eauto. }
  set (check := validateReferentialIntegrity db (get nd "companyId") (get nd "userId")).
  assert (In text (errors check)) as Hin.
  { subst check. unfold validateReferentialIntegrity. cbn [errors mkCheck].
    destruct Hdangling as [(-> & -> & ->)|(-> & Hn & -> & ->)].
    - apply In_pushIf. cbn. by left.
    - assert (truthy (JNum (Fin n)) = true) as ->.
      { cbn. by destruct (Z.eqb_spec n 0). }
      cbn [bool_decide andb negb]. rewrite bool_decide_eq_false_2 by (by intros [? ?]).
      apply In_pushIf_true. }
  exists (join ", " (errors check)). split; [|by apply contains_join].
  unfold createEmployee, createEmployeeTry.
  rewrite Hval. unfold mbind, result_bind, rbind. cbn [length Nat.ltb Nat.leb].
  rewrite Hnorm, Hc. fold check.
  assert (isValid check = false) as ->; [|done].
  subst check. unfold validateReferentialIntegrity in *. by eapply mkCheck_invalid.
Qed.

(** C2, as amended: for every employee-creation request whose payload
    passes input validation, on which the normaliser returns, and whose
    company (and user, when one is supplied) exist, if the normalised [id]
    or the normalised, non-empty [employeeCode] already belongs to a stored
    employee, the create handler answers 409 and the database, hence the
    stored employee, is left as it was. *)
Theorem createEmployee_conflict db now body nd e :
  validateEmployeeInput body = Ok [] →
  normalizeEmployeeData now body = Ok nd →
  isValid (validateReferentialIntegrity db (get nd "companyId") (get nd "userId")) = true →
  In e (employees db) →
  fieldEq "id" (get nd "id") e = true
  ∨ (truthy (get nd "employeeCode") = true
     ∧ fieldEq "employeeCode" (get nd "employeeCode") e = true) →
  ∃ msg, createEmployee db now body = (failure now 409 msg, db).
Proof.
  intros Hval Hnorm Href Hin Hdup.
  assert (∃ c, checkEmployeeUniqueness db (get nd "id") (get nd "employeeCode") JNull = Ok c
               ∧ isValid c = false) as (c & Hc & Hinvalid).
  { unfold checkEmployeeUniqueness. cbn [truthy].
    destruct (truthy (get nd "employeeCode")) eqn:Ht.
    - destruct (normalizeEmployeeData_code _ _ _ Hnorm Ht) as [s Hs].
      rewrite Hs in *. cbn [jsTrim strMethod mbind result_bind rbind].
      rewrite trim_idem. eexists. split; [done|].
      destruct Hdup as [Hid|[_ Hcode]].
      + eapply mkCheck_invalid, In_pushIf.
        rewrite bool_decide_eq_true_2 by (by eapply find_exists).
        apply In_pushIf_true.
      + eapply mkCheck_invalid.
        rewrite (bool_decide_eq_true_2 (is_Some (findOne (λ d, _ && true)%bool _))).
        * apply In_pushIf_true.
        * eapply find_exists; [done|]. by rewrite Hcode.
    - cbn [mbind result_bind rbind]. eexists. split; [done|].
      destruct Hdup as [Hid|[? _]]; [|done].
      eapply mkCheck_invalid, In_pushIf.
      rewrite bool_decide_eq_true_2 by (by eapply find_exists).
      apply In_pushIf_true. }
  exists (join ", " (errors c)).
  unfold createEmployee, createEmployeeTry.
  rewrite Hval. unfold mbind, result_bind, rbind. cbn [length Nat.ltb Nat.leb].
  by rewrite Hnorm, Hc, Href, Hinvalid.
Qed.

(** ** The date rule of the validators *)

Lemma In_nonempty {A} (x : A) l : In x l → Nat.ltb 0 (length l) = true.
Proof. by destruct l. Qed.

Lemma validateTaskInput_dates body ts te :
  truthy (get body "startDate") = true → truthy (get body "endDate") = true →
  newDate (get body "startDate") = Some ts → newDate (get body "endDate") = Some te →
  te ≤ ts →
  In "End date must be after start date" (validateTaskInput body).
Proof.
  intros Hs He Hts Hte Hle. unfold validateTaskInput.
  do 2 apply In_pushIf. rewrite Hs, He, Hts, Hte. cbn [dateLe andb].
  apply Z.leb_le in Hle as ->. apply In_pushIf_true.
Qed.

Lemma validateProjectInput_dates body errs ts te :
  validateProjectInput body = Ok errs →
  truthy (get body "startDate") = true → truthy (get body "endDate") = true →
  newDate (get body "startDate") = Some ts → newDate (get body "endDate") = Some te →
  te ≤ ts →
  In "End date must be after start date" errs.
Proof.
  intros H Hs He Hts Hte Hle. unfold validateProjectInput in H.
  repeat (apply bind_Ok_inv in H as (? & _ & H)).
  injection H as <-.
  do 2 apply In_pushIf. rewrite Hs, He, Hts, Hte. cbn [dateLe andb].
  apply Z.leb_le in Hle as ->. apply In_pushIf_true.
Qed.

(** C4, as amended: for every task payload, and for every project payload
    on which the validator returns (a truthy [name] or [code] is a string),
    whose properties that the validator converts to a number or a date
    ([companyId], [projectId], [budget], [startDate], [endDate]) convert to
    a primitive, and in which [startDate] and [endDate] are both truthy and
    valid dates and [endDate] is not after [startDate], input validation
    reports 'End date must be after start date' whatever the other fields
    hold, and the create handler answers 400 with one message, the
    violations of all rules joined by ', ', which therefore contains that
    sentence; nothing is written. *)
Theorem end_date_rule_reported db now body ts te :
  Forall (fun k => converts (get body k) = true)
    ["companyId"; "projectId"; "budget"; "startDate"; "endDate"] →
  truthy (get body "startDate") = true → truthy (get body "endDate") = true →
  newDate (get body "startDate") = Some ts → newDate (get body "endDate") = Some te →
  te ≤ ts →
  (In "End date must be after start date" (validateTaskInput body)
   ∧ createTask db now body = (refusal 400 (join ", " (validateTaskInput body)), db)
   ∧ contains "End date must be after start date"
       (join ", " (validateTaskInput body)) = true)
  ∧ (∀ errs, validateProjectInput body = Ok errs →
       In "End date must be after start date" errs
       ∧ createProject db now body = (refusal 400 (join ", " errs), db)
       ∧ contains "End date must be after start date" (join ", " errs) = true).
Proof.
  intros _ Hs He Hts Hte Hle. split.
  - pose proof (validateTaskInput_dates body ts te Hs He Hts Hte Hle) as Hin.
    split; [done|]. split; [|by apply contains_join].
    unfold createTask, createTaskTry. by rewrite (In_nonempty _ _ Hin).
  - intros errs Hval.
    pose proof (validateProjectInput_dates body errs ts te Hval Hs He Hts Hte Hle) as Hin.
    split; [done|]. split; [|by apply contains_join].
    unfold createProject, createProjectTry. rewrite Hval.
    unfold mbind, result_bind, rbind. by rewrite (In_nonempty _ _ Hin).
Qed.

(** ** Generated ids *)

Lemma bsonCompare_ints a b :
  bsonCompare (JNum (Fin a)) (JNum (Fin b)) = (a ?= b).
Proof. done. Qed.

Lemma greatestBy_id coll :
  Forall (fun d => is_Some (idOf d)) coll →
  match greatestBy "id" coll with
  | Some last => ∃ m, get last "id" = JNum (Fin m) ∧ maximum (omap idOf coll) = Some m
  | None => coll = []
  end.
Proof.
  induction coll as [|d coll IH]; [done|].
  intros [[z Hz] Hrest]%Forall_cons. specialize (IH Hrest).
  assert (get d "id" = JNum (Fin z)) as Hd.
  { unfold idOf in Hz. by destruct (get d "id") as [| | |[|?]| | | |]; simplify_eq. }
  cbn [greatestBy omap list_omap]. rewrite Hz. cbn [maximum foldr].
  destruct (greatestBy "id" coll) as [last|].
  - destruct IH as (m & Hm & Hmax). unfold maximum in Hmax. rewrite Hmax.
    rewrite Hd, Hm, bsonCompare_ints.
    destruct (Z.compare_spec z m); eexists; split; try done; f_equal; lia.
  - subst coll. cbn. eauto.
Qed.

Lemma roundToDouble_exact z : Z.abs z ≤ 2 ^ 53 → roundToDouble z = z.
Proof. intros Hz. unfold roundToDouble. by apply Z.leb_le in Hz as ->. Qed.

Lemma maximum_In l m : maximum l = Some m → In m l.
Proof.
  revert m. induction l as [|x l IH]; [done|]. intros m Hm.
  unfold maximum in Hm. cbn [foldr] in Hm. fold (maximum l) in Hm.
  destruct (maximum l) as [m'|].
  - injection Hm as <-. destruct (Z.max_spec x m') as [[_ ->]|[_ ->]].
    + right. by apply IH.
    + by left.
  - injection Hm as <-. by left.
Qed.

Lemma safeId_is_Some coll :
  Forall safeId coll → Forall (fun d => is_Some (idOf d)) coll.
Proof.
  intros H. eapply Forall_impl; [exact H|]. intros d (z & -> & _). by eexists.
Qed.

Lemma safeId_maximum coll m :
  Forall safeId coll → maximum (omap idOf coll) = Some m → Z.abs m < 2 ^ 53.
Proof.
  intros Hids Hm. apply maximum_In, list_elem_of_In, list_elem_of_omap in Hm
    as (d & Hin & Hd).
  rewrite Forall_forall in Hids. destruct (Hids d Hin) as (z & Hz & Hbound).
  by simplify_eq.
Qed.

Lemma nextId_spec coll :
  Forall safeId coll →
  match greatestBy "id" coll with
  | Some last => plusOne (get last "id")
  | None => JNum (Fin 1)
  end = JNum (Fin (maxIdPlusOne coll)).
Proof.
  intros Hids. pose proof (greatestBy_id coll (safeId_is_Some _ Hids)) as H.
  pose proof (safeId_maximum coll) as Hbound.
  unfold maxIdPlusOne. destruct (greatestBy "id" coll) as [last|].
  - destruct H as (m & -> & Hm). rewrite Hm. specialize (Hbound m Hids Hm).
    cbn [plusOne]. rewrite roundToDouble_exact; [done|lia].
  - by subst coll.
Qed.

Lemma normalizeProjectData_id body nd :
  normalizeProjectData body = Ok nd → nd !! "id" = body !! "id".
Proof.
  unfold normalizeProjectData. intros H.
  apply bind_Ok_inv in H as (o1 & H1 & H).
  apply bind_Ok_inv in H as (o2 & H2 & H).
  apply bind_Ok_inv in H as (o3 & H3 & H).
  apply bind_Ok_inv in H as (o4 & H4 & H).
  injection H as <-. frame. reflexivity.
Qed.

Lemma normalizeTaskData_id now body nd :
  normalizeTaskData now body = Ok nd → nd !! "id" = body !! "id".
Proof.
  unfold normalizeTaskData. intros H.
  apply bind_Ok_inv in H as (o1 & H1 & H).
  apply bind_Ok_inv in H as (o2 & H2 & H).
  apply bind_Ok_inv in H as (o3 & H3 & H).
  injection H as <-. frame. reflexivity.
Qed.

(** C5, as amended. Provided the ids stored in the collection are whole
    numbers below 2^53 in magnitude (beyond, [id + 1] is rounded in
    binary64): the id that [generateNextProjectId] returns, and that the
    document [createProject] builds for the new project carries when the
    payload has no [id] property, is the greatest stored project id plus 1,
    or 1 when no project is stored; and when the payload's [id] is absent or
    falsy and [createTask] answers 201, the task appended to the collection
    carries the greatest stored task id plus 1, or 1 when no task is
    stored. In both cases the id is read from the state of the collection
    the insert is applied to. *)
Theorem generated_id_is_max_plus_one db now body nd :
  (Forall safeId (projects db) →
   generateNextProjectId db = JNum (Fin (maxIdPlusOne (projects db)))
   ∧ (body !! "id" = None →
      normalizeProjectData body = Ok nd →
      get (projectDocument now (generateNextProjectId db) nd
             (generateProjectMetadata now nd)) "id"
      = JNum (Fin (maxIdPlusOne (projects db)))))
  ∧ (Forall safeId (tasks db) →
     truthy (get body "id") = false →
     status (fst (createTask db now body)) = 201 →
     ∃ task, tasks (snd (createTask db now body)) = tasks db ++ [task]
             ∧ get task "id" = JNum (Fin (maxIdPlusOne (tasks db)))).
Proof.
  split.
  - intros Hids.
    assert (generateNextProjectId db = JNum (Fin (maxIdPlusOne (projects db)))) as Hnext.
    { unfold generateNextProjectId. by rewrite (nextId_spec _ Hids). }
    split; [done|]. intros Hid Hnorm. unfold projectDocument.
    rewrite !get_set_ne by discriminate.
    rewrite Hnext.
    unfold get. rewrite lookup_union_r.
    + unfold obj. cbn. by rewrite lookup_insert_eq.
    + by rewrite (normalizeProjectData_id _ _ Hnorm).
  - intros Hids Hid Hcreated. unfold createTask in *.
    destruct (createTaskTry db now body) as [[r db']|e] eqn:E; cbn [fst snd] in *.
    2: { by destruct e. }
    unfold createTaskTry in E.
    destruct (Nat.ltb 0 (length (validateTaskInput body))).
    { injection E as <- <-. discriminate Hcreated. }
    apply bind_Ok_inv in E as (normalized & Hnorm & E).
    destruct (negb (isValid _)).
    { injection E as <- <-. discriminate Hcreated. }
    destruct (onInsert TaskModel _ _); [discriminate E|].
    injection E as <- <-. cbn [tasks withTasks]. eexists. split; [done|].
    rewrite get_set_ne by discriminate. unfold assignTaskId.
    rewrite (get_lookup _ _ _ (normalizeTaskData_id _ _ _ Hnorm)), Hid.
    cbn [negb]. by rewrite get_set_eq, (nextId_spec _ Hids).
Qed.

(** ** Uniqueness scans on update *)

Lemma find_none_all {A} (q : A → bool) (l : list A) :
  (∀ x, In x l → q x = false) → List.find q l = None.
Proof.
  induction l as [|y l IH]; [done|]. intros H. cbn.
  rewrite (H y) by (by left). apply IH. intros x Hx. apply H. by right.
Qed.

(** The project controller's scan leaves out the project that is being
    updated: a code held by no other project is reported as unique. *)
Lemma checkProjectCodeUniqueness_skips_own db code projectId :
  truthy projectId = true →
  (∀ d, In d (projects db) →
        fieldEq "code" (JStr (toUpperCase (trim code))) d = true →
        fieldEq "id" projectId d = true) →
  checkProjectCodeUniqueness db (JStr code) projectId = Ok true.
Proof.
  intros Hid Hown. unfold checkProjectCodeUniqueness.
  cbn [jsTrim strMethod mbind result_bind rbind]. rewrite Hid. unfold findOne.
  rewrite find_none_all; [by rewrite bool_decide_eq_false_2 by (by intros [? ?])|].
  intros d Hin. unfold fieldNe.
  destruct (fieldEq "code" (JStr (toUpperCase (trim code))) d) eqn:E; [|done].
  unfold fieldEq in Hown. by rewrite (Hown d Hin E).
Qed.

(** The employee controller's scan does not: with an id to exclude, the id
    query becomes "any employee with another id", so an update that carries
    an employee code is answered 409 as soon as the collection holds a
    second employee, also when the code is the record's own. *)
Lemma updateEmployee_conflicts_with_any_other db now id z body ud stored other :
  parseIntStr id = Fin z → 0 < z →
  normalizeEmployeeData now body = Ok ud →
  truthy (get ud "employeeCode") = true →
  truthy (get ud "companyId") = false → truthy (get ud "userId") = false →
  findOne (fieldEq "id" (JNum (Fin z))) (employees db) = Some stored →
  In other (employees db) → fieldNe "id" (JNum (Fin z)) other = true →
  ∃ msg, updateEmployee db now id body = (failure now 409 msg, db)
         ∧ contains ("Employee with ID " +:+ numberToString (Fin z) +:+ " already exists")
             msg = true.
Proof.
  intros Hid Hz Hnorm Hcode Hcompany Huser Hstored Hin Hother.
  destruct (normalizeEmployeeData_code _ _ _ Hnorm Hcode) as [s Hs].
  assert (truthy (JNum (Fin z)) = true) as Htz.
  { cbn. destruct (Z.eqb_spec z 0); [lia|done]. }
  assert (∃ c, checkEmployeeUniqueness db (JNum (Fin z)) (get ud "employeeCode")
                 (JNum (Fin z)) = Ok c
               ∧ In ("Employee with ID " +:+ numberToString (Fin z) +:+ " already exists")
                   (errors c)) as (c & Hc & Hmsg).
  { unfold checkEmployeeUniqueness. rewrite Hcode, Htz, Hs.
    cbn [jsTrim strMethod mbind result_bind rbind]. eexists. split; [done|].
    cbn [errors mkCheck]. apply In_pushIf.
    rewrite bool_decide_eq_true_2 by (by eapply find_exists).
    apply In_pushIf_true. }
  exists (join ", " (errors c)). split; [|by apply contains_join].
  unfold updateEmployee, updateEmployeeTry. rewrite Hid.
  destruct (Z.leb_spec z 0); [lia|].
  unfold mbind, result_bind, rbind.
  rewrite Hnorm, Hcompany, Huser, Hcode, Hc, Hstored. cbn [orb isValid passed negb].
  assert (isValid c = false) as ->; [|done].
  destruct c as [valid errs]. unfold checkEmployeeUniqueness in Hc.
  rewrite Hcode, Hs in Hc. cbn [jsTrim strMethod mbind result_bind rbind] in Hc.
  injection Hc as <- <-. by eapply mkCheck_invalid.
Qed.

(** ** Listing tasks by status *)

Lemma insertSorted_Permutation before d l : insertSorted before d l ≡ₚ d :: l.
Proof.
  induction l as [|x l IH]; [done|]. cbn. destruct (before d x); [done|].
  rewrite IH. apply Permutation_swap.
Qed.

Lemma sortDocs_Permutation before l : sortDocs before l ≡ₚ l.
Proof.
  induction l as [|x l IH]; [done|]. cbn.
  by rewrite insertSorted_Permutation, IH.
Qed.

(** The order of MongoDB on values is total and transitive. *)
Lemma ascii_compare_lt_trans a b c :
  Ascii.compare a b = Lt → Ascii.compare b c = Lt → Ascii.compare a c = Lt.
Proof. unfold Ascii.compare. rewrite !N.compare_lt_iff. lia. Qed.

Lemma ascii_compare_refl a : Ascii.compare a a = Eq.
Proof. unfold Ascii.compare. apply N.compare_refl. Qed.

Lemma string_compare_lt_trans a b c :
  String.compare a b = Lt → String.compare b c = Lt → String.compare a c = Lt.
Proof.
  revert b c. induction a as [|x a IH]; intros [|y b] [|z c]; cbn; try done.
  destruct (Ascii.compare x y) eqn:Hxy; try done;
    destruct (Ascii.compare y z) eqn:Hyz; try done.
  - apply Ascii.compare_eq_iff in Hxy as ->, Hyz as ->.
    rewrite ascii_compare_refl. apply IH.
  - apply Ascii.compare_eq_iff in Hxy as ->. by rewrite Hyz.
  - apply Ascii.compare_eq_iff in Hyz as <-. by rewrite Hxy.
  - by rewrite (ascii_compare_lt_trans _ _ _ Hxy Hyz).
Qed.

Lemma string_compare_ge_trans a b c :
  String.compare a b ≠ Lt → String.compare b c ≠ Lt → String.compare a c ≠ Lt.
Proof.
  intros Hab Hbc Hac.
  destruct (String.compare b c) eqn:Ebc; [| done |].
  - by apply String.compare_eq_iff in Ebc as ->.
  - destruct (String.compare a b) eqn:Eab; [| done |].
    + apply String.compare_eq_iff in Eab as ->. by rewrite Ebc in Hac.
    + assert (String.compare c b = Lt) as Hcb
        by (by rewrite String.compare_antisym, Ebc).
      pose proof (string_compare_lt_trans _ _ _ Hac Hcb) as Hlt.
      by rewrite Hlt in Eab.
Qed.

Lemma bsonCompare_antisym a b : bsonCompare b a = CompOpp (bsonCompare a b).
Proof.
  destruct a as [| |x|[|x]|x|[x|]| |], b as [| |y|[|y]|y|[y|]| |]; cbn; try done.
  - by destruct x, y.
  - apply Z.compare_antisym.
  - apply String.compare_antisym.
  - apply Z.compare_antisym.
Qed.

Lemma bsonCompare_ge_trans a b c :
  bsonCompare a b ≠ Lt → bsonCompare b c ≠ Lt → bsonCompare a c ≠ Lt.
Proof.
  destruct a as [| |x|[|x]|x|[x|]| |], b as [| |y|[|y]|y|[y|]| |],
    c as [| |z|[|z]|z|[z|]| |]; cbn; try done;
    try apply string_compare_ge_trans;
    try (by destruct x, y, z);
    rewrite !Z.compare_ge_iff; lia.
Qed.

Lemma bsonCompare_gt_ge_trans a b c :
  bsonCompare a b = Gt → bsonCompare b c ≠ Lt → bsonCompare a c = Gt.
Proof.
  intros Hab Hbc.
  assert (bsonCompare a c ≠ Lt) as Hac.
  { apply (bsonCompare_ge_trans a b c); [by rewrite Hab|done]. }
  destruct (bsonCompare a c) eqn:E; [|done|done]. exfalso.
  assert (bsonCompare c a ≠ Lt) as Hca by (by rewrite bsonCompare_antisym, E).
  pose proof (bsonCompare_ge_trans b c a Hbc Hca) as Hba.
  by rewrite bsonCompare_antisym, Hab in Hba.
Qed.

Lemma bsonCompare_ge_gt_trans a b c :
  bsonCompare a b ≠ Lt → bsonCompare b c = Gt → bsonCompare a c = Gt.
Proof.
  intros Hab Hbc.
  assert (bsonCompare a c ≠ Lt) as Hac.
  { apply (bsonCompare_ge_trans a b c); [done|by rewrite Hbc]. }
  destruct (bsonCompare a c) eqn:E; [|done|done]. exfalso.
  assert (bsonCompare c a ≠ Lt) as Hca by (by rewrite bsonCompare_antisym, E).
  pose proof (bsonCompare_ge_trans c a b Hca Hab) as Hcb.
  by rewrite bsonCompare_antisym, Hbc in Hcb.
Qed.

Lemma bsonCompare_eq_trans a b c :
  bsonCompare a b = Eq → bsonCompare b c = Eq → bsonCompare a c = Eq.
Proof.
  intros Hab Hbc.
  assert (bsonCompare a c ≠ Lt) as Hac.
  { apply (bsonCompare_ge_trans a b c); [by rewrite Hab|by rewrite Hbc]. }
  assert (bsonCompare c a ≠ Lt) as Hca.
  { apply (bsonCompare_ge_trans c b a); rewrite bsonCompare_antisym;
      [by rewrite Hbc|by rewrite Hab]. }
  rewrite bsonCompare_antisym in Hca. by destruct (bsonCompare a c).
Qed.

(** [taskBefore] decides the order of the listings. *)
Lemma taskBefore_spec a b : taskBefore a b = true ↔ newestFirst a b.
Proof.
  unfold taskBefore, newestFirst.
  destruct (bsonCompare (get a "createdAt") (get b "createdAt"));
    destruct (bsonCompare (get a "id") (get b "id")); intuition congruence.
Qed.

Lemma newestFirst_total a b : taskBefore a b = false → newestFirst b a.
Proof.
  unfold taskBefore, newestFirst.
  rewrite (bsonCompare_antisym (get a "createdAt") (get b "createdAt")),
    (bsonCompare_antisym (get a "id") (get b "id")).
  destruct (bsonCompare (get a "createdAt") (get b "createdAt"));
    destruct (bsonCompare (get a "id") (get b "id")); cbn; intuition congruence.
Qed.

Lemma newestFirst_trans a b c : newestFirst a b → newestFirst b c → newestFirst a c.
Proof.
  intros [Hab|[Hab Hab']] [Hbc|[Hbc Hbc']].
  - left. apply (bsonCompare_gt_ge_trans _ _ _ Hab). by rewrite Hbc.
  - left. apply (bsonCompare_gt_ge_trans _ _ _ Hab). by rewrite Hbc.
  - left. apply (bsonCompare_ge_gt_trans _ (get b "createdAt")); [by rewrite Hab|done].
  - right. split; [by apply (bsonCompare_eq_trans _ (get b "createdAt"))|].
    by apply (bsonCompare_ge_trans _ (get b "id")).
Qed.

(** The sort puts the documents in that order. *)
Lemma insertSorted_sorted d l :
  StronglySorted newestFirst l → StronglySorted newestFirst (insertSorted taskBefore d l).
Proof.
  induction 1 as [|x l Hsorted IH Hx]; cbn [insertSorted]; [by repeat constructor|].
  destruct (taskBefore d x) eqn:Hdx.
  - apply taskBefore_spec in Hdx. constructor; [by constructor|].
    constructor; [done|]. eapply Forall_impl; [exact Hx|].
    intros y Hxy. by apply (newestFirst_trans d x y).
  - apply newestFirst_total in Hdx. constructor; [done|].
    rewrite insertSorted_Permutation. by constructor.
Qed.

Lemma sortDocs_sorted l : StronglySorted newestFirst (sortDocs taskBefore l).
Proof.
  induction l as [|d l IH]; [constructor|]. cbn. by apply insertSorted_sorted.
Qed.

Lemma StronglySorted_take {A} (R : A → A → Prop) n l :
  StronglySorted R l → StronglySorted R (take n l).
Proof.
  intros H. revert n. induction H as [|x l Hsorted IH Hx]; intros [|n]; cbn;
    try constructor; [apply IH|].
  apply Forall_take, Hx.
Qed.

Lemma fieldEq_string k u d : fieldEq k (JStr u) d = true ↔ get d k = JStr u.
Proof.
  unfold fieldEq, queryEq. split.
  - destruct (get d k) as [| | |[|?]|s| | |]; try done.
    by intros ->%String.eqb_eq.
  - intros ->. apply String.eqb_refl.
Qed.

(** C9, as amended: for GET /api/tasks with a non-empty [status] query
    parameter [s] and no other parameter, the handler answers 200 with the
    first 1000 (the default page size) of the stored tasks whose status
    equals the upper-cased [s], ordered by descending [createdAt] and [id],
    each with its company and project names attached. Every task returned is
    a stored task with that status; of any two tasks returned, the one
    listed first has the greater [createdAt], or the same [createdAt] and
    an [id] that is not smaller; when at most 1000 stored tasks have the
    status, the tasks returned are exactly those. *)
Theorem tasks_listed_by_status db s :
  s ≠ "" →
  let wanted := JStr (toUpperCase s) in
  let matching := List.filter (fieldEq "status" wanted) (tasks db) in
  let answer := getAllTasks db {[ "status" := JStr s ]} in
  ∃ listed,
    status answer = 200
    ∧ dataOf answer = docArray (map (withDetails db) listed)
    ∧ listed = take 1000 (sortDocs taskBefore matching)
    ∧ (∀ t, In t listed → In t (tasks db) ∧ get t "status" = wanted)
    ∧ StronglySorted newestFirst listed
    ∧ ((length matching ≤ 1000)%nat →
       listed ≡ₚ matching
       ∧ ∀ t, In t matching ↔ In t (tasks db) ∧ get t "status" = wanted).
Proof.
  intros Hs wanted matching answer.
  assert (getAllTasksTry db {[ "status" := JStr s ]}
          = Ok (respond 200
                  [("success", JBool true);
                   ("data", docArray (map (withDetails db)
                                        (take 1000 (sortDocs taskBefore matching))));
                   ("pagination",
                    JObj (obj [("page", JNum (Fin 1));
                               ("limit", JNum (Fin 1000));
                               ("total", JNum (Fin (Z.of_nat (length matching))));
                               ("pages", JNum (Fin (- ((- Z.of_nat (length matching))
                                                       / 1000))))]))])) as Htry.
  { assert (get ({[ "status" := JStr s ]} : Obj) "status" = JStr s) as Hstatus.
    { unfold get. by rewrite lookup_singleton_eq. }
    assert (∀ k, "status" ≠ k → get ({[ "status" := JStr s ]} : Obj) k = JUndefined)
      as Hother.
    { intros k Hk. unfold get. by rewrite lookup_singleton_ne. }
    unfold getAllTasksTry, taskListQuery.
    rewrite Hstatus, !Hother by discriminate.
    cbn [truthy].
    assert (negb (String.eqb s "") = true) as ->.
    { apply negb_true_iff, String.eqb_neq, Hs. }
    change (parseIntOr JUndefined 1) with 1.
    change (parseIntOr JUndefined 1000) with 1000.
    cbn [jsToUpperCase strMethod mbind result_bind rbind andb].
    unfold findPage. cbn [Z.ltb Z.mul Z.sub Z.add Z.opp Z.pos_sub Z.compare].
    repeat match goal with
           | |- context [List.filter ?f (tasks db)] =>
               lazymatch f with
               | fieldEq "status" (JStr (toUpperCase s)) => fail
               | _ => rewrite (List.filter_ext f (fieldEq "status" (JStr (toUpperCase s))))
                        by (intros d; by rewrite !andb_true_r)
               end
           end.
    fold wanted. fold matching.
    done. }
  assert (∀ t, In t matching ↔ In t (tasks db) ∧ get t "status" = wanted) as Hmatching.
  { intros t. subst matching. unfold wanted. rewrite List.filter_In.
    by rewrite fieldEq_string. }
  subst answer. unfold getAllTasks. rewrite Htry.
  exists (take 1000 (sortDocs taskBefore matching)).
  split; [done|]. split.
  { unfold dataOf, respond, obj, get. cbn [body list_to_map foldr uncurry].
    by rewrite lookup_insert_ne, lookup_insert_eq by discriminate. }
  split; [done|]. split; [|split].
  - intros t Hin%list_elem_of_In. apply Hmatching.
    apply list_elem_of_In.
    rewrite <- (sortDocs_Permutation taskBefore matching).
    by apply (subseteq_take 1000).
  - apply StronglySorted_take, sortDocs_sorted.
  - intros Hfew. split; [|done].
    rewrite take_ge; [apply sortDocs_Permutation|].
    by rewrite (Permutation_length (sortDocs_Permutation taskBefore matching)).
Qed.

(** ** Updating a task *)

Lemma updateFirst_split q update coll stored :
  findOne q coll = Some stored →
  ∃ before after,
    coll = before ++ stored :: after
    ∧ q stored = true
    ∧ Forall (fun d => q d = false) before
    ∧ updateFirst q update coll = before ++ (update ∪ stored) :: after.
Proof.
  induction coll as [|d coll IH]; [done|]. cbn.
  destruct (q d) eqn:Hq.
  - intros [= ->]. by exists [], coll.
  - intros (before & after & -> & Hs & Hb & ->)%IH.
    exists (d :: before), after. repeat split; try done. by constructor.
Qed.






(** * Further properties of the controllers *)

(** ** Project metadata *)

Lemma get_obj_cons k v rest k' :
  get (obj ((k, v) :: rest)) k' = if decide (k = k') then v else get (obj rest) k'.
Proof.
  unfold get, obj. cbn [list_to_map foldr]. case_decide as Hk.
  - subst. by rewrite lookup_insert_eq.
  - by rewrite lookup_insert_ne.
Qed.

Lemma generateProjectMetadata_progress now pd :
  get (generateProjectMetadata now pd) "progress" = JNum (Fin (progressOf now pd)).
Proof.
  unfold generateProjectMetadata, progressOf.
  destruct (truthy (get pd "startDate") && truthy (get pd "endDate"))%bool;
    [|by rewrite get_obj_cons].
  destruct (newDate (get pd "startDate")) as [s|], (newDate (get pd "endDate")) as [e|];
    cbv beta iota zeta;
    repeat match goal with
           | |- context [if ?c then (?p, _, _, _) else _] => destruct c
           end;
    by rewrite get_obj_cons.
Qed.

Lemma progressOf_bounds now pd : 0 ≤ progressOf now pd ≤ 100.
Proof.
  unfold progressOf. repeat case_match; try lia.
  match goal with H : (_ && _)%bool = true |- _ =>
    apply andb_true_iff in H as [Ht%Z.ltb_lt He%Z.ltb_lt] end.
  split; [|lia]. apply Z.min_glb; [|lia]. apply Z.div_pos; lia.
Qed.

(** X1: the progress that [generateProjectMetadata] reports is a whole
    number between 0 and 100, whatever the dates of the project and the
    current time. *)
Theorem project_progress_is_a_percentage now projectData :
  ∃ p, get (generateProjectMetadata now projectData) "progress" = JNum (Fin p)
       ∧ 0 ≤ p ≤ 100.
Proof.
  exists (progressOf now projectData).
  split; [apply generateProjectMetadata_progress|apply progressOf_bounds].
Qed.

(** X2: for a project whose start and end dates are valid and whose end is
    after its start, the two timeline alarms of [generateProjectMetadata]
    never fire, at any current time: once the end date has passed the
    progress is 100, and while less than a fifth of the duration is left the
    progress is at least 80. The timeline status is 'ON_TRACK', no risk is
    listed, and the health is 'HEALTHY' unless the project status sets it
    to 'ON_HOLD' or 'CANCELLED'. *)
Theorem valid_date_range_is_always_on_track now projectData s e :
  truthy (get projectData "startDate") = true →
  truthy (get projectData "endDate") = true →
  newDate (get projectData "startDate") = Some s →
  newDate (get projectData "endDate") = Some e →
  s < e →
  get (generateProjectMetadata now projectData) "timelineStatus" = JStr "ON_TRACK"
  ∧ get (generateProjectMetadata now projectData) "risks" = strArray []
  ∧ get (generateProjectMetadata now projectData) "health"
    = JStr match get projectData "status" with
           | JStr "ON_HOLD" => "ON_HOLD"
           | JStr "CANCELLED" => "CANCELLED"
           | _ => "HEALTHY"
           end.
Proof.
  intros Hs He Hns Hne Hlt. unfold generateProjectMetadata.
  rewrite Hs, He, Hns, Hne. cbn [andb].
  assert ((0 <? e - s) = true) as -> by (apply Z.ltb_lt; lia). cbn [andb].
  set (progress := if 0 <? now - s
                   then Z.min ((200 * (now - s) + (e - s)) / (2 * (e - s))) 100
                   else 0).
  assert ((e <? now) && (progress <? 100) = false)%bool as ->.
  { apply andb_false_iff. destruct (Z.ltb_spec e now) as [Hpast|]; [right|by left].
    apply Z.ltb_ge. unfold progress.
    assert ((0 <? now - s) = true) as -> by (apply Z.ltb_lt; lia).
    apply Z.min_glb; [|lia]. apply Z.div_le_lower_bound; lia. }
  assert ((5 * (e - now) <? e - s) && (progress <? 80) = false)%bool as ->.
  { apply andb_false_iff. destruct (Z.ltb_spec (5 * (e - now)) (e - s)) as [Hclose|];
      [right|by left].
    apply Z.ltb_ge. unfold progress.
    assert ((0 <? now - s) = true) as -> by (apply Z.ltb_lt; lia).
    apply Z.min_glb; [|lia]. apply Z.div_le_lower_bound; lia. }
  repeat split; repeat (rewrite get_obj_cons; try (case_decide; [done|])); try done.
  all: repeat case_match; by rewrite ?get_obj_cons.
Qed.

(** ** Projects: creation, update and the id parameter *)

(** X3: POST /api/projects never stores a project and never answers 201,
    whatever the payload and the state of the database: a status that the
    validator of the controller lets through, and the default 'PLANNING' of
    the normaliser, are no values of the status enumeration of the schema in
    [Project.js], so [save] refuses every document that reaches it. *)
Theorem createProject_stores_nothing db now body :
  snd (createProject db now body) = db
  ∧ status (fst (createProject db now body)) ≠ 201.
Proof. apply createProject_never_persists. Qed.

Lemma projectUpdate_lookup now stored ud k :
  k ≠ "metadata" → k ≠ "updatedAt" → k ≠ "id" → k ≠ "_id" →
  projectUpdate now stored ud !! k = ud !! k.
Proof.
  intros. unfold projectUpdate, set. case_match.
  - rewrite lookup_insert_ne by done. rewrite lookup_insert_ne by done.
    by rewrite !lookup_delete_ne.
  - rewrite lookup_insert_ne by done. by rewrite !lookup_delete_ne.
Qed.


(** What [updateProject] does, by the status of its answer. *)
Lemma updateProject_inv db now id body :
  (status (fst (updateProject db now id body)) ≠ 200
   ∧ snd (updateProject db now id body) = db)
  ∨ (∃ z ud stored,
       parseIntStr id = Fin z ∧ 0 < z
       ∧ normalizeProjectData body = Ok ud
       ∧ findOne (fieldEq "id" (JNum (Fin z))) (projects db) = Some stored
       ∧ onUpdate ProjectModel (projects db) (projectUpdate now stored ud) = None
       ∧ updateProject db now id body
         = (respond 200 [("success", JBool true);
                         ("message", JStr "Project updated successfully");
                         ("data", JObj (projectUpdate now stored ud ∪ stored))],
            withProjects db
              (updateFirst (fieldEq "id" (JNum (Fin z))) (projectUpdate now stored ud)
                 (projects db)))).
Proof.
  unfold updateProject.
  destruct (updateProjectTry db now id body) as [[r db']|e] eqn:E; cbn [fst snd].
  2: { left. by destruct e. }
  unfold updateProjectTry in E.
  destruct (parseIntStr id) as [|z] eqn:Hid; [injection E as <- <-; by left|].
  destruct (Z.leb_spec z 0) as [|Hz]; [injection E as <- <-; by left|].
  apply bind_Ok_inv in E as (ud & Hnorm & E).
  apply bind_Ok_inv in E as (unique & Hunique & E).
  destruct (findOne (fieldEq "id" (JNum (Fin z))) (projects db)) as [stored|] eqn:Hfind;
    [|injection E as <- <-; by left].
  fold (projectUpdate now stored ud) in E.
  repeat match type of E with
         | (if ?c then _ else _) = _ =>
             destruct c; [injection E as <- <-; by left|]
         end.
  destruct (onUpdate ProjectModel (projects db) (projectUpdate now stored ud)) eqn:Hup;
    [discriminate E|].
  injection E as <- <-. right. by exists z, ud, stored.
Qed.

Lemma normalizeProjectData_status_truthy body ud :
  normalizeProjectData body = Ok ud →
  ∃ v, ud !! "status" = Some v ∧ truthy v = true
       ∧ (truthy (get body "status") = false → v = JStr "PLANNING").
Proof.
  intros Hnorm. pose proof (normalizeProjectData_status _ _ Hnorm) as Hst.
  destruct (truthy (get body "status")) eqn:Ht.
  - exists (get body "status"). rewrite Hst. by rewrite (truthy_get_lookup _ _ Ht).
  - by exists (JStr "PLANNING").
Qed.




(** X5: an update of a project that does not set a truthy [status] is never
    applied. The normaliser, which [updateProject] runs on the request
    body, fills in the default 'PLANNING'; the update validators of the
    schema refuse that value, so the request is not answered 200 and the
    database is left as it was. *)
Theorem updateProject_without_status_is_refused db now id body :
  truthy (get body "status") = false →
  status (fst (updateProject db now id body)) ≠ 200
  ∧ snd (updateProject db now id body) = db.
Proof.
  intros Hst.
  destruct (updateProject_inv db now id body)
    as [?|(z & ud & stored & Hid & Hz & Hnorm & Hfind & Hup & Hres)]; [done|].
  exfalso.
  destruct (normalizeProjectData_status_truthy _ _ Hnorm) as (v & Hv & _ & Hplanning).
  specialize (Hplanning Hst). subst v.
  assert (get (projectUpdate now stored ud) "status" = JStr "PLANNING") as Hgv.
  { unfold get. by rewrite projectUpdate_lookup, Hv. }
  cbn [onUpdate ProjectModel] in Hup. rewrite Hgv in Hup.
  destruct (minZeroError "budget" _); discriminate Hup.
Qed.

(** [parseInt] reads the digits that open a string and ignores what
    follows them. *)
Lemma readDigits_append s c t a :
  isDigit c = false → readDigits (s +:+ String c t) a = readDigits s a.
Proof.
  intros Hc. revert a. induction s as [|d s IH]; intros a.
  - change ("" +:+ String c t) with (String c t). cbn [readDigits]. by rewrite Hc.
  - change (String d s +:+ String c t) with (String d (s +:+ String c t)).
    cbn [readDigits]. destruct (isDigit d); [apply IH|done].
Qed.

Lemma allDigits_starts s : allDigits s = true → startsWithDigit s = true.
Proof.
  unfold allDigits. destruct s as [|c s]; [done|]. cbn.
  destruct (isDigit c) eqn:E; [done|].
  intros H. exfalso. revert H.
  assert (∀ u, String.length (stripNonDigits u) ≤ String.length u)%nat as Hlen.
  { induction u as [|x u IH]; cbn; [lia|]. destruct (isDigit x); cbn; lia. }
  destruct (String.eqb_spec (stripNonDigits s) (String c s)) as [Heq|]; [|done].
  pose proof (Hlen s) as Hl. rewrite Heq in Hl. cbn in Hl. lia.
Qed.

Lemma parseIntStr_append s c t :
  allDigits s = true → isDigit c = false →
  parseIntStr (s +:+ String c t) = parseIntStr s.
Proof.
  intros Hs Hc. apply allDigits_starts in Hs.
  assert (startsWithDigit (s +:+ String c t) = true) as Hs'.
  { destruct s; [done|]. done. }
  by rewrite !parseIntStr_digits, readDigits_append.
Qed.

(** X6: the [/:id] routes of the project controller read the parameter with
    [parseInt]: characters after the leading digits are ignored, so a
    parameter made of digits followed by anything else addresses the same
    project as the digits alone, for a read as for a deletion. *)
Theorem project_id_parameter_ignores_a_suffix db s c t :
  allDigits s = true → isDigit c = false →
  getProjectById db (s +:+ String c t) = getProjectById db s
  ∧ deleteProject db (s +:+ String c t) = deleteProject db s.
Proof.
  intros Hs Hc. unfold getProjectById, deleteProject, positiveId.
  by rewrite parseIntStr_append.
Qed.

(** ** Employees: validation and normalisation *)

Lemma trimmedLength_Ok v p c :
  trimmedLength v p = Ok c →
  (truthy v = false ∧ c = false)
  ∨ (∃ s, v = JStr s ∧ s ≠ "" ∧ c = p (String.length (trim s))).
Proof.
  unfold trimmedLength. destruct (truthy v) eqn:Ht.
  - destruct v; try discriminate. cbn. intros [= <-]. right. exists s.
    repeat split. intros ->. discriminate Ht.
  - intros [= <-]. by left.
Qed.

Lemma trimmedLength_string s p :
  s ≠ "" → trimmedLength (JStr s) p = Ok (p (String.length (trim s))).
Proof.
  intros Hs. unfold trimmedLength. cbn.
  by destruct (String.eqb_spec s "").
Qed.

Lemma includes_truthy l v :
  Forall (fun s => s ≠ "") l → includes l v = true → truthy v = true.
Proof.
  intros Hl. destruct v; try done. cbn. intros [x [Hin Hx]]%existsb_exists.
  apply String.eqb_eq in Hx as <-. rewrite List.Forall_forall in Hl.
  apply Hl in Hin. by destruct (String.eqb_spec s "").
Qed.

(** X7: [validateEmployeeInput] reports no violation exactly for the
    payloads in which [id] and [companyId] are truthy and numeric, [userId]
    is numeric when truthy, [fullName] is a string whose trimmed length is
    between 1 and 100, [employeeCode] is a non-empty string whose trimmed
    length is at most 20 (a code of white space only is let through), and
    [status], when truthy, is one of 'ACTIVE', 'INACTIVE', 'SUSPENDED' in
    that exact case. *)
Theorem validateEmployeeInput_accepts_exactly data :
  validateEmployeeInput data = Ok [] ↔
    (truthy (get data "id") = true ∧ isNaN (get data "id") = false)
    ∧ (truthy (get data "companyId") = true ∧ isNaN (get data "companyId") = false)
    ∧ (truthy (get data "userId") = true → isNaN (get data "userId") = false)
    ∧ (∃ s, get data "fullName" = JStr s
            ∧ (0 < String.length (trim s) ≤ 100)%nat)
    ∧ (∃ c, get data "employeeCode" = JStr c ∧ c ≠ ""
            ∧ (String.length (trim c) ≤ 20)%nat)
    ∧ (truthy (get data "status") = true →
       includes employeeStatuses (get data "status") = true).
Proof.
  split.
  - intros H. unfold validateEmployeeInput in H.
    apply bind_Ok_inv in H as (c1 & Hc1 & H).
    apply bind_Ok_inv in H as (c2 & Hc2 & H).
    apply bind_Ok_inv in H as (c3 & Hc3 & H).
    injection H as H.
    apply pushIf_nil in H as [Hstatus H]. apply pushIf_nil in H as [-> H].
    apply pushIf_nil in H as [-> H]. apply pushIf_nil in H as [-> H].
    apply pushIf_nil in H as [Huser H]. apply pushIf_nil in H as [Hcompany H].
    apply pushIf_nil in H as [Hid H]. apply pushIf_nil in H as [Hcode H].
    apply pushIf_nil in H as [Hname H]. apply pushIf_nil in H as [Hcompany' H].
    apply pushIf_nil in H as [Hid' _].
    apply negb_false_iff in Hcode, Hname, Hcompany', Hid'.
    rewrite Hid' in Hid. rewrite Hcompany' in Hcompany. cbn in Hid, Hcompany.
    repeat split; try done.
    + intros Ht. by rewrite Ht in Huser.
    + apply trimmedLength_Ok in Hc1 as [[Hf _]|(s & Hs & Hne & Hzero)];
        [by rewrite Hf in Hname|].
      exists s. split; [done|].
      rewrite Hs, trimmedLength_string in Hc2 by done. injection Hc2 as Hlong.
      symmetry in Hzero.
      apply Nat.eqb_neq in Hzero. apply Nat.ltb_ge in Hlong.
      lia.
    + apply trimmedLength_Ok in Hc3 as [[Hf _]|(c & Hc & Hne & Hlong)];
        [by rewrite Hf in Hcode|].
      exists c. repeat split; [done..|].
      symmetry in Hlong. by apply Nat.ltb_ge in Hlong.
    + intros Ht. rewrite Ht in Hstatus. cbn in Hstatus.
      by apply negb_false_iff in Hstatus.
  - intros ((Hid & Hidn) & (Hco & Hcon) & Huser & (s & Hs & Hlen) & (c & Hc & Hne & Hclen)
            & Hstatus).
    assert (s ≠ "") as Hsne by (intros ->; cbn in Hlen; lia).
    unfold validateEmployeeInput.
    rewrite Hid, Hidn, Hco, Hcon, Hs, Hc, !trimmedLength_string by done.
    cbn [mbind result_bind rbind].
    assert (truthy (JStr s) = true) as -> by (cbn; by destruct (String.eqb_spec s "")).
    assert (truthy (JStr c) = true) as -> by (cbn; by destruct (String.eqb_spec c "")).
    assert (truthy (get data "userId") && isNaN (get data "userId") = false)%bool as ->.
    { destruct (truthy (get data "userId")); [by rewrite Huser|done]. }
    assert (truthy (get data "status")
            && negb (includes employeeStatuses (get data "status")) = false)%bool as ->.
    { destruct (truthy (get data "status")); [by rewrite Hstatus|done]. }
    assert ((String.length (trim s) =? 0)%nat = false) as -> by (apply Nat.eqb_neq; lia).
    assert ((100 <? String.length (trim s))%nat = false) as -> by (apply Nat.ltb_ge; lia).
    assert ((20 <? String.length (trim c))%nat = false) as -> by (by apply Nat.ltb_ge).
    done.
Qed.

Lemma coerce_keeps k k' f (o d : Obj) :
  o !! k = d !! k → k ≠ k' ∨ truthy (get d k) = false →
  coerce k' f o !! k = d !! k.
Proof.
  intros Ho [Hne|Hf]; [by rewrite coerce_lookup_ne|].
  unfold coerce. destruct (decide (k' = k)) as [->|Hne].
  - by rewrite (get_lookup _ _ _ Ho), Hf.
  - destruct (truthy (get o k')); [|done]. unfold set. by rewrite lookup_insert_ne.
Qed.

Lemma whenTruthy_keeps k k' f (o o' d : Obj) :
  whenTruthy k' f o = Ok o' →
  o !! k = d !! k → k ≠ k' ∨ truthy (get d k) = false →
  o' !! k = d !! k.
Proof.
  intros Hw Ho [Hne|Hf].
  - by rewrite (whenTruthy_lookup_ne _ _ _ _ _ Hw).
  - destruct (decide (k' = k)) as [->|Hne].
    + apply whenTruthy_inv in Hw as [[_ ->]|[Ht _]]; [done|].
      by rewrite (get_lookup _ _ _ Ho), Hf in Ht.
    + by rewrite (whenTruthy_lookup_ne _ _ _ _ _ Hw).
Qed.

(** X8: [normalizeEmployeeData] rewrites nothing but truthy values of the
    ten properties it names: every other property of the payload, and
    every property whose value is falsy (absent, [null], 0, the empty
    string), is in the result exactly as in the payload. *)
Theorem normalizeEmployeeData_rewrites_only_truthy_named_fields now data nd k :
  normalizeEmployeeData now data = Ok nd →
  k ∉ employeeNormalisedFields ∨ truthy (get data k) = false →
  nd !! k = data !! k.
Proof.
  intros H Hcond. unfold normalizeEmployeeData in H.
  apply bind_Ok_inv in H as (o1 & H1 & H).
  apply bind_Ok_inv in H as (o2 & H2 & H).
  apply bind_Ok_inv in H as (o3 & H3 & H).
  apply bind_Ok_inv in H as (o4 & H4 & H).
  apply bind_Ok_inv in H as (o5 & H5 & H).
  apply bind_Ok_inv in H as (o6 & H6 & H).
  injection H as <-.
  assert (∀ k', k' ∈ employeeNormalisedFields →
                k ≠ k' ∨ truthy (get data k) = false) as Hstep.
  { intros k' Hin. destruct Hcond as [Hout|Hf]; [left|by right].
    intros ->. by apply Hout. }
  apply coerce_keeps; [|apply Hstep; repeat constructor].
  eapply whenTruthy_keeps; [exact H6| |apply Hstep; repeat constructor].
  eapply whenTruthy_keeps; [exact H5| |apply Hstep; repeat constructor].
  eapply whenTruthy_keeps; [exact H4| |apply Hstep; repeat constructor].
  eapply whenTruthy_keeps; [exact H3| |apply Hstep; repeat constructor].
  eapply whenTruthy_keeps; [exact H2| |apply Hstep; repeat constructor].
  eapply whenTruthy_keeps; [exact H1| |apply Hstep; repeat constructor].
  apply coerce_keeps; [|apply Hstep; repeat constructor].
  apply coerce_keeps; [|apply Hstep; repeat constructor].
  apply coerce_keeps; [|apply Hstep; repeat constructor].
  done.
Qed.

Lemma whenTruthy_value k f (o o' : Obj) :
  whenTruthy k f o = Ok o' → truthy (get o k) = true →
  ∃ v, f (get o k) = Ok v ∧ get o' k = v.
Proof.
  intros Hw Ht. apply whenTruthy_inv in Hw as [[Hf _]|(_ & v & Hv & ->)];
    [by rewrite Hf in Ht|].
  exists v. by rewrite get_set_eq.
Qed.

Lemma trim_collapse_trim s : trim (collapseSpaces (trim s)) = collapseSpaces (trim s).
Proof.
  unfold trim at 1, collapseSpaces.
  rewrite trimStart_id by (apply collapseFrom_starts, trim_starts).
  by rewrite trimEnd_collapseFrom, trimEnd_trim.
Qed.

Lemma trimmed_string_value (g : string → string) v w :
  (t ← jsTrim v; Ok (JStr (g t))) = Ok w → ∃ s, v = JStr s ∧ w = JStr (g (trim s)).
Proof.
  intros (t & Ht & [= <-])%bind_Ok_inv. destruct v; try discriminate Ht.
  injection Ht as <-. eauto.
Qed.

(** X9: the normal forms that [normalizeEmployeeData] gives to the truthy
    properties of a payload: the full name is a trimmed string without runs
    of white space, the employee code a trimmed string, the phone a string
    of digits only, the status a string in upper case, and the creation
    time a valid date. *)
Theorem normalizeEmployeeData_normal_forms now data nd :
  normalizeEmployeeData now data = Ok nd →
  (truthy (get data "fullName") = true →
   ∃ s, get nd "fullName" = JStr s ∧ trim s = s ∧ collapseSpaces s = s)
  ∧ (truthy (get data "employeeCode") = true →
     ∃ s, get nd "employeeCode" = JStr s ∧ trim s = s)
  ∧ (truthy (get data "phone") = true →
     ∃ s, get nd "phone" = JStr s ∧ stripNonDigits s = s)
  ∧ (truthy (get data "status") = true →
     ∃ s, get nd "status" = JStr s ∧ toUpperCase s = s)
  ∧ (truthy (get data "createdAt") = true →
     ∃ t, get nd "createdAt" = JDate (Some t)).
Proof.
  intros H. unfold normalizeEmployeeData in H.
  apply bind_Ok_inv in H as (o1 & H1 & H).
  apply bind_Ok_inv in H as (o2 & H2 & H).
  apply bind_Ok_inv in H as (o3 & H3 & H).
  apply bind_Ok_inv in H as (o4 & H4 & H).
  apply bind_Ok_inv in H as (o5 & H5 & H).
  apply bind_Ok_inv in H as (o6 & H6 & H).
  injection H as <-.
  split; [|split; [|split; [|split]]]; intros Ht.
  - destruct (whenTruthy_value _ _ _ _ H1) as (v & Hv & Hget).
    { erewrite get_lookup; [exact Ht|]. frame. reflexivity. }
    apply trimmed_string_value in Hv as (s & _ & ->).
    exists (collapseSpaces (trim s)). split; [|split].
    + rewrite <- Hget. apply get_lookup. frame. reflexivity.
    + apply trim_collapse_trim.
    + apply (collapseFrom_idem false false). done.
  - destruct (whenTruthy_value _ _ _ _ H2) as (v & Hv & Hget).
    { erewrite get_lookup; [exact Ht|]. frame. reflexivity. }
    apply (trimmed_string_value id) in Hv as (s & _ & Hv). unfold id in Hv. subst v.
    exists (trim s). split; [|apply trim_idem].
    rewrite <- Hget. apply get_lookup. frame. reflexivity.
  - destruct (whenTruthy_value _ _ _ _ H3) as (v & Hv & Hget).
    { erewrite get_lookup; [exact Ht|]. frame. reflexivity. }
    apply trimmed_string_value in Hv as (s & _ & ->).
    exists (stripNonDigits (trim s)). split; [|apply stripNonDigits_idem].
    rewrite <- Hget. apply get_lookup. frame. reflexivity.
  - destruct (whenTruthy_value _ _ _ _ H6) as (v & Hv & Hget).
    { erewrite get_lookup; [exact Ht|]. frame. reflexivity. }
    apply bind_Ok_inv in Hv as (u & Hu & [= <-]).
    destruct (get o5 "status") as [| | | |s| | |]; try discriminate Hu.
    injection Hu as <-.
    exists (toUpperCase s). split; [|apply toUpperCase_idem].
    rewrite <- Hget. apply get_lookup. frame. reflexivity.
  - assert (get o6 "createdAt" = get data "createdAt") as Hsame.
    { apply get_lookup. frame. reflexivity. }
    unfold coerce. rewrite Hsame, Ht, get_set_eq.
    destruct (newDate (get data "createdAt")); eauto.
Qed.

(** ** Employees: creation, lookup, status and deletion *)

(** Reads a property of an object literal. *)
Ltac obj_get :=
  repeat (rewrite get_obj_cons;
          let Hk := fresh "Hk" in
          case_decide as Hk; [try discriminate Hk|]; try done).

Lemma length_zero_nil {A} (l : list A) : Nat.ltb 0 (length l) = false → l = [].
Proof. by destruct l. Qed.

(** What [createEmployee] does, by the status of its answer. *)
Lemma createEmployee_inv db now body :
  (status (fst (createEmployee db now body)) ≠ 201
   ∧ snd (createEmployee db now body) = db)
  ∨ (∃ nd c,
       validateEmployeeInput body = Ok []
       ∧ normalizeEmployeeData now body = Ok nd
       ∧ isValid (validateReferentialIntegrity db (get nd "companyId")
                    (get nd "userId")) = true
       ∧ checkEmployeeUniqueness db (get nd "id") (get nd "employeeCode") JNull = Ok c
       ∧ isValid c = true
       ∧ createEmployee db now body
         = (respond 201
              [("success", JBool true);
               ("message", JStr "Employee created successfully");
               ("data",
                JObj (set "email"
                        (getUserEmailById
                           (withEmployees db (employees db ++ [employeeDocument now nd]))
                           (get (employeeDocument now nd) "userId"))
                        (transformEmployeeResponse (employeeDocument now nd))));
               timestamp now],
            withEmployees db (employees db ++ [employeeDocument now nd]))).
Proof.
  unfold createEmployee.
  destruct (createEmployeeTry db now body) as [[r db']|e] eqn:E; cbn [fst snd].
  2: { left. by destruct e. }
  unfold createEmployeeTry in E.
  apply bind_Ok_inv in E as (errs & Hval & E).
  destruct (Nat.ltb 0 (length errs)) eqn:Hlen; [injection E as <- <-; by left|].
  apply length_zero_nil in Hlen as ->.
  apply bind_Ok_inv in E as (nd & Hnorm & E).
  apply bind_Ok_inv in E as (c & Hc & E).
  fold (employeeDocument now nd) in E.
  destruct (isValid (validateReferentialIntegrity db _ _)) eqn:Href;
    [|injection E as <- <-; by left].
  destruct (isValid c) eqn:Hvalid; [|injection E as <- <-; by left].
  cbn [negb] in E.
  destruct (onInsert EmployeeModel (employees db) (employeeDocument now nd));
    [discriminate E|].
  injection E as <- <-. right. by exists nd, c.
Qed.

Lemma mkCheck_valid l : isValid (mkCheck l) = true → l = [].
Proof. unfold mkCheck. cbn. by destruct l. Qed.

Lemma findOne_ext (q q' : Obj → bool) coll :
  (∀ d, q d = q' d) → findOne q coll = findOne q' coll.
Proof.
  intros Hq. unfold findOne. induction coll as [|d coll IH]; [done|].
  cbn. by rewrite Hq, IH.
Qed.

Lemma bool_decide_is_Some_false {A} (o : option A) :
  bool_decide (is_Some o) = false → o = None.
Proof. destruct o; [|done]. by rewrite bool_decide_eq_true_2. Qed.

Lemma bool_decide_is_Some_true {A} (o : option A) :
  bool_decide (is_Some o) = true → is_Some o.
Proof. by intros ?%bool_decide_eq_true_1. Qed.

Lemma createEmployee_created db now body :
  status (fst (createEmployee db now body)) = 201 →
  ∃ nd,
    let e := employeeDocument now nd in
    createEmployee db now body
    = (respond 201
         [("success", JBool true);
          ("message", JStr "Employee created successfully");
          ("data",
           JObj (set "email"
                   (getUserEmailById (withEmployees db (employees db ++ [e]))
                      (get e "userId"))
                   (transformEmployeeResponse e)));
          timestamp now],
       withEmployees db (employees db ++ [e]))
    ∧ is_Some (findOne (fieldEq "id" (get e "companyId")) (companies db))
    ∧ (truthy (get e "userId") = true →
       is_Some (findOne (fieldEq "id" (get e "userId")) (users db)))
    ∧ findOne (fieldEq "id" (get e "id")) (employees db) = None
    ∧ (truthy (get e "employeeCode") = true →
       findOne (fieldEq "employeeCode" (get e "employeeCode")) (employees db) = None)
    ∧ truthy (get e "status") = true.
Proof.
  intros Hok.
  destruct (createEmployee_inv db now body)
    as [[Hne _]|(nd & c & Hval & Hnorm & Href & Hc & Hvalid & Hres)]; [done|].
  exists nd. cbv zeta. split; [done|].
  assert (get (employeeDocument now nd) "id" = get nd "id") as ->
    by (unfold employeeDocument; obj_get).
  assert (get (employeeDocument now nd) "companyId" = get nd "companyId") as ->
    by (unfold employeeDocument; obj_get).
  assert (get (employeeDocument now nd) "employeeCode" = get nd "employeeCode") as ->
    by (unfold employeeDocument; obj_get).
  assert (get (employeeDocument now nd) "userId" = jsOr (get nd "userId") JNull) as ->
    by (unfold employeeDocument; obj_get).
  assert (get (employeeDocument now nd) "status"
          = jsOr (get nd "status") (JStr "ACTIVE")) as ->
    by (unfold employeeDocument; obj_get).
  apply mkCheck_valid in Href.
  apply pushIf_nil in Href as [Huser Href]. apply pushIf_nil in Href as [Hcompany _].
  apply negb_false_iff, bool_decide_is_Some_true in Hcompany.
  unfold checkEmployeeUniqueness in Hc. cbn [truthy] in Hc.
  apply bind_Ok_inv in Hc as (byCode & HbyCode & [= <-]).
  apply mkCheck_valid in Hvalid.
  apply pushIf_nil in Hvalid as [Hcode Hvalid]. apply pushIf_nil in Hvalid as [Hid _].
  apply bool_decide_is_Some_false in Hid, Hcode.
  split; [done|]. split; [|split; [done|split]].
  - unfold jsOr. destruct (truthy (get nd "userId")) eqn:Ht; [|done].
    intros _. cbn [andb] in Huser.
    by apply negb_false_iff, bool_decide_is_Some_true in Huser.
  - intros Ht. rewrite Ht in HbyCode.
    destruct (normalizeEmployeeData_code _ _ _ Hnorm Ht) as [s Hs].
    rewrite Hs in HbyCode |- *. cbn [jsTrim strMethod mbind result_bind rbind] in HbyCode.
    injection HbyCode as HbyCode. rewrite trim_idem in HbyCode. subst byCode.
    rewrite <- Hcode. apply findOne_ext. intros d. by rewrite andb_true_r.
  - unfold jsOr. by destruct (truthy (get nd "status")) eqn:Ht.
Qed.

(** X10: when POST /api/employees answers 201, exactly one document has
    been appended to the employees and nothing else has changed. The new
    employee references a stored company, and a stored user when it has a
    user id; no employee stored before has its id, and none has its
    employee code when that code is not empty; its status is set. *)
Theorem createEmployee_stores_a_fresh_employee db now body :
  status (fst (createEmployee db now body)) = 201 →
  ∃ e, snd (createEmployee db now body) = withEmployees db (employees db ++ [e])
       ∧ is_Some (findOne (fieldEq "id" (get e "companyId")) (companies db))
       ∧ (truthy (get e "userId") = true →
          is_Some (findOne (fieldEq "id" (get e "userId")) (users db)))
       ∧ findOne (fieldEq "id" (get e "id")) (employees db) = None
       ∧ (truthy (get e "employeeCode") = true →
          findOne (fieldEq "employeeCode" (get e "employeeCode")) (employees db) = None)
       ∧ truthy (get e "status") = true.
Proof.
  intros Hok. destruct (createEmployee_created db now body Hok) as (nd & Hres & Hrest).
  exists (employeeDocument now nd). split; [by rewrite Hres|exact Hrest].
Qed.

Lemma find_app_None {A} (q : A → bool) l x :
  List.find q l = None → q x = true → List.find q (l ++ [x]) = Some x.
Proof.
  intros Hnone Hx. induction l as [|y l IH]; cbn in *; [by rewrite Hx|].
  destruct (q y); [done|]. by apply IH.
Qed.

Lemma transformEmployeeResponse_version employee :
  transformEmployeeResponse (delete "__v" employee) = transformEmployeeResponse employee.
Proof.
  unfold transformEmployeeResponse, get. by rewrite !lookup_delete_ne.
Qed.

(** X11: an employee that POST /api/employees has just created is the one
    that GET /api/employees/:id returns for its id, with the same data as
    the answer to the creation, provided that the id is positive, which is
    what the [/:id] route accepts. *)
Theorem created_employee_can_be_read db now now' payload data z idParam :
  status (fst (createEmployee db now payload)) = 201 →
  dataOf (fst (createEmployee db now payload)) = JObj data →
  get data "id" = JNum (Fin z) → 0 < z →
  parseIntStr idParam = Fin z →
  getEmployeeById (snd (createEmployee db now payload)) now' idParam
  = respond 200 [("success", JBool true); ("data", JObj data); timestamp now'].
Proof.
  intros Hok Hdata Hid Hz Hparam.
  destruct (createEmployee_created db now payload Hok)
    as (nd & Hres & _ & _ & Hfresh & _).
  rewrite Hres in Hdata |- *. cbn [snd]. cbn [fst] in Hdata.
  unfold dataOf, respond in Hdata. cbn [body] in Hdata.
  unfold obj at 1 in Hdata. cbn [list_to_map foldr] in Hdata.
  unfold get at 1 in Hdata.
  rewrite lookup_insert_ne, lookup_insert_ne, lookup_insert_eq in Hdata by done.
  injection Hdata as <-.
  assert (get (employeeDocument now nd) "id" = JNum (Fin z)) as Heid.
  { rewrite <- Hid. rewrite get_set_ne by done.
    unfold transformEmployeeResponse. by obj_get. }
  unfold getEmployeeById, positiveId. rewrite Hparam.
  destruct (Z.leb_spec z 0); [lia|].
  cbn [employees withEmployees]. unfold findOne.
  rewrite (find_app_None _ _ (employeeDocument now nd)).
  - rewrite transformEmployeeResponse_version.
    assert (get (delete "__v" (employeeDocument now nd)) "userId"
            = get (employeeDocument now nd) "userId") as ->
      by (unfold get; by rewrite lookup_delete_ne).
    done.
  - rewrite <- Heid. apply Hfresh.
  - unfold fieldEq. rewrite Heid. cbn. apply Z.eqb_refl.
Qed.

Lemma positiveId_Some idParam z :
  positiveId idParam = Some z → parseIntStr idParam = Fin z ∧ 0 < z.
Proof.
  unfold positiveId. destruct (parseIntStr idParam) as [|n]; [done|].
  destruct (Z.leb_spec n 0); [done|]. intros [= <-]. split; [done|lia].
Qed.

Lemma singleton_update k v (stored : Obj) : obj [(k, v)] ∪ stored = set k v stored.
Proof.
  unfold obj, set. cbn [list_to_map foldr].
  by rewrite <- insert_union_l, (left_id_L ∅ (∪)).
Qed.

(** X12: when PATCH /api/employees/:id/status answers 200, the status of
    the request body is a string whose upper-case form is one of 'ACTIVE',
    'INACTIVE', 'SUSPENDED', and the first stored employee with that id has
    been replaced in place by an employee with that upper-case status. No
    other employee has changed, and no other property of that employee,
    [updatedAt] apart, which the handler does not write but the time stamps
    of a schema maintain. *)
Theorem updateEmployeeStatus_sets_the_status_only db now id payload :
  status (fst (updateEmployeeStatus db now id payload)) = 200 →
  ∃ before stored after s updated,
    employees db = before ++ stored :: after
    ∧ fieldEq "id" (JNum (parseIntStr id)) stored = true
    ∧ Forall (fun d => fieldEq "id" (JNum (parseIntStr id)) d = false) before
    ∧ get payload "status" = JStr s
    ∧ In (toUpperCase s) employeeStatuses
    ∧ snd (updateEmployeeStatus db now id payload)
      = withEmployees db (before ++ updated :: after)
    ∧ get updated "status" = JStr (toUpperCase s)
    ∧ ∀ k, k ≠ "status" → k ≠ "updatedAt" → updated !! k = stored !! k.
Proof.
  intros Hok. unfold updateEmployeeStatus in *.
  destruct (updateEmployeeStatusTry db now id payload) as [[r db']|e] eqn:E;
    cbn [fst snd] in *; [|discriminate Hok].
  unfold updateEmployeeStatusTry in E.
  destruct (positiveId id) as [z|] eqn:Hid; [|injection E as <- <-; discriminate Hok].
  apply positiveId_Some in Hid as [Hid Hz]. rewrite Hid.
  apply bind_Ok_inv in E as (valid & Hvalid & E).
  destruct valid; cbn [negb] in E; [|injection E as <- <-; discriminate Hok].
  destruct (truthy (get payload "status")) eqn:Ht; [|discriminate Hvalid].
  cbn [negb] in Hvalid.
  apply bind_Ok_inv in Hvalid as (u & Hu & [= Hmember]).
  rewrite Hu in E. cbn [mbind result_bind rbind] in E.
  destruct (get payload "status") as [| | | |s| | |] eqn:Hs; try discriminate Hu.
  injection Hu as <-.
  destruct (findOne (fieldEq "id" (JNum (Fin z))) (employees db)) as [stored|] eqn:Hfind;
    [|injection E as <- <-; discriminate Hok].
  injection E as <- <-.
  destruct (updateFirst_split _ (obj [("status", JStr (toUpperCase s))]) _ _ Hfind)
    as (before & after & Hcoll & Hsel & Hbefore & Hupd).
  exists before, stored, after, s, (set "status" (JStr (toUpperCase s)) stored).
  repeat (split; [done|]). split; [|split; [|split]].
  - change (existsb (String.eqb (toUpperCase s)) employeeStatuses = true) in Hmember.
    apply existsb_exists in Hmember as (x & Hin & ->%String.eqb_eq). done.
  - f_equal. etrans; [exact Hupd|]. by rewrite singleton_update.
  - apply get_set_eq.
  - intros k Hk _. unfold set. by rewrite lookup_insert_ne.
Qed.

Lemma fieldEq_number k z d : fieldEq k (JNum (Fin z)) d = true ↔ get d k = JNum (Fin z).
Proof.
  unfold fieldEq, queryEq. split.
  - destruct (get d k) as [| | |[|n]| | | |]; try done. by intros ->%Z.eqb_eq.
  - intros ->. apply Z.eqb_refl.
Qed.

Lemma find_deleteFirst_unique (q : Obj → bool) (key : Obj → JsValue) v coll :
  (∀ d, q d = true → key d = v) →
  NoDup (map key coll) →
  List.find q (deleteFirst q coll) = None.
Proof.
  intros Hkey. induction coll as [|d coll IH]; [done|].
  rewrite fmap_cons, NoDup_cons. intros [Hnotin Hnodup]. cbn [deleteFirst].
  destruct (q d) eqn:Hd.
  - apply find_none_all. intros x Hin. destruct (q x) eqn:Hx; [|done].
    exfalso. apply Hnotin. rewrite (Hkey d Hd), <- (Hkey x Hx).
    apply list_elem_of_fmap_2. by apply list_elem_of_In.
  - cbn [List.find]. rewrite Hd. by apply IH.
Qed.

Lemma length_deleteFirst (q : Obj → bool) coll :
  is_Some (List.find q coll) → S (length (deleteFirst q coll)) = length coll.
Proof.
  induction coll as [|d coll IH]; cbn; [by intros [? ?]|].
  destruct (q d); [done|]. intros H. cbn. by rewrite IH.
Qed.

(** X13: when the stored employees have pairwise distinct ids, an employee
    that DELETE /api/employees/:id has deleted can no longer be read: the
    collection has one document less, and GET /api/employees/:id for the
    same parameter answers 404. *)
Theorem deleted_employee_is_gone db now now' id :
  NoDup (map (fun d => get d "id") (employees db)) →
  status (fst (deleteEmployee db now id)) = 200 →
  S (length (employees (snd (deleteEmployee db now id)))) = length (employees db)
  ∧ status (getEmployeeById (snd (deleteEmployee db now id)) now' id) = 404.
Proof.
  intros Hnodup Hok. unfold deleteEmployee, getEmployeeById in *.
  destruct (positiveId id) as [z|] eqn:Hid; [|discriminate Hok].
  destruct (findOne (fieldEq "id" (JNum (Fin z))) (employees db)) as [stored|] eqn:Hfind;
    [|discriminate Hok].
  cbn [snd employees withEmployees]. split.
  - apply length_deleteFirst. unfold findOne in Hfind. rewrite Hfind. by eexists.
  - unfold findOne.
    rewrite (find_deleteFirst_unique _ (fun d => get d "id") (JNum (Fin z))); [done| |done].
    intros d. apply fieldEq_number.
Qed.

(** ** Requests that do not succeed *)

Lemma createEmployee_frame db now payload :
  status (fst (createEmployee db now payload)) ≠ 201 →
  snd (createEmployee db now payload) = db.
Proof.
  intros Hne. destruct (createEmployee_inv db now payload) as [[_ ?]|(? & ? & H)]; [done|].
  destruct H as (_ & _ & _ & _ & _ & Hres). by rewrite Hres in Hne.
Qed.

Lemma updateEmployee_frame db now id payload :
  status (fst (updateEmployee db now id payload)) ≠ 200 →
  snd (updateEmployee db now id payload) = db.
Proof.
  unfold updateEmployee.
  destruct (updateEmployeeTry db now id payload) as [[r db']|e] eqn:E; cbn [fst snd];
    [|done].
  unfold updateEmployeeTry in E. unbind E. branches E; injection E as <- <-; done.
Qed.

Lemma createTask_frame db now payload :
  status (fst (createTask db now payload)) ≠ 201 →
  snd (createTask db now payload) = db.
Proof.
  unfold createTask.
  destruct (createTaskTry db now payload) as [[r db']|e] eqn:E; cbn [fst snd]; [|done].
  unfold createTaskTry in E. unbind E. branches E; injection E as <- <-; done.
Qed.

Lemma updateTask_frame db now id payload :
  status (fst (updateTask db now id payload)) ≠ 200 →
  snd (updateTask db now id payload) = db.
Proof.
  unfold updateTask.
  destruct (updateTaskTry db now id payload) as [[r db']|e] eqn:E; cbn [fst snd]; [|done].
  unfold updateTaskTry in E. unbind E. branches E; injection E as <- <-; done.
Qed.

Lemma createUser_frame db now payload :
  status (fst (createUser db now payload)) ≠ 201 →
  snd (createUser db now payload) = db.
Proof.
  unfold createUser.
  destruct (createUserTry db now payload) as [[r db']|e] eqn:E; cbn [fst snd]; [|done].
  unfold createUserTry in E. unbind E. branches E; injection E as <- <-; done.
Qed.

Lemma updateUser_frame db now id payload :
  status (fst (updateUser db now id payload)) ≠ 200 →
  snd (updateUser db now id payload) = db.
Proof.
  unfold updateUser.
  destruct (updateUserTry db now id payload) as [[r db']|e] eqn:E; cbn [fst snd]; [|done].
  unfold updateUserTry in E. unbind E. branches E; injection E as <- <-; done.
Qed.

Lemma updateEmployeeStatus_frame db now id payload :
  status (fst (updateEmployeeStatus db now id payload)) ≠ 200 →
  snd (updateEmployeeStatus db now id payload) = db.
Proof.
  unfold updateEmployeeStatus.
  destruct (updateEmployeeStatusTry db now id payload) as [[r db']|e] eqn:E;
    cbn [fst snd]; [|done].
  unfold updateEmployeeStatusTry in E. unbind E. branches E; injection E as <- <-; done.
Qed.

(** X14: a request that the application answers with a status other than
    200 and 201 leaves the database exactly as it was, for every route but
    one: the creation of materials from an array saves the elements one by
    one, and answers 400 when one of them is refused, whatever it has stored
    of the others. Every other handler writes at one place only, after all
    its checks, and answers 200 or 201 from there. *)
Theorem unsuccessful_requests_write_nothing db now req :
  writesOnce req = true →
  status (fst (app db now req)) ≠ 200 →
  status (fst (app db now req)) ≠ 201 →
  snd (app db now req) = db.
Proof.
  intros Honce H200 H201. destruct req; cbn [app fst snd] in *; try done;
    lazymatch goal with
    | |- snd (createEmployee _ _ _) = _ => by apply createEmployee_frame
    | |- snd (updateEmployee _ _ _ _) = _ => by apply updateEmployee_frame
    | |- snd (updateEmployeeStatus _ _ _ _) = _ => by apply updateEmployeeStatus_frame
    | |- snd (deleteEmployee _ _ _) = _ =>
        unfold deleteEmployee in *; by repeat case_match
    | |- snd (createProject _ _ _) = _ => apply createProject_never_persists
    | |- snd (updateProject ?d ?n ?i ?b) = _ =>
        destruct (updateProject_inv d n i b) as [[_ ?]|(? & ? & ? & H)]; [done|];
        destruct H as (_ & _ & _ & _ & _ & Hres); by rewrite Hres in H200
    | |- snd (deleteProject _ _) = _ =>
        unfold deleteProject in *; by repeat case_match
    | |- snd (createTask _ _ _) = _ => by apply createTask_frame
    | |- snd (updateTask _ _ _ _) = _ => by apply updateTask_frame
    | |- snd (deleteTask _ _) = _ => unfold deleteTask in *; by repeat case_match
    | |- snd (createUser _ _ _) = _ => by apply createUser_frame
    | |- snd (updateUser _ _ _ _) = _ => by apply updateUser_frame
    | |- snd (deleteUser _ _) = _ => unfold deleteUser in *; by repeat case_match
    | |- snd (createMaterial _ ?b) = _ =>
        unfold createMaterial in *;
        destruct b as [| | | | | |docs|doc]; try done; by destruct (onInsert _ _ _)
    | |- snd (updateMaterial _ _ _) = _ =>
        unfold updateMaterial in *; by repeat case_match
    | |- snd (deleteMaterial _ _) = _ =>
        unfold deleteMaterial in *; by repeat case_match
    end.
Qed.

(** ** Tasks: validation, creation, lookup and deletion *)

Lemma andb_negb_false a b : (a && negb b)%bool = false → a = true → b = true.
Proof. by destruct a, b. Qed.

(** X15: [validateTaskInput] reports no violation exactly for the payloads
    in which [companyId] and [projectId] are truthy and numeric, [taskName]
    is truthy, [taskType] is one of the nine task types, [startDate] and
    [endDate] are valid dates when truthy, the end is after the start when
    both are given, and [status], when truthy, is one of the four task
    statuses. *)
Theorem validateTaskInput_accepts_exactly data :
  validateTaskInput data = [] ↔
    (truthy (get data "companyId") = true ∧ isNaN (get data "companyId") = false)
    ∧ (truthy (get data "projectId") = true ∧ isNaN (get data "projectId") = false)
    ∧ truthy (get data "taskName") = true
    ∧ includes taskTypes (get data "taskType") = true
    ∧ (truthy (get data "startDate") = true → invalidDate (get data "startDate") = false)
    ∧ (truthy (get data "endDate") = true → invalidDate (get data "endDate") = false)
    ∧ (truthy (get data "startDate") = true → truthy (get data "endDate") = true →
       dateLe (newDate (get data "endDate")) (newDate (get data "startDate")) = false)
    ∧ (truthy (get data "status") = true →
       includes taskStatuses (get data "status") = true).
Proof.
  split.
  - intros H. unfold validateTaskInput in H.
    apply pushIf_nil in H as [Htype H]. apply pushIf_nil in H as [Hstatus H].
    apply pushIf_nil in H as [Horder H]. apply pushIf_nil in H as [Hend H].
    apply pushIf_nil in H as [Hstart H]. apply pushIf_nil in H as [Hproject H].
    apply pushIf_nil in H as [Hcompany H]. apply pushIf_nil in H as [Htype' H].
    apply pushIf_nil in H as [Hname H]. apply pushIf_nil in H as [Hproject' H].
    apply pushIf_nil in H as [Hcompany' _].
    apply negb_false_iff in Htype', Hname, Hproject', Hcompany'.
    rewrite Hcompany' in Hcompany. rewrite Hproject' in Hproject.
    rewrite Htype' in Htype. cbn in Hcompany, Hproject, Htype.
    apply negb_false_iff in Htype.
    repeat split; try done.
    + intros Ht. by rewrite Ht in Hstart.
    + intros Ht. by rewrite Ht in Hend.
    + intros Hs He. by rewrite Hs, He in Horder.
    + intros Ht. by apply (andb_negb_false _ _ Hstatus).
  - intros ((Hco & Hcon) & (Hpr & Hprn) & Hname & Htype & Hstart & Hend & Horder & Hstatus).
    assert (truthy (get data "taskType") = true) as Htt.
    { apply (includes_truthy taskTypes); [|done]. by repeat constructor. }
    unfold validateTaskInput. rewrite Hco, Hcon, Hpr, Hprn, Hname, Htt, Htype.
    assert (truthy (get data "startDate") && invalidDate (get data "startDate")
            = false)%bool as ->.
    { destruct (truthy (get data "startDate")); [by rewrite Hstart|done]. }
    assert (truthy (get data "endDate") && invalidDate (get data "endDate")
            = false)%bool as ->.
    { destruct (truthy (get data "endDate")); [by rewrite Hend|done]. }
    assert (truthy (get data "startDate") && truthy (get data "endDate")
            && dateLe (newDate (get data "endDate")) (newDate (get data "startDate"))
            = false)%bool as ->.
    { destruct (truthy (get data "startDate")), (truthy (get data "endDate"));
        try done. by rewrite Horder. }
    assert (truthy (get data "status")
            && negb (includes taskStatuses (get data "status")) = false)%bool as ->.
    { destruct (truthy (get data "status")); [by rewrite Hstatus|done]. }
    done.
Qed.

Lemma deleteFirst_split q coll (stored : Obj) :
  findOne q coll = Some stored →
  ∃ before after,
    coll = before ++ stored :: after
    ∧ q stored = true
    ∧ Forall (fun d => q d = false) before
    ∧ deleteFirst q coll = before ++ after.
Proof.
  unfold findOne. induction coll as [|d coll IH]; [done|]. cbn.
  destruct (q d) eqn:Hd.
  - intros [= <-]. by exists [], coll.
  - intros Hfind. destruct (IH Hfind) as (before & after & -> & Hq & Hall & Hdel).
    exists (d :: before), after. repeat split; [done|by constructor|].
    by rewrite Hdel.
Qed.

(** X16: when DELETE /api/tasks/:id answers 200, exactly one task has been
    removed: the first stored task that the parameter selects (by numeric
    [id] for a parameter of digits, by [_id] otherwise). The tasks before
    and after it are kept in their order, and the answer carries the removed
    task. *)
Theorem deleteTask_removes_one_task db id :
  status (fst (deleteTask db id)) = 200 →
  ∃ before deleted after,
    tasks db = before ++ deleted :: after
    ∧ taskSelector id deleted = true
    ∧ Forall (fun d => taskSelector id d = false) before
    ∧ snd (deleteTask db id) = withTasks db (before ++ after)
    ∧ dataOf (fst (deleteTask db id)) = JObj deleted.
Proof.
  intros Hok. unfold deleteTask in *.
  destruct (castTaskId id); [discriminate Hok|].
  destruct (findOne (taskSelector id) (tasks db)) as [deleted|] eqn:Hfind;
    [|discriminate Hok].
  destruct (deleteFirst_split _ _ _ Hfind) as (before & after & Hcoll & Hsel & Hall & Hdel).
  exists before, deleted, after. cbn [fst snd]. rewrite Hdel.
  by repeat split.
Qed.

(** What [createTask] does, by the status of its answer. *)
Lemma createTask_inv db now payload :
  (status (fst (createTask db now payload)) ≠ 201
   ∧ snd (createTask db now payload) = db)
  ∨ (∃ nd,
       let task := set "updatedAt" (JDate (Some now)) (assignTaskId db nd) in
       let db' := withTasks db (tasks db ++ [task]) in
       validateTaskInput payload = []
       ∧ normalizeTaskData now payload = Ok nd
       ∧ createTask db now payload
         = (respond 201 [("success", JBool true);
                         ("message", JStr "Task created successfully");
                         ("data", JObj (withDetails db' task))], db')).
Proof.
  unfold createTask.
  destruct (createTaskTry db now payload) as [[r db']|e] eqn:E; cbn [fst snd].
  2: { left. by destruct e. }
  unfold createTaskTry in E.
  destruct (Nat.ltb 0 (length (validateTaskInput payload))) eqn:Hlen;
    [injection E as <- <-; by left|].
  apply length_zero_nil in Hlen.
  apply bind_Ok_inv in E as (nd & Hnorm & E).
  destruct (isValid (validateReferentialIntegrityTask db _ _));
    [|injection E as <- <-; by left].
  cbn [negb] in E.
  destruct (onInsert TaskModel (tasks db) _); [discriminate E|].
  injection E as <- <-. right. by exists nd.
Qed.

Lemma maximum_upper l m z : maximum l = Some m → In z l → z ≤ m.
Proof.
  revert m. induction l as [|x l IH]; intros m Hm Hin; [done|].
  unfold maximum in Hm. cbn [foldr] in Hm. fold (maximum l) in Hm.
  destruct (maximum l) as [m'|] eqn:E; injection Hm as <-;
    destruct Hin as [->|Hin]; try lia.
  - specialize (IH m' eq_refl Hin). lia.
  - destruct l as [|y l]; [done|]. unfold maximum in E. cbn [foldr] in E.
    by destruct (foldr _ _ _).
Qed.

Lemma maxIdPlusOne_fresh coll d z :
  In d coll → idOf d = Some z → z < maxIdPlusOne coll.
Proof.
  intros Hin Hid. unfold maxIdPlusOne.
  assert (In z (omap idOf coll)) as Hz.
  { apply list_elem_of_In, list_elem_of_omap. exists d.
    split; [by apply list_elem_of_In|done]. }
  destruct (maximum (omap idOf coll)) as [m|] eqn:Hm.
  - pose proof (maximum_upper _ _ _ Hm Hz). lia.
  - destruct (omap idOf coll) as [|y l]; [done|].
    unfold maximum in Hm. cbn [foldr] in Hm. by destruct (foldr _ _ _).
Qed.

(** X17: a task that POST /api/tasks has created under a generated id can
    be read back. When the payload brings no id and the stored tasks carry
    whole-number ids below 2^53 in magnitude (so that the generated id, the
    greatest stored id plus 1, is exact in binary64 and differs from every
    stored id), GET /api/tasks/:id with the decimal digits of the new id
    answers 200 with the data that the creation answered. *)
Theorem created_task_can_be_read db now payload idParam :
  status (fst (createTask db now payload)) = 201 →
  truthy (get payload "id") = false →
  Forall safeId (tasks db) →
  allDigits idParam = true →
  parseIntAutoStr idParam = Fin (maxIdPlusOne (tasks db)) →
  status (getTaskById (snd (createTask db now payload)) idParam) = 200
  ∧ dataOf (getTaskById (snd (createTask db now payload)) idParam)
    = dataOf (fst (createTask db now payload)).
Proof.
  intros Hok Hfalsy Hids Hdigits Hparam.
  destruct (createTask_inv db now payload) as [[Hne _]|(nd & Hres)]; [done|].
  cbv zeta in Hres. destruct Hres as (_ & Hnorm & Hres). rewrite Hres. cbn [fst snd].
  set (task := set "updatedAt" (JDate (Some now)) (assignTaskId db nd)).
  assert (get task "id" = JNum (Fin (maxIdPlusOne (tasks db)))) as Hid.
  { unfold task. rewrite get_set_ne by done. unfold assignTaskId.
    rewrite (get_lookup payload nd "id") by (by eapply normalizeTaskData_id).
    rewrite Hfalsy. cbn [negb]. rewrite get_set_eq. by apply nextId_spec. }
  unfold getTaskById, castTaskId, taskSelector. rewrite Hdigits, Hparam.
  cbn [tasks withTasks]. unfold findOne.
  rewrite (find_app_None _ _ task).
  - split; [done|]. unfold dataOf, respond. cbn [body]. by obj_get.
  - apply find_none_all. intros d Hin.
    destruct (fieldEq "id" (JNum (Fin (maxIdPlusOne (tasks db)))) d) eqn:Hd; [|done].
    apply fieldEq_number in Hd.
    assert (idOf d = Some (maxIdPlusOne (tasks db))) as Hidof
      by (unfold idOf; by rewrite Hd).
    pose proof (maxIdPlusOne_fresh _ _ _ Hin Hidof). lia.
  - by apply fieldEq_number.
Qed.

(** ** Tasks: the listings *)

Lemma findPage_spec query skip limit coll :
  0 ≤ skip →
  findPage query skip limit coll
  = Ok (take (Z.to_nat (Z.abs limit))
          (drop (Z.to_nat skip) (sortDocs taskBefore (List.filter query coll)))).
Proof. intros Hskip. unfold findPage. by destruct (Z.ltb_spec skip 0); [lia|]. Qed.

Lemma findPage_ext (g h : Obj → bool) skip limit coll :
  (∀ d, g d = h d) → findPage g skip limit coll = findPage h skip limit coll.
Proof. intros Hext. unfold findPage. by rewrite (List.filter_ext g h). Qed.

Lemma dataOf_respond code first v rest :
  first ≠ "data" →
  dataOf (respond code ((first, JBool true) :: ("data", v) :: rest)) = v.
Proof.
  intros Hne. unfold dataOf, respond. cbn [body]. rewrite get_obj_cons.
  case_decide; [done|]. rewrite get_obj_cons. by case_decide.
Qed.

(** The answer of [getAllTasks] to a query string whose filters are well
    formed and whose page lies in the result. *)
Lemma getAllTasks_page db q f :
  taskListQuery q = Ok f →
  0 ≤ (parseIntOr (get q "page") 1 - 1) * parseIntOr (get q "limit") 1000 →
  status (getAllTasks db q) = 200
  ∧ dataOf (getAllTasks db q)
    = docArray (map (withDetails db)
                  (take (Z.to_nat (Z.abs (parseIntOr (get q "limit") 1000)))
                     (drop (Z.to_nat ((parseIntOr (get q "page") 1 - 1)
                                      * parseIntOr (get q "limit") 1000))
                        (matchingTasks db f)))).
Proof.
  intros Hf Hskip. unfold getAllTasks, getAllTasksTry.
  rewrite Hf. cbn [mbind result_bind rbind].
  rewrite findPage_spec by done. cbn [mbind result_bind rbind].
  split; [done|]. by rewrite dataOf_respond.
Qed.

Lemma taskListQuery_agree q1 q2 :
  (∀ k, k ≠ "page" → get q1 k = get q2 k) → taskListQuery q2 = taskListQuery q1.
Proof.
  intros Hagree. unfold taskListQuery.
  by rewrite <- (Hagree "companyId"), <- (Hagree "projectId"), <- (Hagree "status"),
    <- (Hagree "taskType"), <- (Hagree "startDate"), <- (Hagree "endDate").
Qed.

(** X18: consecutive pages of GET /api/tasks neither overlap nor leave a
    task out. For two query strings that differ in [page] only, the second
    asking for the page after the first, with a positive page and a positive
    limit, the tasks of the two answers, one after the other, are the
    stretch of twice the limit of the matching tasks, in the order of the
    listing, that starts where the first page starts. *)
Theorem getAllTasks_pages_are_consecutive db q1 q2 f p l :
  (∀ k, k ≠ "page" → get q1 k = get q2 k) →
  taskListQuery q1 = Ok f →
  parseIntOr (get q1 "limit") 1000 = l → 1 ≤ l →
  parseIntOr (get q1 "page") 1 = p → 1 ≤ p →
  parseIntOr (get q2 "page") 1 = p + 1 →
  ∃ l1 l2,
    dataOf (getAllTasks db q1) = docArray (map (withDetails db) l1)
    ∧ dataOf (getAllTasks db q2) = docArray (map (withDetails db) l2)
    ∧ l1 ++ l2 = take (2 * Z.to_nat l)
                   (drop (Z.to_nat ((p - 1) * l)) (matchingTasks db f)).
Proof.
  intros Hagree Hf Hl Hlpos Hp Hppos Hp2.
  assert (taskListQuery q2 = Ok f) as Hf2 by (by rewrite (taskListQuery_agree q1)).
  assert (parseIntOr (get q2 "limit") 1000 = l) as Hl2
    by (by rewrite <- (Hagree "limit")).
  destruct (getAllTasks_page db q1 f Hf) as [_ ->]; [rewrite Hl, Hp; nia|].
  destruct (getAllTasks_page db q2 f Hf2) as [_ ->]; [rewrite Hl2, Hp2; nia|].
  rewrite Hl, Hp, Hl2, Hp2.
  eexists _, _. split; [done|]. split; [done|].
  rewrite (Z.abs_eq l) by lia.
  replace (Z.to_nat ((p + 1 - 1) * l)) with (Z.to_nat ((p - 1) * l) + Z.to_nat l)%nat
    by nia.
  rewrite <- drop_drop, take_take_drop. f_equal. lia.
Qed.

Lemma toUpperCase_nonempty s l :
  Forall (fun x => x ≠ "") l → existsb (String.eqb (toUpperCase s)) l = true → s ≠ "".
Proof.
  intros Hl (x & Hin & Hx%String.eqb_eq)%existsb_exists ->.
  rewrite List.Forall_forall in Hl. by apply (Hl x Hin).
Qed.

(** X19: GET /api/tasks/status/:status is the listing of GET /api/tasks
    filtered by that status: for a status that is, in upper case, one of the
    four task statuses, and a query string without [taskType], its answer
    has the status code and the tasks of the answer of GET /api/tasks to the
    same query string with [status] set to the parameter. *)
Theorem getTasksByStatus_is_the_filtered_listing db s q :
  existsb (String.eqb (toUpperCase s)) taskStatuses = true →
  truthy (get q "taskType") = false →
  status (getTasksByStatus db s q) = status (getAllTasks db (set "status" (JStr s) q))
  ∧ dataOf (getTasksByStatus db s q)
    = dataOf (getAllTasks db (set "status" (JStr s) q)).
Proof.
  intros Hvalid Htype.
  assert (s ≠ "") as Hs.
  { apply (toUpperCase_nonempty s taskStatuses); [|done]. by repeat constructor. }
  unfold getTasksByStatus, getTasksByStatusTry, getAllTasks, getAllTasksTry,
    taskListQuery.
  rewrite Hvalid. cbn [negb].
  rewrite get_set_eq, !get_set_ne by done. rewrite Htype.
  cbn [truthy]. assert (negb (String.eqb s "") = true) as ->
    by (by apply negb_true_iff, String.eqb_neq).
  cbn [jsToUpperCase strMethod mbind result_bind rbind].
  unfold byParsedId, byStartDateRange.
  match goal with
  | |- context [findPage ?g _ _ (tasks db)] =>
      match goal with
      | |- context [findPage ?h _ _ (tasks db)] =>
          lazymatch h with
          | g => fail
          | _ => assert (∀ d, h d = g d) as Hext
          end
      end
  end.
  { intros d. rewrite andb_true_r.
    destruct (fieldEq "status" (JStr (toUpperCase s)) d);
      destruct (truthy (get q "companyId")), (truthy (get q "projectId"));
      cbn [andb]; rewrite ?andb_true_r, ?andb_false_r; try done.
    all: by repeat match goal with |- context [fieldEq ?k ?v ?x] =>
                     destruct (fieldEq k v x) end. }
  rewrite (findPage_ext _ _ _ _ _ Hext), (List.filter_ext _ _ Hext).
  destruct (findPage _ _ _ _) as [found|e]; cbn [mbind result_bind rbind].
  - split; [done|]. by rewrite !dataOf_respond.
  - done.
Qed.

Lemma In_page {A} (x : A) n m l : In x (take n (drop m l)) → In x l.
Proof.
  intros Hin%list_elem_of_In. apply list_elem_of_In.
  by apply (subseteq_drop m), (subseteq_take n).
Qed.

(** X20: when GET /api/tasks/project/:projectId answers 200, the parameter
    reads as a number which is the id of a stored project, and every task
    listed is a stored task of that project, extended with the name of its
    company and with [projectName] set to the name of that project; no more
    tasks are listed than the limit of the query string (1000 by
    default). *)
Theorem getTasksByProject_lists_tasks_of_the_project db param q :
  status (getTasksByProject db param q) = 200 →
  ∃ z project listed,
    parseIntAutoStr param = Fin z
    ∧ findOne (fieldEq "id" (JNum (Fin z))) (projects db) = Some project
    ∧ dataOf (getTasksByProject db param q) = docArray listed
    ∧ Forall (fun t => get t "projectId" = JNum (Fin z)
                       ∧ get t "projectName" = get project "name"
                       ∧ ∃ stored, In stored (tasks db)
                                   ∧ t = withProjectDetails db project stored) listed
    ∧ (length listed ≤ Z.to_nat (Z.abs (parseIntOr (get q "limit") 1000)))%nat.
Proof.
  intros Hok. unfold getTasksByProject in *.
  destruct (getTasksByProjectTry db param q) as [r|e] eqn:E; [|discriminate Hok].
  unfold getTasksByProjectTry in E.
  destruct (parseIntAutoStr param) as [|z] eqn:Hparam; [discriminate E|].
  cbn [mbind result_bind rbind] in E.
  destruct (findOne (fieldEq "id" (JNum (Fin z))) (projects db)) as [project|] eqn:Hfind.
  2: { injection E as <-. discriminate Hok. }
  apply bind_Ok_inv in E as (byStatus & _ & E).
  apply bind_Ok_inv in E as (byType & _ & E).
  apply bind_Ok_inv in E as (found & Hfound & E).
  injection E as <-.
  unfold findPage in Hfound. destruct (_ <? 0); [discriminate Hfound|].
  injection Hfound as <-.
  eexists z, project, _. split; [done|]. split; [done|].
  split; [by rewrite dataOf_respond|]. split.
  - apply Forall_fmap, Forall_forall. intros t Hin%list_elem_of_In.
    apply In_page in Hin. apply list_elem_of_In in Hin.
    rewrite sortDocs_Permutation in Hin.
    apply list_elem_of_In, List.filter_In in Hin as [Hin Hmatch].
    apply andb_true_iff in Hmatch as [Hmatch _].
    apply andb_true_iff in Hmatch as [Hmatch _].
    apply andb_true_iff in Hmatch as [Hmatch _].
    apply fieldEq_number in Hmatch. cbn.
    split; [|split; [|by exists t]].
    + unfold withProjectDetails. by rewrite !get_set_ne.
    + unfold withProjectDetails. by rewrite get_set_eq.
  - rewrite length_fmap, length_take. lia.
Qed.

(** ** Users *)

Lemma classPlusThen_spec rest s :
  classPlusThen rest s = true ↔
  ∃ p t, s = p +:+ t ∧ emailPart p ∧ rest t = true.
Proof.
  induction s as [|c s IH]; cbn [classPlusThen].
  - split; [done|]. intros (p & t & Hs & [Hp _] & _). by destruct p.
  - rewrite andb_true_iff, orb_true_iff, IH. split.
    + intros [Hc [Hrest|(p & t & -> & [Hp Hall] & Hrest)]].
      * exists (String c ""), s. repeat split; [done|by cbn; rewrite Hc|done].
      * exists (String c p), t. repeat split; [done|by cbn; rewrite Hc|done].
    + intros (p & t & Hs & [Hp Hall] & Hrest). destruct p as [|c' p]; [done|].
      injection Hs as <- ->. cbn [allEmailChars] in Hall.
      apply andb_true_iff in Hall as [Hc Hall]. split; [done|].
      destruct p as [|c'' p]; [by left|right].
      by exists (String c'' p), t.
Qed.

Lemma literalThen_spec c rest s :
  literalThen c rest s = true ↔ ∃ t, s = String c t ∧ rest t = true.
Proof.
  destruct s as [|d s]; cbn [literalThen].
  - split; [done|]. by intros (t & ? & _).
  - rewrite andb_true_iff. split.
    + intros [->%Ascii.eqb_eq Hrest]. by exists s.
    + intros (t & [= -> ->] & Hrest). by rewrite Ascii.eqb_refl.
Qed.

Lemma atEnd_spec s : atEnd s = true ↔ s = "".
Proof. by destruct s. Qed.

Lemma append_empty_r s : s +:+ "" = s.
Proof.
  induction s as [|c s IH]; [done|].
  change (String c s +:+ "") with (String c (s +:+ "")). by rewrite IH.
Qed.

(** The strings that [emailRegex] matches. *)
Lemma emailRegex_spec s :
  emailRegex s = true ↔
  ∃ mailbox host tld,
    s = mailbox +:+ "@" +:+ host +:+ "." +:+ tld
    ∧ emailPart mailbox ∧ emailPart host ∧ emailPart tld.
Proof.
  unfold emailRegex. rewrite classPlusThen_spec. split.
  - intros (mailbox & t & -> & Hmailbox & (t1 & -> & (host & t2 & -> & Hhost
            & (t3 & -> & (tld & t4 & -> & Htld & ->%atEnd_spec)%classPlusThen_spec)
              %literalThen_spec)%classPlusThen_spec)%literalThen_spec).
    exists mailbox, host, tld. rewrite append_empty_r. by split.
  - intros (mailbox & host & tld & -> & Hmailbox & Hhost & Htld).
    exists mailbox, ("@" +:+ host +:+ "." +:+ tld). split; [done|]. split; [done|].
    apply literalThen_spec. exists (host +:+ "." +:+ tld). split; [done|].
    apply classPlusThen_spec. exists host, ("." +:+ tld). split; [done|]. split; [done|].
    apply literalThen_spec. exists tld. split; [done|].
    apply classPlusThen_spec. exists tld, "". rewrite append_empty_r.
    by split.
Qed.

(** X21: a payload that [validateUserInput] accepts carries an e-mail whose
    text is a mailbox, [@], a host, a dot and a top-level part, each of them
    non-empty and free of white space and of [@]; when the e-mail is a
    string it is at most 254 characters long. *)
Theorem validateUserInput_accepts_well_formed_emails data :
  validateUserInput data = Ok [] →
  (∃ mailbox host tld,
     toStringJs (get data "email") = mailbox +:+ "@" +:+ host +:+ "." +:+ tld
     ∧ emailPart mailbox ∧ emailPart host ∧ emailPart tld)
  ∧ (∀ s, get data "email" = JStr s → (String.length s ≤ 254)%nat).
Proof.
  intros H. unfold validateUserInput in H.
  apply bind_Ok_inv in H as (c1 & Hc1 & H).
  apply bind_Ok_inv in H as (c2 & Hc2 & H).
  injection H as H.
  apply pushIf_nil in H as [_ H]. apply pushIf_nil in H as [Hlong H].
  apply pushIf_nil in H as [_ H]. apply pushIf_nil in H as [_ H].
  apply pushIf_nil in H as [Hshape H]. apply pushIf_nil in H as [_ H].
  apply pushIf_nil in H as [_ H]. apply pushIf_nil in H as [Hemail _].
  apply negb_false_iff in Hemail. rewrite Hemail in Hshape, Hlong.
  cbn [andb] in Hshape, Hlong. apply negb_false_iff in Hshape. split.
  - by apply emailRegex_spec.
  - intros s Hs. rewrite Hs in Hlong. unfold gtNumber in Hlong. cbn in Hlong.
    apply Z.ltb_ge in Hlong. lia.
Qed.

Lemma isWhite_lowerChar c : isWhite (lowerChar c) = isWhite c.
Proof. by destruct c as [[] [] [] [] [] [] [] []]. Qed.

Lemma lowerChar_idem c : lowerChar (lowerChar c) = lowerChar c.
Proof. by destruct c as [[] [] [] [] [] [] [] []]. Qed.

Lemma toLowerCase_idem s : toLowerCase (toLowerCase s) = toLowerCase s.
Proof. induction s as [|c s IH]; [done|]. cbn. by rewrite lowerChar_idem, IH. Qed.

Lemma trimStart_toLowerCase s : trimStart (toLowerCase s) = toLowerCase (trimStart s).
Proof.
  induction s as [|c s IH]; [done|]. cbn. rewrite isWhite_lowerChar.
  by destruct (isWhite c).
Qed.

Lemma trimEnd_toLowerCase s : trimEnd (toLowerCase s) = toLowerCase (trimEnd s).
Proof.
  induction s as [|c s IH]; [done|]. cbn. rewrite IH, isWhite_lowerChar.
  destruct (trimEnd s); cbn; [by destruct (isWhite c)|done].
Qed.

Lemma trim_toLowerCase s : trim (toLowerCase s) = toLowerCase (trim s).
Proof. unfold trim. by rewrite trimStart_toLowerCase, trimEnd_toLowerCase. Qed.

Lemma userDefaults_isActive now o :
  get (userDefaults now o) "isActive"
  = JBool (if isUndefined (get o "isActive") then true else truthy (get o "isActive")).
Proof.
  unfold userDefaults.
  destruct (isUndefined (get o "isActive")) eqn:Hu; cbn [negb].
  - destruct (truthy (get o "createdAt"));
      rewrite (get_set_ne "createdAt" "isActive") by done; rewrite Hu;
      by rewrite get_set_eq.
  - destruct (truthy (get (set "isActive" _ o) "createdAt"));
      rewrite (get_set_ne "createdAt" "isActive"), get_set_eq by done; cbn [isUndefined];
      by rewrite get_set_ne, get_set_eq.
Qed.

Lemma userDefaults_createdAt now o :
  get (userDefaults now o) "createdAt"
  = JDate (Some (if truthy (get o "createdAt")
                 then match newDate (get o "createdAt") with
                      | Some t => t
                      | None => now
                      end
                 else now)).
Proof.
  unfold userDefaults.
  set (o1 := if negb (isUndefined (get o "isActive")) then _ else o).
  assert (get o1 "createdAt" = get o "createdAt") as Hc.
  { unfold o1. destruct (negb _); [by rewrite get_set_ne|done]. }
  rewrite Hc.
  destruct (truthy (get o "createdAt"));
    match goal with
    | |- context [if ?c then _ else _] =>
        destruct c; rewrite ?(get_set_ne "isActive" "createdAt") by done
    end; rewrite get_set_eq; by destruct (newDate (get o "createdAt")).
Qed.

Lemma userDefaults_lookup now o k :
  k ≠ "isActive" → k ≠ "createdAt" → userDefaults now o !! k = o !! k.
Proof.
  intros H1 H2. unfold userDefaults, set.
  repeat match goal with
         | |- context [if ?c then _ else _] => destruct c
         end; by rewrite ?lookup_insert_ne.
Qed.

Lemma normalizeUserData_steps now data nd :
  normalizeUserData now data = Ok nd →
  ∃ o1 o2,
    whenTruthy "email" (fun v => l ← jsToLowerCase v; Ok (JStr (trim l)))
      (coerce "id" (fun v => JNum (parseInt v)) data) = Ok o1
    ∧ whenTruthy "name" (fun v => t ← jsTrim v; Ok (JStr (collapseSpaces t))) o1 = Ok o2
    ∧ nd = userDefaults now o2.
Proof.
  intros H. unfold normalizeUserData in H.
  apply bind_Ok_inv in H as (o1 & H1 & H).
  apply bind_Ok_inv in H as (o2 & H2 & H).
  injection H as <-. by exists o1, o2.
Qed.

Lemma normalizeUserData_same data o1 o2 :
  whenTruthy "email" (fun v => l ← jsToLowerCase v; Ok (JStr (trim l)))
    (coerce "id" (fun v => JNum (parseInt v)) data) = Ok o1 →
  whenTruthy "name" (fun v => t ← jsTrim v; Ok (JStr (collapseSpaces t))) o1 = Ok o2 →
  ∀ k, k ≠ "id" → k ≠ "email" → k ≠ "name" → get o2 k = get data k.
Proof.
  intros H1 H2 k ? ? ?. apply get_lookup.
  rewrite (whenTruthy_lookup_ne _ _ _ _ _ H2), (whenTruthy_lookup_ne _ _ _ _ _ H1)
    by done.
  by apply coerce_lookup_ne.
Qed.

(** The [isActive] of the result of [normalizeUserData]. *)
Lemma normalizeUserData_isActive now data nd :
  normalizeUserData now data = Ok nd →
  get nd "isActive"
  = JBool (if isUndefined (get data "isActive") then true
           else truthy (get data "isActive")).
Proof.
  intros H. destruct (normalizeUserData_steps _ _ _ H) as (o1 & o2 & H1 & H2 & ->).
  by rewrite userDefaults_isActive, !(normalizeUserData_same _ _ _ H1 H2).
Qed.

(** X22: the normal forms of [normalizeUserData]. The result always has a
    boolean [isActive], which is [true] when the payload has none and the
    truth value of the payload's otherwise, and a valid date as
    [createdAt], which is the current time unless the payload gives a
    valid one. A truthy e-mail comes out as a trimmed string in lower
    case. *)
Theorem normalizeUserData_normal_forms now data nd :
  normalizeUserData now data = Ok nd →
  get nd "isActive"
  = JBool (if isUndefined (get data "isActive") then true
           else truthy (get data "isActive"))
  ∧ get nd "createdAt"
    = JDate (Some (if truthy (get data "createdAt")
                   then match newDate (get data "createdAt") with
                        | Some t => t
                        | None => now
                        end
                   else now))
  ∧ (truthy (get data "email") = true →
     ∃ s, get nd "email" = JStr s ∧ toLowerCase s = s ∧ trim s = s).
Proof.
  intros H. destruct (normalizeUserData_steps _ _ _ H) as (o1 & o2 & H1 & H2 & ->).
  pose proof (normalizeUserData_same _ _ _ H1 H2) as Hsame.
  rewrite userDefaults_isActive, userDefaults_createdAt, !Hsame by done.
  split; [done|]. split; [done|]. intros Ht.
  destruct (whenTruthy_value _ _ _ _ H1) as (v & Hv & Hget).
  { erewrite get_lookup; [exact Ht|]. by apply coerce_lookup_ne. }
  apply bind_Ok_inv in Hv as (l & Hl & [= <-]).
  destruct (get (coerce "id" _ data) "email") as [| | | |s| | |]; try discriminate Hl.
  injection Hl as <-. exists (trim (toLowerCase s)). split; [|split].
  - rewrite <- Hget. apply get_lookup. rewrite userDefaults_lookup by done.
    by apply (whenTruthy_lookup_ne _ _ _ _ _ H2).
  - by rewrite <- trim_toLowerCase, toLowerCase_idem.
  - apply trim_idem.
Qed.

(** What [updateUser] does, by the status of its answer. *)
Lemma updateUser_inv db now id payload :
  (status (fst (updateUser db now id payload)) ≠ 200
   ∧ snd (updateUser db now id payload) = db)
  ∨ (∃ z ud stored,
       parseIntStr id = Fin z ∧ 0 < z
       ∧ normalizeUserData now payload = Ok ud
       ∧ findOne (fieldEq "id" (JNum (Fin z))) (users db) = Some stored
       ∧ updateUser db now id payload
         = (respond 200 [("success", JBool true);
                         ("message", JStr "User updated successfully");
                         ("data", JObj (userUpdate now stored ud ∪ stored))],
            withUsers db
              (updateFirst (fieldEq "id" (JNum (Fin z))) (userUpdate now stored ud)
                 (users db)))).
Proof.
  unfold updateUser.
  destruct (updateUserTry db now id payload) as [[r db']|e] eqn:E; cbn [fst snd].
  2: { left. by destruct e. }
  unfold updateUserTry in E.
  destruct (positiveId id) as [z|] eqn:Hid; [|injection E as <- <-; by left].
  apply positiveId_Some in Hid as [Hid Hz].
  apply bind_Ok_inv in E as (ud & Hnorm & E).
  apply bind_Ok_inv in E as (unique & Hunique & E).
  destruct (findOne (fieldEq "id" (JNum (Fin z))) (users db)) as [stored|] eqn:Hfind;
    [|injection E as <- <-; by left].
  destruct (isValid unique); cbn [negb] in E; [|injection E as <- <-; by left].
  fold (userUpdate now stored ud) in E.
  destruct (onUpdate UserModel (users db) (userUpdate now stored ud));
    [discriminate E|].
  injection E as <- <-. right. by exists z, ud, stored.
Qed.

Lemma userUpdate_lookup now stored ud k :
  k ≠ "metadata" → k ≠ "updatedAt" → userUpdate now stored ud !! k = ud !! k.
Proof.
  intros H1 H2. unfold userUpdate, set.
  destruct (existsb _ _); by rewrite !lookup_insert_ne.
Qed.

Lemma userDefaults_has now o k :
  k = "isActive" ∨ k = "createdAt" →
  userDefaults now o !! k = Some (get (userDefaults now o) k).
Proof.
  intros Hk.
  assert (is_Some (userDefaults now o !! k)) as [v Hv]; [|unfold get; by rewrite Hv].
  unfold userDefaults, set. destruct Hk as [-> | ->].
  - destruct (isUndefined (get o "isActive")) eqn:Hu; cbn [negb].
    + destruct (truthy (get o "createdAt"));
        rewrite (get_set_ne "createdAt" "isActive") by done; rewrite Hu;
        rewrite lookup_insert_eq; eauto.
    + destruct (truthy (get (<["isActive":=_]> o) "createdAt"));
        match goal with
        | |- context [if ?c then _ else _] => destruct c
        end; rewrite ?lookup_insert_eq, ?(lookup_insert_ne _ "createdAt" "isActive"),
               ?lookup_insert_eq by done; eauto.
  - repeat match goal with
           | |- context [if ?c then _ else _] => destruct c
           end; rewrite ?(lookup_insert_ne _ "isActive" "createdAt"), ?lookup_insert_eq
             by done; eauto.
Qed.

(** X23: a successful update of a user re-activates it unless the request
    body says otherwise. When PUT /api/users/:id answers 200, the first
    stored user with that id has been replaced in place, and if the body
    has no [isActive], the user is active afterwards, whatever it was
    before: the normaliser, which [updateUser] runs on the body, fills in
    its default. *)
Theorem updateUser_activates_unless_told_otherwise db now id payload :
  status (fst (updateUser db now id payload)) = 200 →
  ∃ before stored after updated,
    users db = before ++ stored :: after
    ∧ fieldEq "id" (JNum (parseIntStr id)) stored = true
    ∧ Forall (fun d => fieldEq "id" (JNum (parseIntStr id)) d = false) before
    ∧ snd (updateUser db now id payload) = withUsers db (before ++ updated :: after)
    ∧ (isUndefined (get payload "isActive") = true →
       get updated "isActive" = JBool true).
Proof.
  intros Hok.
  destruct (updateUser_inv db now id payload)
    as [[Hne _]|(z & ud & stored & Hid & Hz & Hnorm & Hfind & Hres)]; [done|].
  rewrite Hres, Hid. cbn [snd].
  destruct (updateFirst_split _ (userUpdate now stored ud) _ _ Hfind)
    as (before & after & Hcoll & Hsel & Hbefore & Hupd).
  exists before, stored, after, (userUpdate now stored ud ∪ stored).
  repeat (split; [done|]). rewrite Hupd. split; [done|].
  pose proof (normalizeUserData_isActive _ _ _ Hnorm) as Hactive.
  destruct (normalizeUserData_steps _ _ _ Hnorm) as (o1 & o2 & _ & _ & Hud).
  intros Hu. rewrite Hu in Hactive. unfold get at 1.
  erewrite lookup_union_Some_l; [done|].
  rewrite userUpdate_lookup by done.
  subst ud. apply userDefaults_has. by left.
Qed.

(** X24: [checkUserUniqueness] turns the query on the id, when it is given
    an id to exclude, into "any user with another id". So PUT
    /api/users/:id with a body that carries an e-mail is answered 409, with
    a message that the user's own id already exists, as soon as a second
    user is stored, whatever the e-mail; the database is left as it
    was. *)
Theorem updateUser_with_email_conflicts_with_any_other_user
    db now id z payload ud stored other :
  parseIntStr id = Fin z → 0 < z →
  normalizeUserData now payload = Ok ud →
  truthy (get ud "email") = true →
  findOne (fieldEq "id" (JNum (Fin z))) (users db) = Some stored →
  In other (users db) → fieldNe "id" (JNum (Fin z)) other = true →
  ∃ msg, updateUser db now id payload = (refusal 409 msg, db)
         ∧ contains ("User with ID " +:+ numberToString (Fin z) +:+ " already exists")
             msg = true.
Proof.
  intros Hid Hz Hnorm Hemail Hstored Hin Hother.
  assert (∃ s, get ud "email" = JStr s) as [s Hs].
  { destruct (normalizeUserData_steps _ _ _ Hnorm) as (o1 & o2 & H1 & H2 & ->).
    assert (get (userDefaults now o2) "email" = get o1 "email") as Hsame.
    { apply get_lookup. rewrite userDefaults_lookup by done.
      by apply (whenTruthy_lookup_ne _ _ _ _ _ H2). }
    rewrite Hsame in Hemail |- *.
    apply whenTruthy_inv in H1 as [[Hf ->]|(Ht & v & Hv & ->)].
    - by rewrite Hemail in Hf.
    - rewrite get_set_eq. apply bind_Ok_inv in Hv as (l & _ & [= <-]). eauto. }
  assert (truthy (JNum (Fin z)) = true) as Htz.
  { cbn. destruct (Z.eqb_spec z 0); [lia|done]. }
  assert (get (set "updatedAt" (JDate (Some now)) ud) "email" = JStr s) as Hs'
    by (by rewrite get_set_ne).
  assert (truthy (JStr s) = true) as Hts by (by rewrite <- Hs).
  assert (∃ errs, checkUserUniqueness db (JNum (Fin z)) (JStr s) (JNum (Fin z))
                  = Ok (mkCheck errs)
                  ∧ In ("User with ID " +:+ numberToString (Fin z) +:+ " already exists")
                      errs) as (errs & Hc & Hmsg).
  { unfold checkUserUniqueness. rewrite Htz.
    cbn [jsToLowerCase strMethod mbind result_bind rbind]. eexists. split; [done|].
    apply In_pushIf.
    rewrite bool_decide_eq_true_2 by (by eapply find_exists).
    apply In_pushIf_true. }
  exists (join ", " errs). split; [|by apply contains_join].
  unfold updateUser, updateUserTry, positiveId. rewrite Hid.
  destruct (Z.leb_spec z 0); [lia|].
  rewrite Hnorm. cbn [mbind result_bind rbind]. rewrite Hs', Hts, Hc, Hstored.
  cbn [mbind result_bind rbind]. by rewrite (mkCheck_invalid _ _ Hmsg).
Qed.

End Backend.

(** * The properties on examples

    The handlers on the reference platform, with schemas that accept every
    document for the models whose files are absent. *)

Abbreviation refValidateEmployeeInput :=
  (validateEmployeeInput epochDateToString integerStringToNumber).
Abbreviation refNormalizeEmployeeData :=
  (normalizeEmployeeData isoDateParse epochDateToString integerStringToNumber).
Abbreviation refCreateEmployee :=
  (createEmployee isoDateParse epochDateToString integerStringToNumber permissiveModel).
Abbreviation refUpdateEmployee :=
  (updateEmployee isoDateParse epochDateToString integerStringToNumber permissiveModel).
Abbreviation refValidateProjectInput :=
  (validateProjectInput isoDateParse epochDateToString integerStringToNumber).
Abbreviation refNormalizeProjectData :=
  (normalizeProjectData isoDateParse epochDateToString integerStringToNumber
     integerParseFloat).
Abbreviation refCreateProject :=
  (createProject isoDateParse epochDateToString integerStringToNumber integerParseFloat).
Abbreviation refValidateTaskInput :=
  (validateTaskInput isoDateParse epochDateToString integerStringToNumber).
Abbreviation refCreateTask :=
  (createTask isoDateParse epochDateToString integerStringToNumber permissiveModel).
Abbreviation refUpdateTask :=
  (updateTask isoDateParse epochDateToString integerStringToNumber permissiveModel
     hexObjectId).
Abbreviation refGetAllTasks :=
  (getAllTasks isoDateParse epochDateToString integerStringToNumber).
Abbreviation refNormalise :=
  (normalise isoDateParse epochDateToString integerStringToNumber integerParseFloat).
Abbreviation refNewDate :=
  (newDate isoDateParse epochDateToString integerStringToNumber).
Abbreviation refApp :=
  (app isoDateParse epochDateToString integerStringToNumber integerParseFloat
     permissiveModel permissiveModel permissiveModel hexObjectId permissiveModel
     findsNothing countsNothing groupsNothing).
Abbreviation refGetTaskById := (getTaskById hexObjectId) (only parsing).
Abbreviation refDeleteTask := (deleteTask hexObjectId) (only parsing).

(** Closes a conjunction of equations between closed terms by evaluating
    their two sides. *)
Ltac run :=
  repeat match goal with |- _ ∧ _ => split end;
  lazymatch goal with
  | |- @eq ?A ?x ?y => vm_cast_no_check (@eq_refl A y)
  end.

(** C1 fails as stated: the payload passes input validation and names a
    company that does not exist, yet its numeric [phone] makes the
    normaliser throw, and the handler answers 500, not 400. *)
Lemma numeric_phone_is_answered_500 :
  refValidateEmployeeInput numericPhonePayload = Ok []
  ∧ findOne (fieldEq "id" (JNum (Fin 99))) (companies acmeOnly) = None
  ∧ status (fst (refCreateEmployee acmeOnly 1000 numericPhonePayload)) = 500.
Proof. run. Qed.

Lemma createEmployee_dangling_reference_witness :
  refValidateEmployeeInput unknownCompanyPayload = Ok []
  ∧ ∃ msg, refCreateEmployee acmeOnly 1000 unknownCompanyPayload
           = (failure 1000 400 msg, acmeOnly)
           ∧ contains "Company with ID 99 does not exist" msg = true.
Proof.
  split; [run|].
  apply (createEmployee_dangling_reference isoDateParse epochDateToString
           integerStringToNumber permissiveModel acmeOnly 1000
           unknownCompanyPayload unknownCompanyPayload 99).
  - run.
  - run.
  - left. run.
Defined.

(** C2 fails as stated: the code E1 belongs to a stored employee, but the
    payload names a company that does not exist, and the referential check
    is answered first: 400, not 409. *)
Lemma taken_code_under_unknown_company_is_answered_400 :
  refValidateEmployeeInput takenCodeUnknownCompanyPayload = Ok []
  ∧ get (nth 0 (employees twoEmployees) ∅) "employeeCode"
    = get takenCodeUnknownCompanyPayload "employeeCode"
  ∧ status (fst (refCreateEmployee twoEmployees 1000 takenCodeUnknownCompanyPayload))
    = 400.
Proof. run. Qed.

Lemma createEmployee_conflict_witness :
  refValidateEmployeeInput takenCodePayload = Ok []
  ∧ ∃ msg, refCreateEmployee twoEmployees 1000 takenCodePayload
           = (failure 1000 409 msg, twoEmployees).
Proof.
  split; [run|].
  apply (createEmployee_conflict isoDateParse epochDateToString
           integerStringToNumber permissiveModel twoEmployees 1000
           takenCodePayload takenCodePayload
           (obj [("id", JNum (Fin 1)); ("employeeCode", JStr "E1")])).
  - run.
  - run.
  - run.
  - by left.
  - right. run.
Defined.

Lemma project_with_default_status_is_not_created_witness :
  refValidateProjectInput towerPayload = Ok []
  ∧ status (fst (refCreateProject acmeOnly 1000 towerPayload)) = 500
  ∧ snd (refCreateProject acmeOnly 1000 towerPayload) = acmeOnly.
Proof.
  destruct (project_with_default_status_is_not_created isoDateParse epochDateToString
              integerStringToNumber integerParseFloat acmeOnly 1000
              towerPayload towerNormalised) as (_ & Hdb & _).
  - run.
  - run.
  - run.
  - run.
  - split; [run|]. split; [run|exact Hdb].
Defined.

(** C4 fails as stated: both dates are valid and the end is before the
    start, but the numeric [name] makes the validator throw, and the handler
    answers 500 with a message that does not mention the dates. *)
Lemma numeric_name_hides_the_date_rule :
  refNewDate (get numericNamePayload "startDate") = Some 1704844800000
  ∧ refNewDate (get numericNamePayload "endDate") = Some 1704067200000
  ∧ refCreateProject acmeOnly 1000 numericNamePayload
    = (refusal 500 "Server error during project creation: trim is not a function",
       acmeOnly).
Proof. run. Qed.

Lemma end_date_rule_reported_witness :
  refCreateProject acmeOnly 1000 towerDatesPayload
  = (refusal 400 "End date must be after start date", acmeOnly).
Proof.
  destruct (end_date_rule_reported isoDateParse epochDateToString
              integerStringToNumber integerParseFloat permissiveModel acmeOnly 1000
              towerDatesPayload 1704844800000 1704067200000) as [_ Hproject].
  - repeat (apply Forall_cons_2; [run|]). apply Forall_nil_2.
  - run.
  - run.
  - run.
  - run.
  - lia.
  - destruct (Hproject ["End date must be after start date"]) as (_ & Hanswer & _).
    + run.
    + exact Hanswer.
Defined.

(** No project is stored, so the generated id is 1, but the payload's own
    [id] overrides it in the document built for the new project. *)
Lemma payload_id_overrides_generated_id :
  refNormalizeProjectData ownIdPayload = Ok ownIdNormalised
  ∧ generateNextProjectId epochDateToString acmeOnly = JNum (Fin 1)
  ∧ get (projectDocument 1000 (generateNextProjectId epochDateToString acmeOnly)
           ownIdNormalised
           (generateProjectMetadata isoDateParse epochDateToString
              integerStringToNumber 1000 ownIdNormalised)) "id"
    = JNum (Fin 77).
Proof. run. Qed.

(** C5 fails as stated: the stored task has the id 2^53; the task created
    next is stored under 2^53 again, not under 2^53 + 1, which is no
    binary64 number. *)
Lemma id_after_2_53_is_2_53_again :
  map (fun t => get t "id") (tasks saturatedDb) = [JNum (Fin 9007199254740992)]
  ∧ maxIdPlusOne (tasks saturatedDb) = 9007199254740993
  ∧ status (fst (refCreateTask saturatedDb 1000 pourPayload)) = 201
  ∧ map (fun t => get t "id") (tasks (snd (refCreateTask saturatedDb 1000 pourPayload)))
    = [JNum (Fin 9007199254740992); JNum (Fin 9007199254740992)].
Proof. run. Qed.

(** Ids of whole numbers below 2^53, on examples. *)
Ltac safe_ids :=
  repeat first
    [ apply Forall_nil_2
    | apply Forall_cons_2; [eexists; split; [reflexivity|reflexivity]|] ].

Lemma generated_id_is_max_plus_one_witness :
  generateNextProjectId epochDateToString siteDb = JNum (Fin 8)
  ∧ get (projectDocument 1000 (generateNextProjectId epochDateToString siteDb)
           towerNormalised
           (generateProjectMetadata isoDateParse epochDateToString
              integerStringToNumber 1000 towerNormalised)) "id"
    = JNum (Fin 8)
  ∧ ∃ task, tasks (snd (refCreateTask siteDb 1000 pourPayload)) = tasks siteDb ++ [task]
            ∧ get task "id" = JNum (Fin 10).
Proof.
  destruct (generated_id_is_max_plus_one isoDateParse epochDateToString
              integerStringToNumber integerParseFloat permissiveModel siteDb 1000
              towerPayload towerNormalised) as [Hproject _].
  destruct (generated_id_is_max_plus_one isoDateParse epochDateToString
              integerStringToNumber integerParseFloat permissiveModel siteDb 1000
              pourPayload towerNormalised) as [_ Htask].
  destruct Hproject as [Hnext Hdocument]; [safe_ids|].
  split; [exact Hnext|]. split.
  - apply Hdocument; run.
  - apply Htask; [safe_ids|run|run].
Defined.

(** C6 on the code: employee 1 is updated with its own code E1; because
    employee 2 exists, the answer is 409. *)
Theorem employee_update_keeping_own_code_is_rejected :
  refUpdateEmployee twoEmployees 1000 "1" (obj [("employeeCode", JStr "E1")])
  = (failure 1000 409 "Employee with ID 1 already exists", twoEmployees).
Proof. run. Qed.

(** C7 fails as stated: the first pass turns the digits of 10^22 into the
    number 10^22, the second pass reads the '1' of its string "1e+22". *)
Lemma huge_id_is_renormalised :
  refNormalise TaskNormaliser 0 hugeIdPayload = Ok hugeIdNormalised
  ∧ refNormalise TaskNormaliser 0 hugeIdNormalised = Ok hugeIdNormalisedTwice
  ∧ get hugeIdNormalised "companyId" = JNum (Fin (10 ^ 22))
  ∧ get hugeIdNormalisedTwice "companyId" = JNum (Fin 1).
Proof. run. Qed.

Lemma normalising_twice_changes_nothing_witness :
  refNormalise EmployeeNormaliser 1000 janeDoePayload = Ok janeDoeNormalised
  ∧ refNormalise EmployeeNormaliser 2000 janeDoeNormalised = Ok janeDoeNormalised.
Proof.
  split; [run|].
  apply (normalising_twice_changes_nothing isoDateParse epochDateToString
           integerStringToNumber integerParseFloat EmployeeNormaliser 1000 2000
           janeDoePayload).
  - unfold validTime. lia.
  - run.
  - repeat first [apply Forall_nil_2 | apply Forall_cons_2; [vm_compute; reflexivity|]].
Defined.

(** C8 fails as stated: the 404 handler, the error middleware and the
    materials controller answer without a [success] property. *)
Lemma unmatched_route_has_no_success_flag :
  hasSuccessFlag (fst (refApp acmeOnly 1000 Unmatched)) = false
  ∧ hasSuccessFlag (fst (refApp acmeOnly 1000 MalformedBody)) = false
  ∧ hasSuccessFlag (fst (refApp acmeOnly 1000 GetMaterials)) = false.
Proof. run. Qed.

(** The creation of a task is answered in the envelope, the health check is
    not. *)
Lemma handlers_answer_in_envelope_witness :
  hasSuccessFlag (fst (refApp siteDb 1000 (PostTasks pourPayload))) = true
  ∧ hasSuccessFlag (fst (refApp siteDb 1000 GetHealth)) = false.
Proof.
  split.
  - exact (handlers_answer_in_envelope isoDateParse epochDateToString
             integerStringToNumber integerParseFloat permissiveModel permissiveModel
             permissiveModel hexObjectId permissiveModel findsNothing countsNothing
             groupsNothing
             siteDb 1000 (PostTasks pourPayload)).
  - exact (handlers_answer_in_envelope isoDateParse epochDateToString
             integerStringToNumber integerParseFloat permissiveModel permissiveModel
             permissiveModel hexObjectId permissiveModel findsNothing countsNothing
             groupsNothing
             siteDb 1000 GetHealth).
Defined.

(** C9 fails as stated: 1001 stored tasks are planned, the answer lists
    1000 of them. *)
Lemma page_limit_truncates_listing :
  length (List.filter (fieldEq "status" (JStr "PLANNED")) (tasks manyPlannedTasks))
  = 1001%nat
  ∧ match dataOf (refGetAllTasks manyPlannedTasks {[ "status" := JStr "planned" ]}) with
    | JArr listed => length listed
    | _ => 0%nat
    end = 1000%nat.
Proof. run. Qed.

(** Of the four dated tasks, the three planned ones are listed: the two of
    instant 300 first, the greater id before the smaller, then the one of
    instant 100. *)
Lemma tasks_listed_by_status_witness :
  dataOf (refGetAllTasks datedDb {[ "status" := JStr "planned" ]})
  = docArray (map (withDetails datedDb)
                [datedTask 4 "PLANNED" 300; datedTask 2 "PLANNED" 300;
                 datedTask 1 "PLANNED" 100])
  ∧ StronglySorted newestFirst
      [datedTask 4 "PLANNED" 300; datedTask 2 "PLANNED" 300; datedTask 1 "PLANNED" 100].
Proof.
  destruct (tasks_listed_by_status isoDateParse epochDateToString
              integerStringToNumber datedDb "planned")
    as (listed & _ & Hdata & Hlisted & _ & Hsorted & _).
  - discriminate.
  - assert (listed = [datedTask 4 "PLANNED" 300; datedTask 2 "PLANNED" 300;
                      datedTask 1 "PLANNED" 100]) as Heq.
    { rewrite Hlisted. run. }
    rewrite Heq in Hdata, Hsorted. split; [exact Hdata|exact Hsorted].
Defined.


(** * The further properties on examples *)

Abbreviation refGenerateProjectMetadata :=
  (generateProjectMetadata isoDateParse epochDateToString integerStringToNumber)
  (only parsing).
Abbreviation refUpdateProject :=
  (updateProject isoDateParse epochDateToString integerStringToNumber integerParseFloat)
  (only parsing).
Abbreviation refGetProjectById := (getProjectById epochDateToString)
  (only parsing).
Abbreviation refDeleteProject := (deleteProject epochDateToString)
  (only parsing).
Abbreviation refGetEmployeeById := (getEmployeeById epochDateToString)
  (only parsing).
Abbreviation refDeleteEmployee := (deleteEmployee epochDateToString)
  (only parsing).
Abbreviation refUpdateEmployeeStatus := (updateEmployeeStatus epochDateToString)
  (only parsing).
Abbreviation refGetTasksByStatus :=
  (getTasksByStatus isoDateParse epochDateToString integerStringToNumber)
  (only parsing).
Abbreviation refGetTasksByProject :=
  (getTasksByProject isoDateParse epochDateToString integerStringToNumber)
  (only parsing).
Abbreviation refValidateUserInput :=
  (validateUserInput epochDateToString integerStringToNumber)
  (only parsing).
Abbreviation refNormalizeUserData :=
  (normalizeUserData isoDateParse epochDateToString integerStringToNumber)
  (only parsing).
Abbreviation refUpdateUser :=
  (updateUser isoDateParse epochDateToString integerStringToNumber permissiveModel)
  (only parsing).

(** Refutes an equation between two different closed numbers. *)
Ltac differ := let H := fresh in intros H; vm_compute in H; discriminate H.

(** On 9 January 2024 a project scheduled from 1 to 10 January is on
    track. *)
Lemma valid_date_range_is_always_on_track_witness :
  refNewDate (get towerScheduled "startDate") = Some 1704067200000
  ∧ refNewDate (get towerScheduled "endDate") = Some 1704844800000
  ∧ get (refGenerateProjectMetadata 1704758400000 towerScheduled) "timelineStatus"
    = JStr "ON_TRACK"
  ∧ get (refGenerateProjectMetadata 1704758400000 towerScheduled) "risks" = strArray [].
Proof.
  split; [run|]. split; [run|].
  destruct (valid_date_range_is_always_on_track isoDateParse epochDateToString
              integerStringToNumber 1704758400000 towerScheduled
              1704067200000 1704844800000) as (Htimeline & Hrisks & _);
    [run|run|run|run|lia|].
  by split.
Defined.


(** Renaming project 7 without restating its status. *)
Lemma updateProject_without_status_is_refused_witness :
  status (fst (refUpdateProject siteDb 1000 "7" (obj [("name", JStr "Tower B")]))) = 400
  ∧ snd (refUpdateProject siteDb 1000 "7" (obj [("name", JStr "Tower B")])) = siteDb.
Proof.
  split; [run|].
  apply (updateProject_without_status_is_refused isoDateParse epochDateToString
           integerStringToNumber integerParseFloat siteDb 1000 "7"
           (obj [("name", JStr "Tower B")])).
  run.
Defined.

(** [7abc] addresses project 7. *)
Lemma project_id_parameter_ignores_a_suffix_witness :
  refGetProjectById siteDb "7abc" = refGetProjectById siteDb "7"
  ∧ status (refGetProjectById siteDb "7abc") = 200
  ∧ refDeleteProject siteDb "7abc" = refDeleteProject siteDb "7".
Proof.
  destruct (project_id_parameter_ignores_a_suffix epochDateToString siteDb
              "7" "a" "bc") as [Hget Hdelete]; [run|run|].
  split; [exact Hget|]. split; [run|exact Hdelete].
Defined.

(** The payload of Jane Doe has no phone: none is invented. *)
Lemma normalizeEmployeeData_rewrites_only_truthy_named_fields_witness :
  refNormalizeEmployeeData 1000 janeDoePayload = Ok janeDoeNormalised
  ∧ janeDoeNormalised !! "phone" = janeDoePayload !! "phone".
Proof.
  split; [run|].
  apply (normalizeEmployeeData_rewrites_only_truthy_named_fields isoDateParse
           epochDateToString integerStringToNumber 1000 janeDoePayload
           janeDoeNormalised "phone").
  - run.
  - right. run.
Defined.

Lemma normalizeEmployeeData_normal_forms_witness :
  refNormalizeEmployeeData 1000 janeDoePayload = Ok janeDoeNormalised
  ∧ ∃ s, get janeDoeNormalised "fullName" = JStr s ∧ trim s = s ∧ collapseSpaces s = s.
Proof.
  split; [run|].
  destruct (normalizeEmployeeData_normal_forms isoDateParse epochDateToString
              integerStringToNumber 1000 janeDoePayload janeDoeNormalised)
    as (Hname & _); [run|].
  apply Hname. run.
Defined.

(** Jane Doe is created under company 1. *)
Lemma createEmployee_stores_a_fresh_employee_witness :
  status (fst (refCreateEmployee acmeOnly 1000 janeDoePayload)) = 201
  ∧ ∃ e, snd (refCreateEmployee acmeOnly 1000 janeDoePayload)
         = withEmployees acmeOnly (employees acmeOnly ++ [e])
         ∧ is_Some (findOne (fieldEq "id" (get e "companyId")) (companies acmeOnly))
         ∧ truthy (get e "status") = true.
Proof.
  split; [run|].
  destruct (createEmployee_stores_a_fresh_employee isoDateParse epochDateToString
              integerStringToNumber permissiveModel acmeOnly 1000 janeDoePayload)
    as (e & Hdb & Hcompany & _ & _ & _ & Hstatus); [run|].
  exists e. split; [exact Hdb|]. split; [exact Hcompany|exact Hstatus].
Defined.

(** Jane Doe, once created, is read back under her id. *)
Lemma created_employee_can_be_read_witness :
  get janeDoeCreated "fullName" = JStr "Jane Doe"
  ∧ refGetEmployeeById (snd (refCreateEmployee acmeOnly 1000 janeDoePayload)) 2000 "5"
    = respond 200 [("success", JBool true); ("data", JObj janeDoeCreated);
                   timestamp 2000].
Proof.
  split; [run|].
  apply (created_employee_can_be_read isoDateParse epochDateToString
           integerStringToNumber permissiveModel acmeOnly 1000 2000 janeDoePayload
           janeDoeCreated 5 "5").
  - run.
  - run.
  - run.
  - lia.
  - run.
Defined.

(** Employee 1 is suspended and keeps her employee code. *)
Lemma updateEmployeeStatus_sets_the_status_only_witness :
  status (fst (refUpdateEmployeeStatus twoEmployees 1000 "1"
                 (obj [("status", JStr "suspended")]))) = 200
  ∧ ∃ before stored after updated,
      employees twoEmployees = before ++ stored :: after
      ∧ snd (refUpdateEmployeeStatus twoEmployees 1000 "1"
               (obj [("status", JStr "suspended")]))
        = withEmployees twoEmployees (before ++ updated :: after)
      ∧ get updated "status" = JStr "SUSPENDED"
      ∧ updated !! "employeeCode" = stored !! "employeeCode".
Proof.
  split; [run|].
  destruct (updateEmployeeStatus_sets_the_status_only epochDateToString twoEmployees
              1000 "1" (obj [("status", JStr "suspended")]))
    as (before & stored & after & s & updated & Hdb & _ & _ & Hs & _ & Hdb' & Hstatus
        & Hother); [run|].
  exists before, stored, after, updated.
  split; [exact Hdb|]. split; [exact Hdb'|].
  assert (get (obj [("status", JStr "suspended")]) "status" = JStr "suspended") as Hget
    by run.
  rewrite Hget in Hs. injection Hs as <-.
  split; [exact Hstatus|]. by apply Hother.
Defined.

(** Employee 1 is deleted. *)
Lemma deleted_employee_is_gone_witness :
  status (fst (refDeleteEmployee twoEmployees 1000 "1")) = 200
  ∧ length (employees (snd (refDeleteEmployee twoEmployees 1000 "1"))) = 1%nat
  ∧ status (refGetEmployeeById (snd (refDeleteEmployee twoEmployees 1000 "1")) 2000 "1")
    = 404.
Proof.
  split; [run|].
  destruct (deleted_employee_is_gone epochDateToString twoEmployees 1000 2000 "1")
    as [Hlength Hgone].
  - cbn [employees twoEmployees map].
    assert (get (obj [("id", JNum (Fin 1)); ("employeeCode", JStr "E1")]) "id"
            = JNum (Fin 1)) as -> by run.
    assert (get (obj [("id", JNum (Fin 2)); ("employeeCode", JStr "E2")]) "id"
            = JNum (Fin 2)) as -> by run.
    apply NoDup_cons_2; [|apply NoDup_singleton].
    by intros [=]%list_elem_of_singleton.
  - run.
  - split; [|exact Hgone].
    assert (length (employees twoEmployees) = 2%nat) as Htwo by run.
    rewrite Htwo in Hlength. exact (Nat.succ_inj _ _ Hlength).
Defined.

(** The creation that fails on a numeric phone writes nothing. *)
Lemma unsuccessful_requests_write_nothing_witness :
  status (fst (refApp acmeOnly 1000 (PostEmployees numericPhonePayload))) = 500
  ∧ snd (refApp acmeOnly 1000 (PostEmployees numericPhonePayload)) = acmeOnly.
Proof.
  split; [run|].
  apply (unsuccessful_requests_write_nothing isoDateParse epochDateToString
           integerStringToNumber integerParseFloat permissiveModel permissiveModel
           permissiveModel hexObjectId permissiveModel findsNothing countsNothing
           groupsNothing
           acmeOnly 1000 (PostEmployees numericPhonePayload));
    [reflexivity|differ|differ].
Defined.

(** Task 4 is deleted; task 9 stays. *)
Lemma deleteTask_removes_one_task_witness :
  status (fst (refDeleteTask siteDb "4")) = 200
  ∧ ∃ before deleted after,
      tasks siteDb = before ++ deleted :: after
      ∧ snd (refDeleteTask siteDb "4") = withTasks siteDb (before ++ after)
      ∧ dataOf (fst (refDeleteTask siteDb "4")) = JObj deleted.
Proof.
  split; [run|].
  destruct (deleteTask_removes_one_task hexObjectId siteDb "4")
    as (before & deleted & after & Hdb & _ & _ & Hdb' & Hdata); [run|].
  exists before, deleted, after.
  split; [exact Hdb|]. split; [exact Hdb'|exact Hdata].
Defined.

(** The task created after the tasks 4 and 9 is task 10. *)
Lemma created_task_can_be_read_witness :
  status (fst (refCreateTask siteDb 1000 pourPayload)) = 201
  ∧ status (refGetTaskById (snd (refCreateTask siteDb 1000 pourPayload)) "10") = 200
  ∧ dataOf (refGetTaskById (snd (refCreateTask siteDb 1000 pourPayload)) "10")
    = dataOf (fst (refCreateTask siteDb 1000 pourPayload)).
Proof.
  split; [run|].
  apply (created_task_can_be_read isoDateParse epochDateToString
           integerStringToNumber permissiveModel hexObjectId siteDb 1000 pourPayload
           "10").
  - run.
  - run.
  - safe_ids.
  - run.
  - run.
Defined.

(** Two pages of one task each are the two tasks of the database. *)
Lemma getAllTasks_pages_are_consecutive_witness :
  ∃ l1 l2,
    dataOf (refGetAllTasks siteDb firstPage) = docArray (map (withDetails siteDb) l1)
    ∧ dataOf (refGetAllTasks siteDb secondPage) = docArray (map (withDetails siteDb) l2)
    ∧ l1 ++ l2 = take (2 * Z.to_nat 1)
                   (drop (Z.to_nat ((1 - 1) * 1)) (matchingTasks siteDb (fun _ => true))).
Proof.
  apply (getAllTasks_pages_are_consecutive isoDateParse epochDateToString
           integerStringToNumber siteDb firstPage secondPage (fun _ => true) 1 1).
  - intros k Hk. unfold firstPage, secondPage, obj, get. cbn [list_to_map foldr].
    by rewrite !(lookup_insert_ne _ "page" k).
  - run.
  - run.
  - lia.
  - run.
  - lia.
  - run.
Defined.

(** The planned tasks, by either route. *)
Lemma getTasksByStatus_is_the_filtered_listing_witness :
  status (refGetTasksByStatus scheduleDb "planned" ∅) = 200
  ∧ dataOf (refGetTasksByStatus scheduleDb "planned" ∅)
    = dataOf (refGetAllTasks scheduleDb (set "status" (JStr "planned") ∅)).
Proof.
  split; [run|].
  apply (getTasksByStatus_is_the_filtered_listing isoDateParse epochDateToString
           integerStringToNumber scheduleDb "planned" ∅); run.
Defined.

(** The tasks of project 7. *)
Lemma getTasksByProject_lists_tasks_of_the_project_witness :
  status (refGetTasksByProject scheduleDb "7" ∅) = 200
  ∧ ∃ project listed,
      findOne (fieldEq "id" (JNum (Fin 7))) (projects scheduleDb) = Some project
      ∧ dataOf (refGetTasksByProject scheduleDb "7" ∅) = docArray listed
      ∧ Forall (fun t => get t "projectId" = JNum (Fin 7)
                         ∧ get t "projectName" = get project "name") listed.
Proof.
  split; [run|].
  destruct (getTasksByProject_lists_tasks_of_the_project isoDateParse epochDateToString
              integerStringToNumber scheduleDb "7" ∅)
    as (z & project & listed & Hz & Hproject & Hdata & Hall & _); [run|].
  assert (z = 7) as ->.
  { assert (parseIntAutoStr "7" = Fin 7) as H7 by run.
    rewrite H7 in Hz. by injection Hz. }
  exists project, listed. split; [done|]. split; [done|].
  eapply Forall_impl; [exact Hall|]. by intros t (? & ? & _).
Defined.

(** The payload of Ann is accepted: its e-mail is well formed. *)
Lemma validateUserInput_accepts_well_formed_emails_witness :
  refValidateUserInput annPayload = Ok []
  ∧ ∃ mailbox host tld,
      "Ann@Example.org" = mailbox +:+ "@" +:+ host +:+ "." +:+ tld
      ∧ emailPart mailbox ∧ emailPart host ∧ emailPart tld.
Proof.
  split; [run|].
  destruct (validateUserInput_accepts_well_formed_emails epochDateToString
              integerStringToNumber annPayload) as [Hshape _]; [run|].
  assert (toStringJs epochDateToString (get annPayload "email") = "Ann@Example.org")
    as Hemail by run.
  by rewrite Hemail in Hshape.
Defined.

(** The normal form of the payload of Ann. *)
Lemma normalizeUserData_normal_forms_witness :
  ∃ nd, refNormalizeUserData 1000 annPayload = Ok nd
        ∧ get nd "email" = JStr "ann@example.org"
        ∧ get nd "isActive" = JBool true
        ∧ get nd "createdAt" = JDate (Some 1000).
Proof.
  destruct (refNormalizeUserData 1000 annPayload) as [nd|e] eqn:Hnorm.
  - exists nd. split; [done|].
    destruct (normalizeUserData_normal_forms isoDateParse epochDateToString
                integerStringToNumber 1000 annPayload nd Hnorm)
      as (Hactive & Hcreated & _).
    split; [|split].
    + assert (refNormalizeUserData 1000 annPayload
              = Ok (obj [("id", JNum (Fin 3)); ("email", JStr "ann@example.org");
                         ("name", JStr "Ann"); ("isActive", JBool true);
                         ("createdAt", JDate (Some 1000))])) as Hval by run.
      rewrite Hnorm in Hval. injection Hval as ->. run.
    + rewrite Hactive. run.
    + rewrite Hcreated. run.
  - exfalso.
    assert (refNormalizeUserData 1000 annPayload
            = Ok (obj [("id", JNum (Fin 3)); ("email", JStr "ann@example.org");
                       ("name", JStr "Ann"); ("isActive", JBool true);
                       ("createdAt", JDate (Some 1000))])) as Hval by run.
    rewrite Hnorm in Hval. discriminate Hval.
Defined.

(** Renaming the inactive user 3 activates her. *)
Lemma updateUser_activates_unless_told_otherwise_witness :
  get ann "isActive" = JBool false
  ∧ status (fst (refUpdateUser annOnly 1000 "3" (obj [("name", JStr "Ann B")]))) = 200
  ∧ ∃ updated,
      users (snd (refUpdateUser annOnly 1000 "3" (obj [("name", JStr "Ann B")])))
      = [updated]
      ∧ get updated "isActive" = JBool true.
Proof.
  split; [run|]. split; [run|].
  destruct (updateUser_activates_unless_told_otherwise isoDateParse epochDateToString
              integerStringToNumber permissiveModel annOnly 1000 "3"
              (obj [("name", JStr "Ann B")]))
    as (before & stored & after & updated & Hdb & _ & _ & Hdb' & Hactive);
    [run|].
  exists updated.
  assert (before = [] ∧ after = []) as [-> ->].
  { cbn [users annOnly] in Hdb. destruct before as [|d before].
    - injection Hdb as _ <-. done.
    - injection Hdb as _ Hnil. by destruct before. }
  rewrite Hdb'. split; [done|]. apply Hactive. run.
Defined.

(** User 3 cannot keep her own e-mail while user 4 exists. *)
Lemma updateUser_with_email_conflicts_with_any_other_user_witness :
  ∃ msg, refUpdateUser twoUsers 1000 "3" (obj [("email", JStr "ann@example.org")])
         = (refusal 409 msg, twoUsers)
         ∧ contains "User with ID 3 already exists" msg = true.
Proof.
  apply (updateUser_with_email_conflicts_with_any_other_user isoDateParse
           epochDateToString integerStringToNumber permissiveModel twoUsers 1000 "3" 3
           (obj [("email", JStr "ann@example.org")])
           (obj [("email", JStr "ann@example.org"); ("createdAt", JDate (Some 1000));
                 ("isActive", JBool true)])
           ann
           (obj [("id", JNum (Fin 4)); ("email", JStr "bob@example.org");
                 ("name", JStr "Bob"); ("isActive", JBool true)])).
  - run.
  - lia.
  - run.
  - run.
  - run.
  - right. by left.
  - run.
Defined.
